(** * QCamera3PostProc: a shallow embedding of the HAL3 post-processor

    The development follows
    [hardware/qcom/camera/QCamera2/HAL3/QCamera3PostProc.cpp]:
    the EXIF helpers ([getRational], [getExifExpTimeInfo],
    [QCamera3Exif::addEntry]), the two encode-configuration builders, the
    two encode submission functions and the command loop
    [dataProcessRoutine] with its queues.

    Integers of the C++ code are [Z] with the narrowing casts written out;
    pointers are [option] (with [None] for NULL); calls into the jpeg
    encoder, the reprocess channel and the allocator are read from an
    environment record, so that every outcome of those calls is covered. *)

From Stdlib Require Import ZArith Lia.
From stdpp Require Import base option list numbers sets.

#[local] Set Warnings "-clear-no-such-hyp".

Local Open Scope Z_scope.

(** ** Status codes and machine integers *)

Module Status.
  (** [utils/Errors.h]: [NO_ERROR] is 0, the others are negated errno
      values, [UNKNOWN_ERROR] is [INT32_MIN]. *)
Definition NO_ERROR : Z := 0.
Definition BAD_VALUE : Z := -22.
Definition NO_MEMORY : Z := -12.
Definition BAD_INDEX : Z := -75.
Definition UNKNOWN_ERROR : Z := -2147483648.
End Status.
Export Status.

Module MachInt.
Definition INT32_MAX : Z := 2147483647.
Definition INT64_MIN : Z := -9223372036854775808.
Definition INT64_MAX : Z := 9223372036854775807.

  (** [(uint32_t)z] *)
Definition to_uint32 (z : Z) : Z := z mod 2 ^ 32.

  (** [(int)z] for a wider [z]: the low 32 bits, read as two's complement. *)
Definition to_int32 (z : Z) : Z := (z + 2 ^ 31) mod 2 ^ 32 - 2 ^ 31.

Definition in_int64 (z : Z) : Prop := INT64_MIN <= z <= INT64_MAX.
End MachInt.
Export MachInt.

(** ** EXIF helpers *)

Module Exif.

  (** [rat_t]: unsigned numerator and denominator. *)
Record rat_t := mk_rat { num : Z; denom : Z }.

  (** [srat_t]: signed numerator and denominator. *)
Record srat_t := mk_srat { snum : Z; sdenom : Z }.

  (** [getRational(rat, num, denom)].  The pointer [rat] is [None] when
      NULL and [Some r] when it points to [r]; the result is the status and
      the pointee afterwards. *)
Definition getRational (rat : option rat_t) (n d : Z) : Z * option rat_t :=
    if bool_decide (0 > n) || bool_decide (0 >= d) then (BAD_VALUE, rat)
    else
      match rat with
      | None => (BAD_VALUE, None)
      | Some _ => (NO_ERROR, Some (mk_rat (to_uint32 n) (to_uint32 d)))
      end.

  (** [getExifExpTimeInfo(expoTimeInfo, value)], [value] an [int64_t]. *)
Definition getExifExpTimeInfo (expoTimeInfo : option rat_t) (value : Z)
    : Z * option rat_t :=
    let cal_exposureTime := if bool_decide (value ≠ 0) then value else 60 in
    getRational expoTimeInfo 1 (to_int32 cal_exposureTime).

  (** [getExifExposureValue(exposure_val, exposure_comp, step)]: the product
      is an [int32_t] product. *)
Definition getExifExposureValue (exposure_comp step_num step_den : Z)
    : Z * srat_t :=
    (0, mk_srat (to_int32 (exposure_comp * step_num)) step_den).

  (** [exif_tag_type_t]; [EXIF_OTHER] stands for any value outside the
      enumerators the switch of [addEntry] names. *)
Inductive exif_tag_type_t :=
  | EXIF_BYTE | EXIF_ASCII | EXIF_SHORT | EXIF_LONG | EXIF_RATIONAL
  | EXIF_UNDEFINED | EXIF_SLONG | EXIF_SRATIONAL | EXIF_OTHER.

  (** [sizeof] of one element of each tag type. *)
Definition elem_size (t : exif_tag_type_t) : Z :=
    match t with
    | EXIF_BYTE | EXIF_ASCII | EXIF_UNDEFINED => 1
    | EXIF_SHORT => 2
    | EXIF_LONG | EXIF_SLONG => 4
    | EXIF_RATIONAL | EXIF_SRATIONAL => 8
    | EXIF_OTHER => 0
    end.

  (** The [data] union of a tag entry: still zeroed, a value stored in
      place, or a pointer to a heap copy.  Contents are the bytes copied. *)
Inductive exif_tag_data :=
  | DataZero
  | DataInline (bytes : list Z)
  | DataHeap (bytes : list Z).

  (** [QEXIF_INFO_DATA]: tag id and tag entry. *)
Record exif_entry := mk_entry {
    tag_id : Z;
    tag_type : option exif_tag_type_t;
    tag_count : Z;
    tag_copy : Z;
    tag_data : exif_tag_data
  }.

Definition zero_entry : exif_entry := mk_entry 0 None 0 0 DataZero.

  (** [QCamera3Exif]: the array [m_Entries] (of
      [MAX_HAL3_EXIF_TABLE_ENTRIES] elements) and [m_nNumEntries]. *)
Record QCamera3Exif := mk_exif {
    m_Entries : list exif_entry;
    m_nNumEntries : Z
  }.

Section WithCapacity.
    (** [MAX_HAL3_EXIF_TABLE_ENTRIES] is defined in [QCamera3PostProc.h]. *)
Variable MAX_HAL3_EXIF_TABLE_ENTRIES : nat.

    (** The constructor: no entry, the array zeroed. *)
Definition new_QCamera3Exif : QCamera3Exif :=
      mk_exif (replicate MAX_HAL3_EXIF_TABLE_ENTRIES zero_entry) 0.

    (** [memcpy(dst, data, n)]: the first [n] bytes readable at [data]. *)
Definition memcpy_from (data : list Z) (n : Z) : list Z :=
      take (Z.to_nat n) data.

    (** The payload [addEntry] stores for a type that keeps one element in
        place and copies several to the heap; [None] when [malloc] fails,
        in which case the union is left as it was. *)
Definition store_counted (t : exif_tag_type_t) (count : Z)
        (data : list Z) (malloc_ok : bool) : option exif_tag_data :=
      if bool_decide (count > 1) then
        if malloc_ok then Some (DataHeap (memcpy_from data (count * elem_size t)))
        else None
      else Some (DataInline (memcpy_from data (elem_size t))).

    (** [QCamera3Exif::addEntry(tagid, type, count, data)].  [malloc_ok]
        tells whether the allocation the call may make succeeds. *)
Definition addEntry (exif : QCamera3Exif) (tagid : Z)
        (type : exif_tag_type_t) (count : Z) (data : list Z)
        (malloc_ok : bool) : Z * QCamera3Exif :=
      if bool_decide (m_nNumEntries exif >= Z.of_nat MAX_HAL3_EXIF_TABLE_ENTRIES)
      then (NO_MEMORY, exif)
      else
        let i := Z.to_nat (m_nNumEntries exif) in
        let e0 := default zero_entry (m_Entries exif !! i) in
        let stored :=
          match type with
          | EXIF_ASCII =>
              (* malloc(count + 1); memset 0; memcpy count *)
              if malloc_ok
              then Some (DataHeap (memcpy_from data count ++ [0]))
              else None
          | EXIF_UNDEFINED =>
              if malloc_ok then Some (DataHeap (memcpy_from data count))
              else None
          | EXIF_OTHER => Some (tag_data e0)
          | _ => store_counted type count data malloc_ok
          end in
        let rc := match stored with Some _ => NO_ERROR | None => NO_MEMORY end in
        let e1 := mk_entry tagid (Some type) count 1
                    (default (tag_data e0) stored) in
        (rc, mk_exif (<[i := e1]> (m_Entries exif))
                     (to_uint32 (m_nNumEntries exif + 1))).

End WithCapacity.
End Exif.
Export Exif.

(** ** Encode configuration and encode submission *)

Module Encode.

Record cam_dimension_t := mk_dim { width : Z; height : Z }.
Definition zero_dim : cam_dimension_t := mk_dim 0 0.

Record cam_rect_t := mk_rect {
    rect_left : Z; rect_top : Z; rect_width : Z; rect_height : Z }.
Definition zero_rect : cam_rect_t := mk_rect 0 0 0 0.

  (** One plane of [cam_frame_len_offset_t]: only the stride and scan-line
      fields are read or written by the post-processor. *)
Record cam_mp_len_offset_t := mk_plane { stride : Z; scanline : Z }.
Definition zero_plane : cam_mp_len_offset_t := mk_plane 0 0.

  (** [cam_frame_len_offset_t]: plane 0, the other planes, the length. *)
Record cam_frame_len_offset_t := mk_offset {
    mp0 : cam_mp_len_offset_t;
    mp_rest : list cam_mp_len_offset_t;
    frame_len : Z
  }.
Definition zero_offset : cam_frame_len_offset_t :=
    mk_offset zero_plane [] 0.

  (** Exchange [mp[0].stride] and [mp[0].scanline]. *)
Definition swap_stride_scanline (o : cam_frame_len_offset_t)
    : cam_frame_len_offset_t :=
    let temp := stride (mp0 o) in
    mk_offset (mk_plane (scanline (mp0 o)) temp) (mp_rest o) (frame_len o).

Inductive cam_format_t :=
  | CAM_FORMAT_YUV_420_NV12 | CAM_FORMAT_YUV_420_NV21
  | CAM_FORMAT_YUV_420_NV21_ADRENO | CAM_FORMAT_YUV_420_YV12
  | CAM_FORMAT_YUV_422_NV16 | CAM_FORMAT_YUV_422_NV61
  | CAM_FORMAT_YUV_420_NV12_VENUS | CAM_FORMAT_YUV_420_NV21_VENUS
  | CAM_FORMAT_OTHER.

Inductive mm_jpeg_color_format :=
  | MM_JPEG_COLOR_FORMAT_YCRCBLP_H2V2 | MM_JPEG_COLOR_FORMAT_YCBCRLP_H2V2
  | MM_JPEG_COLOR_FORMAT_YCRCBLP_H2V1 | MM_JPEG_COLOR_FORMAT_YCBCRLP_H2V1.

Inductive mm_jpeg_format_t := MM_JPEG_FMT_YUV | MM_JPEG_FMT_BITSTREAM.

Inductive cam_stream_type_t :=
  | CAM_STREAM_TYPE_SNAPSHOT | CAM_STREAM_TYPE_OFFLINE_PROC
  | CAM_STREAM_TYPE_OTHER.

Inductive reprocess_type_t :=
  | REPROCESS_TYPE_NONE | REPROCESS_TYPE_JPEG | REPROCESS_TYPE_OTHER.

  (** [getColorfmtFromImgFmt] *)
Definition getColorfmtFromImgFmt (img_fmt : cam_format_t)
    : mm_jpeg_color_format :=
    match img_fmt with
    | CAM_FORMAT_YUV_420_NV21 | CAM_FORMAT_YUV_420_NV21_VENUS =>
        MM_JPEG_COLOR_FORMAT_YCRCBLP_H2V2
    | CAM_FORMAT_YUV_420_NV21_ADRENO => MM_JPEG_COLOR_FORMAT_YCRCBLP_H2V2
    | CAM_FORMAT_YUV_420_NV12 | CAM_FORMAT_YUV_420_NV12_VENUS =>
        MM_JPEG_COLOR_FORMAT_YCBCRLP_H2V2
    | CAM_FORMAT_YUV_420_YV12 => MM_JPEG_COLOR_FORMAT_YCBCRLP_H2V2
    | CAM_FORMAT_YUV_422_NV61 => MM_JPEG_COLOR_FORMAT_YCRCBLP_H2V1
    | CAM_FORMAT_YUV_422_NV16 => MM_JPEG_COLOR_FORMAT_YCBCRLP_H2V1
    | CAM_FORMAT_OTHER => MM_JPEG_COLOR_FORMAT_YCRCBLP_H2V2
    end.

  (** [getJpegImgTypeFromImgFmt] *)
Definition getJpegImgTypeFromImgFmt (img_fmt : cam_format_t)
    : mm_jpeg_format_t := MM_JPEG_FMT_YUV.

  (** [jpeg_settings_t], with the address of the heap object it lives in.
      The integer fields hold the values the settings carry; their C types
      are declared in [QCamera3HWI.h]. *)
Record jpeg_settings_t := mk_settings {
    settings_addr : nat;
    out_buf_index : Z;
    jpeg_orientation : Z;
    jpeg_quality : Z;
    jpeg_thumb_quality : Z;
    thumbnail_size : cam_dimension_t
  }.

  (** [metadata_buffer_t]: the fields the EXIF assembler reads, as optional
      entries. *)
Record metadata_buffer_t := mk_metadata {
    meta_sensor_sensitivity : option Z;
    meta_sensor_exposure_time : option Z;
    meta_exposure_compensation : option Z
  }.

  (** [mm_camera_buf_def_t] *)
Record mm_camera_buf_def_t := mk_buf_def {
    stream_id : Z;
    buf_idx : Z;
    mem_info : bool;                       (* [mem_info != NULL] *)
    buffer : option metadata_buffer_t
  }.

  (** [mm_camera_super_buf_t], with the address of the heap object. *)
Record mm_camera_super_buf_t := mk_super_buf {
    super_buf_addr : nat;
    ch_id : Z;
    bufs : list mm_camera_buf_def_t        (* [num_bufs] is its length *)
  }.

  (** [reprocess_config_t] *)
Record reprocess_config_t := mk_reproc_config {
    reprocess_type : reprocess_type_t;
    stream_format : cam_format_t;
    input_stream_dim : cam_dimension_t;
    output_stream_dim : cam_dimension_t;
    input_stream_plane_info : cam_frame_len_offset_t
  }.

  (** [qcamera_fwk_input_pp_data_t], with the address of the heap object. *)
Record qcamera_fwk_input_pp_data_t := mk_fwk_input {
    fwk_addr : nat;
    frameNumber : Z;
    input_buffer_frame_len : Z;
    input_buffer_ptr : Z;
    input_buffer_fd : Z;
    metadata_buffer : option metadata_buffer_t;
    reproc_config : reprocess_config_t
  }.

  (** [mm_jpeg_buf_t] *)
Record mm_jpeg_buf_t := mk_jpeg_buf {
    buf_index : Z;
    buf_size : Z;
    buf_vaddr : Z;
    buf_fd : Z;
    buf_format : mm_jpeg_format_t;
    buf_offset : cam_frame_len_offset_t
  }.
Definition zero_buf : mm_jpeg_buf_t :=
    mk_jpeg_buf 0 0 0 0 MM_JPEG_FMT_YUV zero_offset.

  (** [mm_jpeg_dim_t] *)
Record mm_jpeg_dim_t := mk_jpeg_dim {
    src_dim : cam_dimension_t;
    dst_dim : cam_dimension_t;
    crop : cam_rect_t
  }.
Definition zero_jpeg_dim : mm_jpeg_dim_t :=
    mk_jpeg_dim zero_dim zero_dim zero_rect.

  (** [mm_jpeg_encode_params_t] (callback and user data left out). *)
Record mm_jpeg_encode_params_t := mk_params {
    encode_thumbnail : bool;
    color_format : mm_jpeg_color_format;
    quality : Z;
    thumb_quality : Z;
    num_src_bufs : Z;
    src_main_buf : list mm_jpeg_buf_t;
    num_tmb_bufs : Z;
    src_thumb_buf : list mm_jpeg_buf_t;
    num_dst_bufs : Z;
    dest_buf : list mm_jpeg_buf_t;
    main_dim : mm_jpeg_dim_t;
    thumb_dim : mm_jpeg_dim_t;
    rotation : Z
  }.

  (** The [exif_info] of an encode job: entry array and entry count. *)
Record mm_jpeg_exif_info_t := mk_exif_info {
    exif_data : list exif_entry;
    numOfEntries : Z
  }.
Definition zero_exif_info : mm_jpeg_exif_info_t := mk_exif_info [] 0.

  (** [mm_jpeg_job_t] for [JPEG_JOB_TYPE_ENCODE] (3A version and debug
      parameters left out). *)
Record mm_jpeg_job_t := mk_job {
    session_id : Z;
    src_index : Z;
    dst_index : Z;
    thumb_index : Z;
    job_rotation : Z;
    job_main_dim : mm_jpeg_dim_t;
    job_thumb_dim : mm_jpeg_dim_t;
    exif_info : mm_jpeg_exif_info_t;
    p_metadata : option metadata_buffer_t
  }.

  (** [QCamera3StreamMem]: buffer count and per-index accessors. *)
Record QCamera3StreamMem := mk_stream_mem {
    getCnt : Z;
    getSize : Z -> Z;
    getPtr : Z -> Z;
    getFd : Z -> Z
  }.

  (** [QCamera3Stream]: what its getters return. *)
Record QCamera3Stream := mk_stream {
    getMyType : cam_stream_type_t;
    getFormat : cam_format_t;
    getFrameOffset : cam_frame_len_offset_t;
    getStreamBufs : option QCamera3StreamMem;
    getFrameDimension : cam_dimension_t
  }.

  (** [QCamera3Channel]: handle and stream lookup. *)
Record QCamera3Channel := mk_channel {
    getMyHandle : Z;
    getStreamByHandle : Z -> option QCamera3Stream
  }.

  (** [qcamera_hal3_jpeg_data_t] *)
Record qcamera_hal3_jpeg_data_t := mk_jpeg_data {
    jobId : Z;
    src_frame : option mm_camera_super_buf_t;
    src_reproc_frame : option mm_camera_super_buf_t;
    metadata : option metadata_buffer_t;
    src_metadata : option mm_camera_super_buf_t;
    fwk_frame : option qcamera_fwk_input_pp_data_t;
    fwk_src_buffer : option qcamera_fwk_input_pp_data_t;
    pJpegExifObj : option QCamera3Exif;
    jpeg_settings : option jpeg_settings_t
  }.

Definition set_exif_jobId (j : qcamera_hal3_jpeg_data_t)
      (e : option QCamera3Exif) (id : Z) : qcamera_hal3_jpeg_data_t :=
    mk_jpeg_data id (src_frame j) (src_reproc_frame j) (metadata j)
      (src_metadata j) (fwk_frame j) (fwk_src_buffer j) e (jpeg_settings j).

  (** [mm_jpeg_ops_t]: the encoder interface.  [create_session] yields the
      status and the value left in the session id; [start_job] the status
      and the job id. *)
Record mm_jpeg_ops_t := mk_jpeg_ops {
    create_session : Z -> mm_jpeg_encode_params_t -> Z * Z;
    destroy_session : Z -> Z;
    start_job : mm_jpeg_job_t -> Z * Z;
    abort_job : Z -> Z
  }.

End Encode.
Export Encode.

(** ** The post-processor object, its queues and its environment *)

Module PostProc.

(** [qcamera_hal3_pp_buffer_t] (the output handle left out). *)
Record qcamera_hal3_pp_buffer_t := mk_pp_buffer {
  pp_input : option mm_camera_super_buf_t;
  pp_frameNumber : Z
}.

(** [qcamera_hal3_pp_data_t] *)
Record qcamera_hal3_pp_data_t := mk_pp_data {
  pp_src_frame : option mm_camera_super_buf_t;
  pp_fwk_src_frame : option qcamera_fwk_input_pp_data_t;
  pp_metadata : option metadata_buffer_t;
  pp_jpeg_settings : option jpeg_settings_t;
  pp_src_metadata : option mm_camera_super_buf_t
}.

Definition zero_pp_data : qcamera_hal3_pp_data_t :=
  mk_pp_data None None None None None.

Definition zero_jpeg_data : qcamera_hal3_jpeg_data_t :=
  mk_jpeg_data 0 None None None None None None None None.

(** [camera_cmd_type_t]: the commands the routine switches on. *)
Inductive camera_cmd_type_t :=
| CAMERA_CMD_TYPE_START_DATA_PROC
| CAMERA_CMD_TYPE_STOP_DATA_PROC
| CAMERA_CMD_TYPE_DO_NEXT_JOB
| CAMERA_CMD_TYPE_EXIT
| CAMERA_CMD_TYPE_NONE.

(** What the post-processor does to the world outside it, in order: buffers
    handed back, heap objects freed, encoder and reprocess-channel calls,
    commands posted to its own thread. *)
Inductive event :=
| EvBufDone (f : mm_camera_super_buf_t)          (* m_parent->bufDone *)
| EvReprocBufDone (f : mm_camera_super_buf_t)    (* m_pReprocChannel->bufDone *)
| EvMetadataBufDone (m : mm_camera_super_buf_t)  (* m_parent->metadataBufDone *)
| EvFreeSuperBuf (f : mm_camera_super_buf_t)
| EvFreeSettings (s : jpeg_settings_t)
| EvFreeFwkFrame (f : qcamera_fwk_input_pp_data_t)
| EvFreeJpegJob
| EvFreePPJob
| EvFreePPBuffer
| EvDeleteExif
| EvCleanInvalidateCache (idx : Z)
| EvDestroySession (id : Z)
| EvCreateSession (p : mm_jpeg_encode_params_t)
| EvStartJob (j : mm_jpeg_job_t) (ret : Z) (job_id : Z)
| EvAbortJob (id : Z)
| EvJobComplete (id : Z)                         (* the encoder's callback *)
| EvJpegClose (handle : Z)
| EvUnmapOfflineBuffers (all : bool)
| EvOverrideFwkMetadata (f : qcamera_fwk_input_pp_data_t)
| EvOverrideMetadata (b : qcamera_hal3_pp_buffer_t)
| EvDoReprocessOffline (frame_number : Z)
| EvReprocStart
| EvReprocStop
| EvReprocDelete
| EvSendCmd (c : camera_cmd_type_t).

(** [QCamera3PostProcessor]: the members the code reads and writes.  The
    owning channel [m_parent] and the output memory [mOutputMem] are taken
    as present: the constructor and [init] receive them from the channel,
    and the release paths dereference [m_parent] unchecked. *)
Record QCamera3PostProcessor := mk_pme {
  m_parent : QCamera3Channel;
  mOutputMem : QCamera3StreamMem;
  mJpegClientHandle : Z;
  mJpegSessionId : Z;
  m_bThumbnailNeeded : bool;
  m_pReprocChannel : option QCamera3Channel;
  m_inputPPQ : list qcamera_hal3_pp_buffer_t;
  m_inputFWKPPQ : list qcamera_fwk_input_pp_data_t;
  m_ongoingPPQ : list qcamera_hal3_pp_data_t;
  m_inputJpegQ : list qcamera_hal3_jpeg_data_t;
  m_ongoingJpegQ : list qcamera_hal3_jpeg_data_t;
  m_inputMetaQ : list mm_camera_super_buf_t;
  m_jpegSettingsQ : list jpeg_settings_t;
  log : list event
}.

Definition set_mJpegSessionId (p : QCamera3PostProcessor) (v : Z) :=
  mk_pme (m_parent p) (mOutputMem p) (mJpegClientHandle p) v
    (m_bThumbnailNeeded p) (m_pReprocChannel p) (m_inputPPQ p)
    (m_inputFWKPPQ p) (m_ongoingPPQ p) (m_inputJpegQ p) (m_ongoingJpegQ p)
    (m_inputMetaQ p) (m_jpegSettingsQ p) (log p).

Definition set_m_bThumbnailNeeded (p : QCamera3PostProcessor) (v : bool) :=
  mk_pme (m_parent p) (mOutputMem p) (mJpegClientHandle p) (mJpegSessionId p)
    v (m_pReprocChannel p) (m_inputPPQ p)
    (m_inputFWKPPQ p) (m_ongoingPPQ p) (m_inputJpegQ p) (m_ongoingJpegQ p)
    (m_inputMetaQ p) (m_jpegSettingsQ p) (log p).

Definition set_m_pReprocChannel (p : QCamera3PostProcessor)
    (v : option QCamera3Channel) :=
  mk_pme (m_parent p) (mOutputMem p) (mJpegClientHandle p) (mJpegSessionId p)
    (m_bThumbnailNeeded p) v (m_inputPPQ p)
    (m_inputFWKPPQ p) (m_ongoingPPQ p) (m_inputJpegQ p) (m_ongoingJpegQ p)
    (m_inputMetaQ p) (m_jpegSettingsQ p) (log p).

Definition set_m_inputPPQ (p : QCamera3PostProcessor)
    (v : list qcamera_hal3_pp_buffer_t) :=
  mk_pme (m_parent p) (mOutputMem p) (mJpegClientHandle p) (mJpegSessionId p)
    (m_bThumbnailNeeded p) (m_pReprocChannel p) v
    (m_inputFWKPPQ p) (m_ongoingPPQ p) (m_inputJpegQ p) (m_ongoingJpegQ p)
    (m_inputMetaQ p) (m_jpegSettingsQ p) (log p).

Definition set_m_inputFWKPPQ (p : QCamera3PostProcessor)
    (v : list qcamera_fwk_input_pp_data_t) :=
  mk_pme (m_parent p) (mOutputMem p) (mJpegClientHandle p) (mJpegSessionId p)
    (m_bThumbnailNeeded p) (m_pReprocChannel p) (m_inputPPQ p)
    v (m_ongoingPPQ p) (m_inputJpegQ p) (m_ongoingJpegQ p)
    (m_inputMetaQ p) (m_jpegSettingsQ p) (log p).

Definition set_m_ongoingPPQ (p : QCamera3PostProcessor)
    (v : list qcamera_hal3_pp_data_t) :=
  mk_pme (m_parent p) (mOutputMem p) (mJpegClientHandle p) (mJpegSessionId p)
    (m_bThumbnailNeeded p) (m_pReprocChannel p) (m_inputPPQ p)
    (m_inputFWKPPQ p) v (m_inputJpegQ p) (m_ongoingJpegQ p)
    (m_inputMetaQ p) (m_jpegSettingsQ p) (log p).

Definition set_m_inputJpegQ (p : QCamera3PostProcessor)
    (v : list qcamera_hal3_jpeg_data_t) :=
  mk_pme (m_parent p) (mOutputMem p) (mJpegClientHandle p) (mJpegSessionId p)
    (m_bThumbnailNeeded p) (m_pReprocChannel p) (m_inputPPQ p)
    (m_inputFWKPPQ p) (m_ongoingPPQ p) v (m_ongoingJpegQ p)
    (m_inputMetaQ p) (m_jpegSettingsQ p) (log p).

Definition set_m_ongoingJpegQ (p : QCamera3PostProcessor)
    (v : list qcamera_hal3_jpeg_data_t) :=
  mk_pme (m_parent p) (mOutputMem p) (mJpegClientHandle p) (mJpegSessionId p)
    (m_bThumbnailNeeded p) (m_pReprocChannel p) (m_inputPPQ p)
    (m_inputFWKPPQ p) (m_ongoingPPQ p) (m_inputJpegQ p) v
    (m_inputMetaQ p) (m_jpegSettingsQ p) (log p).

Definition set_m_inputMetaQ (p : QCamera3PostProcessor)
    (v : list mm_camera_super_buf_t) :=
  mk_pme (m_parent p) (mOutputMem p) (mJpegClientHandle p) (mJpegSessionId p)
    (m_bThumbnailNeeded p) (m_pReprocChannel p) (m_inputPPQ p)
    (m_inputFWKPPQ p) (m_ongoingPPQ p) (m_inputJpegQ p) (m_ongoingJpegQ p)
    v (m_jpegSettingsQ p) (log p).

Definition set_m_jpegSettingsQ (p : QCamera3PostProcessor)
    (v : list jpeg_settings_t) :=
  mk_pme (m_parent p) (mOutputMem p) (mJpegClientHandle p) (mJpegSessionId p)
    (m_bThumbnailNeeded p) (m_pReprocChannel p) (m_inputPPQ p)
    (m_inputFWKPPQ p) (m_ongoingPPQ p) (m_inputJpegQ p) (m_ongoingJpegQ p)
    (m_inputMetaQ p) v (log p).

(** Append events to the log, in the order they happen. *)
Definition emit (p : QCamera3PostProcessor) (evs : list event) :=
  mk_pme (m_parent p) (mOutputMem p) (mJpegClientHandle p) (mJpegSessionId p)
    (m_bThumbnailNeeded p) (m_pReprocChannel p) (m_inputPPQ p)
    (m_inputFWKPPQ p) (m_ongoingPPQ p) (m_inputJpegQ p) (m_ongoingJpegQ p)
    (m_inputMetaQ p) (m_jpegSettingsQ p) (log p ++ evs).

(** The outcome of every call that leaves the post-processor during one
    step: the encoder, the HAL object, the reprocess channel, [malloc] and
    [getExifData] (which reads the clock and the system properties). *)
Record Env := mk_env {
  mJpegHandle : mm_jpeg_ops_t;
  needJpegRotation : bool;
  getStreamSize : Z * cam_dimension_t;     (* m_parent->getStreamSize *)
  getExifData :
    option metadata_buffer_t -> jpeg_settings_t -> option QCamera3Exif;
  malloc_debug_params : bool;
  malloc_jpeg_job : bool;
  malloc_pp_job : bool;
  malloc_pp_buffer : bool;
  overrideFwkMetadata : qcamera_fwk_input_pp_data_t -> Z;
  overrideMetadata :
    qcamera_hal3_pp_buffer_t -> option mm_camera_buf_def_t ->
    option jpeg_settings_t -> qcamera_fwk_input_pp_data_t ->
    Z * qcamera_fwk_input_pp_data_t;
  doReprocessOffline : qcamera_fwk_input_pp_data_t -> Z;
  reproc_bufDone : mm_camera_super_buf_t -> Z;
  unmapOfflineBuffers : bool -> Z;
  addOfflineReprocChannel : reprocess_config_t -> option QCamera3Channel;
  reproc_start : Z;
  jpeg_open : cam_dimension_t -> Z;
  jpeg_close : Z -> Z
}.

(** *** Job queues *)

(** Modelled from the spec: the queue class [QCameraQueue] is not part of
    the file; section 4.1 gives its contract.  A queue is the list of its
    items, oldest first; [enqueue] adds at the back, [dequeue] takes the
    oldest item or nothing, [isEmpty] tests for emptiness, [flush] drains
    the items through the queue's release routine and [init] resets the
    queue state, which for a list of items is nothing to do.
    [dequeue(false)], which the code comments as "dequeue the last one",
    takes the newest item. *)
Definition enqueue {A} (q : list A) (x : A) : list A := q ++ [x].

Definition dequeue {A} (q : list A) : option A * list A :=
  match q with
  | [] => (None, [])
  | x :: q' => (Some x, q')
  end.

Definition dequeue_last {A} (q : list A) : option A * list A :=
  (list.last q, removelast q).

Definition isEmpty {A} (q : list A) : bool :=
  match q with [] => true | _ => false end.

Definition queue_init {A} (q : list A) : list A := q.

Definition non_null {A} (p : option A) : bool :=
  match p with Some _ => true | None => false end.

End PostProc.
Export PostProc.

(** ** The encode-configuration builders *)

Module Config.

Definition set_encode_thumbnail (p : mm_jpeg_encode_params_t) (v : bool) :=
  mk_params v (color_format p) (quality p) (thumb_quality p) (num_src_bufs p)
    (src_main_buf p) (num_tmb_bufs p) (src_thumb_buf p) (num_dst_bufs p)
    (dest_buf p) (main_dim p) (thumb_dim p) (rotation p).

Definition set_color_format (p : mm_jpeg_encode_params_t)
    (v : mm_jpeg_color_format) :=
  mk_params (encode_thumbnail p) v (quality p) (thumb_quality p)
    (num_src_bufs p) (src_main_buf p) (num_tmb_bufs p) (src_thumb_buf p)
    (num_dst_bufs p) (dest_buf p) (main_dim p) (thumb_dim p) (rotation p).

Definition set_quality (p : mm_jpeg_encode_params_t) (v : Z) :=
  mk_params (encode_thumbnail p) (color_format p) v (thumb_quality p)
    (num_src_bufs p) (src_main_buf p) (num_tmb_bufs p) (src_thumb_buf p)
    (num_dst_bufs p) (dest_buf p) (main_dim p) (thumb_dim p) (rotation p).

Definition set_thumb_quality (p : mm_jpeg_encode_params_t) (v : Z) :=
  mk_params (encode_thumbnail p) (color_format p) (quality p) v
    (num_src_bufs p) (src_main_buf p) (num_tmb_bufs p) (src_thumb_buf p)
    (num_dst_bufs p) (dest_buf p) (main_dim p) (thumb_dim p) (rotation p).

Definition set_src_main (p : mm_jpeg_encode_params_t) (n : Z)
    (v : list mm_jpeg_buf_t) :=
  mk_params (encode_thumbnail p) (color_format p) (quality p)
    (thumb_quality p) n v (num_tmb_bufs p) (src_thumb_buf p)
    (num_dst_bufs p) (dest_buf p) (main_dim p) (thumb_dim p) (rotation p).

Definition set_src_thumb (p : mm_jpeg_encode_params_t) (n : Z)
    (v : list mm_jpeg_buf_t) :=
  mk_params (encode_thumbnail p) (color_format p) (quality p)
    (thumb_quality p) (num_src_bufs p) (src_main_buf p) n v
    (num_dst_bufs p) (dest_buf p) (main_dim p) (thumb_dim p) (rotation p).

Definition set_dest (p : mm_jpeg_encode_params_t) (n : Z)
    (v : list mm_jpeg_buf_t) :=
  mk_params (encode_thumbnail p) (color_format p) (quality p)
    (thumb_quality p) (num_src_bufs p) (src_main_buf p) (num_tmb_bufs p)
    (src_thumb_buf p) n v (main_dim p) (thumb_dim p) (rotation p).

Definition set_main_dim (p : mm_jpeg_encode_params_t) (v : mm_jpeg_dim_t) :=
  mk_params (encode_thumbnail p) (color_format p) (quality p)
    (thumb_quality p) (num_src_bufs p) (src_main_buf p) (num_tmb_bufs p)
    (src_thumb_buf p) (num_dst_bufs p) (dest_buf p) v (thumb_dim p)
    (rotation p).

Definition set_thumb_dim (p : mm_jpeg_encode_params_t) (v : mm_jpeg_dim_t) :=
  mk_params (encode_thumbnail p) (color_format p) (quality p)
    (thumb_quality p) (num_src_bufs p) (src_main_buf p) (num_tmb_bufs p)
    (src_thumb_buf p) (num_dst_bufs p) (dest_buf p) (main_dim p) v
    (rotation p).

Definition set_rotation (p : mm_jpeg_encode_params_t) (v : Z) :=
  mk_params (encode_thumbnail p) (color_format p) (quality p)
    (thumb_quality p) (num_src_bufs p) (src_main_buf p) (num_tmb_bufs p)
    (src_thumb_buf p) (num_dst_bufs p) (dest_buf p) (main_dim p)
    (thumb_dim p) v.

(** [buf[0]] of a buffer array. *)
Definition buf0 (bs : list mm_jpeg_buf_t) : mm_jpeg_buf_t :=
  default zero_buf (bs !! 0%nat).

Definition set_buf_offset (b : mm_jpeg_buf_t) (o : cam_frame_len_offset_t) :=
  mk_jpeg_buf (buf_index b) (buf_size b) (buf_vaddr b) (buf_fd b)
    (buf_format b) o.

Definition set_buf_index (b : mm_jpeg_buf_t) (i : Z) :=
  mk_jpeg_buf i (buf_size b) (buf_vaddr b) (buf_fd b) (buf_format b)
    (buf_offset b).

Section WithMaxBuf.
(** [MM_JPEG_MAX_BUF], from the encoder's interface header: the length of
    the buffer arrays of [mm_jpeg_encode_params_t]. *)
Variable MM_JPEG_MAX_BUF : nat.

(** [memset(&encodeParam, 0, sizeof(mm_jpeg_encode_params_t))] *)
Definition zero_params : mm_jpeg_encode_params_t :=
  mk_params false MM_JPEG_COLOR_FORMAT_YCRCBLP_H2V2 0 0
    0 (replicate MM_JPEG_MAX_BUF zero_buf)
    0 (replicate MM_JPEG_MAX_BUF zero_buf)
    0 (replicate MM_JPEG_MAX_BUF zero_buf)
    zero_jpeg_dim zero_jpeg_dim 0.

(** [getFWKJpegEncodeConfig(encode_parm, frame, jpeg_settings)]: the
    status, the parameters and the object (for [m_bThumbnailNeeded])
    afterwards. *)
Definition getFWKJpegEncodeConfig (pme : QCamera3PostProcessor)
    (encode_parm : mm_jpeg_encode_params_t)
    (frame : option qcamera_fwk_input_pp_data_t)
    (jpeg_settings : option jpeg_settings_t)
  : Z * mm_jpeg_encode_params_t * QCamera3PostProcessor :=
  match frame, jpeg_settings with
  | Some frame, Some jpeg_settings =>
    let bufSize := getSize (mOutputMem pme) (out_buf_index jpeg_settings) in
    if bool_decide (BAD_INDEX = bufSize) then (BAD_VALUE, encode_parm, pme)
    else
      let pme :=
        set_m_bThumbnailNeeded pme
          (bool_decide (width (thumbnail_size jpeg_settings) > 0) &&
           bool_decide (height (thumbnail_size jpeg_settings) > 0)) in
      let p := set_encode_thumbnail encode_parm (m_bThumbnailNeeded pme) in
      (* get color format *)
      let img_fmt := stream_format (reproc_config frame) in
      let p := set_color_format p (getColorfmtFromImgFmt img_fmt) in
      (* get jpeg quality *)
      let p := set_quality p (jpeg_quality jpeg_settings) in
      let p := if bool_decide (quality p <= 0) then set_quality p 85 else p in
      (* get jpeg thumbnail quality *)
      let p := set_thumb_quality p (jpeg_thumb_quality jpeg_settings) in
      let main_offset := input_stream_plane_info (reproc_config frame) in
      let src0 :=
        mk_jpeg_buf 0 (input_buffer_frame_len frame) (input_buffer_ptr frame)
          (input_buffer_fd frame) MM_JPEG_FMT_YUV main_offset in
      let p := set_src_main p 1 (<[0%nat := src0]> (src_main_buf p)) in
      (* use main buffer to encode thumbnail *)
      let p :=
        if m_bThumbnailNeeded pme
        then set_src_thumb p 1
               (<[0%nat := buf0 (src_main_buf p)]> (src_thumb_buf p))
        else p in
      let dst0 :=
        mk_jpeg_buf 0 bufSize
          (getPtr (mOutputMem pme) (out_buf_index jpeg_settings))
          (getFd (mOutputMem pme) (out_buf_index jpeg_settings))
          MM_JPEG_FMT_YUV main_offset in
      let p := set_dest p 1 (<[0%nat := dst0]> (dest_buf p)) in
      (NO_ERROR, p, pme)
  | _, _ => (BAD_VALUE, encode_parm, pme)
  end.

(** The buffer loops of [getJpegEncodeConfig]: for each index in turn, write
    the index, ask the stream memory for the size and stop at the first
    [BAD_INDEX]; [cast] is the cast applied to the size. *)
Fixpoint fill_bufs (pStreamMem : QCamera3StreamMem)
    (offset : cam_frame_len_offset_t) (cast : Z -> Z)
    (indices : list nat) (arr : list mm_jpeg_buf_t)
  : bool * list mm_jpeg_buf_t :=
  match indices with
  | [] => (true, arr)
  | i :: rest =>
      let b := set_buf_index (default zero_buf (arr !! i)) (Z.of_nat i) in
      let bufSize := getSize pStreamMem (Z.of_nat i) in
      if bool_decide (BAD_INDEX = bufSize) then (false, <[i := b]> arr)
      else
        let b :=
          mk_jpeg_buf (Z.of_nat i) (cast bufSize)
            (getPtr pStreamMem (Z.of_nat i)) (getFd pStreamMem (Z.of_nat i))
            MM_JPEG_FMT_YUV offset in
        fill_bufs pStreamMem offset cast rest (<[i := b]> arr)
  end.

(** The last part of [getJpegEncodeConfig]: the output buffer. *)
Definition config_dest_buf (pme : QCamera3PostProcessor)
    (p : mm_jpeg_encode_params_t) (main_offset : cam_frame_len_offset_t)
    (jpeg_settings : jpeg_settings_t)
  : Z * mm_jpeg_encode_params_t * QCamera3PostProcessor :=
  let bufSize := getSize (mOutputMem pme) (out_buf_index jpeg_settings) in
  if bool_decide (BAD_INDEX = bufSize) then (BAD_VALUE, p, pme)
  else
    let dst0 :=
      mk_jpeg_buf 0 bufSize
        (getPtr (mOutputMem pme) (out_buf_index jpeg_settings))
        (getFd (mOutputMem pme) (out_buf_index jpeg_settings))
        MM_JPEG_FMT_YUV main_offset in
    (NO_ERROR, set_dest p 1 (<[0%nat := dst0]> (dest_buf p)), pme).

(** [getJpegEncodeConfig(encode_parm, main_stream, jpeg_settings)] *)
Definition getJpegEncodeConfig (pme : QCamera3PostProcessor)
    (encode_parm : mm_jpeg_encode_params_t)
    (main_stream : QCamera3Stream) (jpeg_settings : jpeg_settings_t)
  : Z * mm_jpeg_encode_params_t * QCamera3PostProcessor :=
  let pme :=
    set_m_bThumbnailNeeded pme
      (bool_decide (width (thumbnail_size jpeg_settings) > 0) &&
       bool_decide (height (thumbnail_size jpeg_settings) > 0)) in
  let p := set_encode_thumbnail encode_parm (m_bThumbnailNeeded pme) in
  (* get color format *)
  let img_fmt := getFormat main_stream in
  let p := set_color_format p (getColorfmtFromImgFmt img_fmt) in
  (* get jpeg quality *)
  let p := set_quality p (jpeg_quality jpeg_settings) in
  let p := if bool_decide (quality p <= 0) then set_quality p 85 else p in
  (* get jpeg thumbnail quality *)
  let p := set_thumb_quality p (jpeg_thumb_quality jpeg_settings) in
  let main_offset := getFrameOffset main_stream in
  (* src buf config *)
  match getStreamBufs main_stream with
  | None => (BAD_VALUE, p, pme)
  | Some pStreamMem =>
    let n := Z.min (getCnt pStreamMem) (Z.of_nat MM_JPEG_MAX_BUF) in
    match fill_bufs pStreamMem main_offset (fun z => z)
            (seq 0 (Z.to_nat n)) (src_main_buf p) with
    | (false, arr) => (BAD_VALUE, set_src_main p n arr, pme)
    | (true, arr) =>
      let p := set_src_main p n arr in
      if m_bThumbnailNeeded pme then
        match getStreamBufs main_stream with
        | None => (BAD_VALUE, p, pme)
        | Some pStreamMem =>
          let thumb_offset := getFrameOffset main_stream in
          let n := Z.min (getCnt pStreamMem) (Z.of_nat MM_JPEG_MAX_BUF) in
          match fill_bufs pStreamMem thumb_offset to_uint32
                  (seq 0 (Z.to_nat n)) (src_thumb_buf p) with
          | (false, arr) => (BAD_VALUE, set_src_thumb p n arr, pme)
          | (true, arr) =>
              config_dest_buf pme (set_src_thumb p n arr) main_offset
                jpeg_settings
          end
        end
      else config_dest_buf pme p main_offset jpeg_settings
    end
  end.

End WithMaxBuf.
End Config.
Export Config.

(** ** Encode submission: [encodeFWKData] and [encodeData] *)

Module Submit.

(** What one call of an encode function leaves behind: the status, the
    object, the job record ([pJpegExifObj], [jobId]), the flag
    [needNewSess] passed by reference, and the calls made, in order. *)
Record encode_result := mk_encode_result {
  er_ret : Z;
  er_pme : QCamera3PostProcessor;
  er_job : option qcamera_hal3_jpeg_data_t;
  er_needNewSess : bool;
  er_events : list event
}.

(** [jpeg_orientation == 90 || jpeg_orientation == 270] *)
Definition is_90_or_270 (jpeg_settings : jpeg_settings_t) : bool :=
  bool_decide (jpeg_orientation jpeg_settings = 90) ||
  bool_decide (jpeg_orientation jpeg_settings = 270).

(** "creating a new session, so we must destroy the old one": the early
    return, if any, the object and the call made. *)
Definition destroy_old_session (env : Env) (pme : QCamera3PostProcessor)
  : option Z * QCamera3PostProcessor * list event :=
  if bool_decide (0 < mJpegSessionId pme) then
    let ret := destroy_session (mJpegHandle env) (mJpegSessionId pme) in
    if bool_decide (ret ≠ NO_ERROR)
    then (Some ret, pme, [EvDestroySession (mJpegSessionId pme)])
    else (None, set_mJpegSessionId pme 0,
          [EvDestroySession (mJpegSessionId pme)])
  else (None, pme, []).

(** The [exif_info] block of a job. *)
Definition job_exif_info (pJpegExifObj : option QCamera3Exif)
  : mm_jpeg_exif_info_t :=
  match pJpegExifObj with
  | Some e => mk_exif_info (m_Entries e) (m_nNumEntries e)
  | None => zero_exif_info
  end.

(** The main-image dimensions of a job ("Set main dim job parameters and
    handle rotation"), the same text in both encode functions. *)
Definition job_main_dimensions (needJpegRotation : bool)
    (jpeg_settings : jpeg_settings_t) (src_dim dst_dim : cam_dimension_t)
    (crop : cam_rect_t) : mm_jpeg_dim_t :=
  if negb needJpegRotation && is_90_or_270 jpeg_settings then
    mk_jpeg_dim (mk_dim (height src_dim) (width src_dim))
                (mk_dim (height dst_dim) (width dst_dim))
                (mk_rect (rect_top crop) (rect_left crop)
                         (rect_height crop) (rect_width crop))
  else mk_jpeg_dim src_dim dst_dim crop.

Section WithMaxBuf.
Variable MM_JPEG_MAX_BUF : nat.

(** The [if (needNewSess)] block of [encodeFWKData]. *)
Definition fwk_new_session (env : Env) (pme : QCamera3PostProcessor)
    (recvd_frame : qcamera_fwk_input_pp_data_t)
    (jpeg_settings : jpeg_settings_t) (src_dim dst_dim : cam_dimension_t)
  : option Z * QCamera3PostProcessor * list event :=
  match destroy_old_session env pme with
  | (Some ret, pme, evs) => (Some ret, pme, evs)
  | (None, pme, evs) =>
    (* create jpeg encoding session *)
    let encodeParam := zero_params MM_JPEG_MAX_BUF in
    let encodeParam :=
      set_main_dim encodeParam (mk_jpeg_dim src_dim dst_dim zero_rect) in
    let encodeParam :=
      set_thumb_dim encodeParam
        (mk_jpeg_dim src_dim (thumbnail_size jpeg_settings) zero_rect) in
    let '(_, encodeParam, pme) :=
      getFWKJpegEncodeConfig pme encodeParam (Some recvd_frame)
        (Some jpeg_settings) in
    let '(ret, sid) :=
      create_session (mJpegHandle env) (mJpegClientHandle pme) encodeParam in
    let pme := set_mJpegSessionId pme sid in
    if bool_decide (ret ≠ NO_ERROR)
    then (Some ret, pme, evs ++ [EvCreateSession encodeParam])
    else (None, pme, evs ++ [EvCreateSession encodeParam])
  end.

(** The job [encodeFWKData] fills in ("Fill in new job" to "Start jpeg
    encoding"). *)
Definition fwk_fill_job (env : Env) (pme : QCamera3PostProcessor)
    (metadata : metadata_buffer_t) (jpeg_settings : jpeg_settings_t)
    (src_dim dst_dim : cam_dimension_t)
    (pJpegExifObj : option QCamera3Exif) : mm_jpeg_job_t :=
  let crop := zero_rect in
  let main := job_main_dimensions (needJpegRotation env) jpeg_settings
                src_dim dst_dim crop in
  (* thumbnail dim *)
  if m_bThumbnailNeeded pme then
    let thumb_dst := thumbnail_size jpeg_settings in
    let rot :=
      if needJpegRotation env
      then to_uint32 (jpeg_orientation jpeg_settings) else 0 in
    let thumb_dst :=
      if needJpegRotation env then thumb_dst
      else if is_90_or_270 jpeg_settings then
        (* swap the thumbnail destination width and height *)
        let temp := width thumb_dst in
        mk_dim (height thumb_dst) temp
      else thumb_dst in
    mk_job (mJpegSessionId pme) 0 0 0 rot main
      (mk_jpeg_dim src_dim thumb_dst zero_rect)
      (job_exif_info pJpegExifObj) (Some metadata)
  else
    mk_job (mJpegSessionId pme) 0 0 0 0 main zero_jpeg_dim
      (job_exif_info pJpegExifObj) (Some metadata).

(** [encodeFWKData(jpeg_job_data, needNewSess)] *)
Definition encodeFWKData (env : Env) (pme : QCamera3PostProcessor)
    (jpeg_job_data : option qcamera_hal3_jpeg_data_t) (needNewSess : bool)
  : encode_result :=
  let give rc := mk_encode_result rc pme jpeg_job_data needNewSess [] in
  match jpeg_job_data with
  | None => give BAD_VALUE                       (* Invalid jpeg job *)
  | Some job =>
  match fwk_frame job with
  | None => give BAD_VALUE                       (* Invalid input buffer *)
  | Some recvd_frame =>
  match metadata job with
  | None => give BAD_VALUE                       (* Invalid metadata buffer *)
  | Some metadata =>
  match jpeg_settings job with
  | None => give BAD_VALUE                       (* Invalid jpeg settings *)
  | Some jpeg_settings =>
  if non_null (src_frame job) && non_null (src_frame job)
  then give BAD_VALUE
  else if bool_decide (mJpegClientHandle pme <= 0) then give UNKNOWN_ERROR
  else
    let src_dim := input_stream_dim (reproc_config recvd_frame) in
    let dst_dim := output_stream_dim (reproc_config recvd_frame) in
    let '(early, pme, evs) :=
      if needNewSess
      then fwk_new_session env pme recvd_frame jpeg_settings src_dim dst_dim
      else (None, pme, []) in
    match early with
    | Some ret => mk_encode_result ret pme jpeg_job_data needNewSess evs
    | None =>
      (* get exif data *)
      let pJpegExifObj := getExifData env (Some metadata) jpeg_settings in
      let jpg_job :=
        fwk_fill_job env pme metadata jpeg_settings src_dim dst_dim
          pJpegExifObj in
      (* Start jpeg encoding *)
      let '(ret, jobId') := start_job (mJpegHandle env) jpg_job in
      let job :=
        set_exif_jobId job pJpegExifObj
          (if bool_decide (ret = NO_ERROR) then jobId' else jobId job) in
      mk_encode_result ret pme (Some job) false
        (evs ++ [EvStartJob jpg_job ret jobId'])
    end
  end end end end.

(** "find snapshot frame and thumbnail frame": the last buffer whose stream
    is a snapshot or offline-processing stream. *)
Definition find_main_frame (srcChannel : QCamera3Channel)
    (recvd_frame : mm_camera_super_buf_t)
  : option (QCamera3Stream * mm_camera_buf_def_t) :=
  fold_left
    (fun found b =>
       match getStreamByHandle srcChannel (stream_id b) with
       | Some srcStream =>
           match getMyType srcStream with
           | CAM_STREAM_TYPE_SNAPSHOT
           | CAM_STREAM_TYPE_OFFLINE_PROC => Some (srcStream, b)
           | _ => found
           end
       | None => found
       end)
    (bufs recvd_frame) None.

(** The channel a received frame belongs to: the picture channel first, the
    reprocess channel if not found. *)
Definition find_src_channel (pme : QCamera3PostProcessor)
    (recvd_frame : mm_camera_super_buf_t) : option QCamera3Channel :=
  if bool_decide (getMyHandle (m_parent pme) = ch_id recvd_frame)
  then Some (m_parent pme)
  else
    match m_pReprocChannel pme with
    | Some ch =>
        if bool_decide (getMyHandle ch = ch_id recvd_frame) then Some ch
        else None
    | None => None
    end.

(** The session parameters [encodeData] passes to [create_session], from
    what [getJpegEncodeConfig] left in [encodeParam]. *)
Definition session_params (needJpegRotation : bool)
    (jpeg_settings : jpeg_settings_t) (src_dim dst_dim : cam_dimension_t)
    (encodeParam : mm_jpeg_encode_params_t) : mm_jpeg_encode_params_t :=
  let p := encodeParam in
  let p :=
    if negb needJpegRotation && is_90_or_270 jpeg_settings then
      (* swap src width and height, stride and scanline due to rotation *)
      let swapped := mk_dim (height src_dim) (width src_dim) in
      let p := set_main_dim p
                 (mk_jpeg_dim swapped (Encode.dst_dim (main_dim p))
                    (Encode.crop (main_dim p))) in
      let p := set_thumb_dim p
                 (mk_jpeg_dim swapped (Encode.dst_dim (thumb_dim p))
                    (Encode.crop (thumb_dim p))) in
      let m0 := buf0 (src_main_buf p) in
      let p := set_src_main p (num_src_bufs p)
                 (<[0%nat := set_buf_offset m0
                                (swap_stride_scanline (buf_offset m0))]>
                    (src_main_buf p)) in
      let t0 := buf0 (src_thumb_buf p) in
      set_src_thumb p (num_tmb_bufs p)
        (<[0%nat := set_buf_offset t0
                      (swap_stride_scanline (buf_offset t0))]>
           (src_thumb_buf p))
    else
      let p := set_main_dim p
                 (mk_jpeg_dim src_dim (Encode.dst_dim (main_dim p))
                    (Encode.crop (main_dim p))) in
      set_thumb_dim p
        (mk_jpeg_dim src_dim (Encode.dst_dim (thumb_dim p)) (Encode.crop (thumb_dim p))) in
  let p := set_main_dim p
             (mk_jpeg_dim (Encode.src_dim (main_dim p)) dst_dim
                (Encode.crop (main_dim p))) in
  let p := set_thumb_dim p
             (mk_jpeg_dim (Encode.src_dim (thumb_dim p))
                (thumbnail_size jpeg_settings) (Encode.crop (thumb_dim p))) in
  if needJpegRotation
  then set_rotation p (to_uint32 (jpeg_orientation jpeg_settings))
  else p.

(** The [if (needNewSess)] block of [encodeData]. *)
Definition new_session (env : Env) (pme : QCamera3PostProcessor)
    (main_stream : QCamera3Stream) (jpeg_settings : jpeg_settings_t)
    (src_dim dst_dim : cam_dimension_t)
  : option Z * QCamera3PostProcessor * list event :=
  match destroy_old_session env pme with
  | (Some ret, pme, evs) => (Some ret, pme, evs)
  | (None, pme, evs) =>
    (* create jpeg encoding session *)
    let '(_, encodeParam, pme) :=
      getJpegEncodeConfig MM_JPEG_MAX_BUF pme (zero_params MM_JPEG_MAX_BUF)
        main_stream jpeg_settings in
    let encodeParam :=
      session_params (needJpegRotation env) jpeg_settings src_dim dst_dim
        encodeParam in
    let '(ret, sid) :=
      create_session (mJpegHandle env) (mJpegClientHandle pme) encodeParam in
    let pme := set_mJpegSessionId pme sid in
    if bool_decide (ret ≠ NO_ERROR)
    then (Some ret, pme, evs ++ [EvCreateSession encodeParam])
    else (None, pme, evs ++ [EvCreateSession encodeParam])
  end.

(** The job [encodeData] fills in. *)
Definition fill_job (env : Env) (pme : QCamera3PostProcessor)
    (main_frame : mm_camera_buf_def_t) (metadata : option metadata_buffer_t)
    (jpeg_settings : jpeg_settings_t) (src_dim dst_dim : cam_dimension_t)
    (pJpegExifObj : option QCamera3Exif) : mm_jpeg_job_t :=
  let rot :=
    if needJpegRotation env
    then to_uint32 (jpeg_orientation jpeg_settings) else 0 in
  let crop := zero_rect in
  let main := job_main_dimensions (needJpegRotation env) jpeg_settings
                src_dim dst_dim crop in
  (* thumbnail dim *)
  if m_bThumbnailNeeded pme then
    let thumb_dst := thumbnail_size jpeg_settings in
    let thumb :=
      if negb (needJpegRotation env) && is_90_or_270 jpeg_settings then
        (* swap the thumbnail destination width and height *)
        let temp := width thumb_dst in
        mk_jpeg_dim (mk_dim (height src_dim) (width src_dim))
          (mk_dim (height thumb_dst) temp) zero_rect
      else mk_jpeg_dim src_dim thumb_dst zero_rect in
    mk_job (mJpegSessionId pme) (to_int32 (buf_idx main_frame)) 0
      (buf_idx main_frame) rot main thumb
      (job_exif_info pJpegExifObj) metadata
  else
    mk_job (mJpegSessionId pme) (to_int32 (buf_idx main_frame)) 0 0 rot main
      zero_jpeg_dim (job_exif_info pJpegExifObj) metadata.

(** [encodeData(jpeg_job_data, needNewSess)].  The function reads through
    [jpeg_job_data->src_frame] and [jpeg_job_data->jpeg_settings] without
    a check; the result is [None] where it would read through NULL.  The
    copy of the 3A debug parameters into the metadata is left out. *)
Definition encodeData (env : Env) (pme : QCamera3PostProcessor)
    (job : qcamera_hal3_jpeg_data_t) (needNewSess : bool)
  : option encode_result :=
  let give rc evs :=
    Some (mk_encode_result rc pme (Some job) needNewSess evs) in
  match src_frame job with
  | None => None
  | Some recvd_frame =>
  match find_src_channel pme recvd_frame with
  | None => give BAD_VALUE []
  | Some srcChannel =>
  match find_main_frame srcChannel recvd_frame with
  | None => give BAD_VALUE []                   (* Main frame is NULL *)
  | Some (main_stream, main_frame) =>
  if negb (mem_info main_frame) then give NO_MEMORY []
  else
    let ev0 := [EvCleanInvalidateCache (buf_idx main_frame)] in
    if bool_decide (mJpegClientHandle pme <= 0) then give UNKNOWN_ERROR ev0
    else
      let src_dim := getFrameDimension main_stream in
      let '(rc_size, dst_dim) := getStreamSize env in
      if bool_decide (NO_ERROR ≠ rc_size) then give UNKNOWN_ERROR ev0
      else
      match jpeg_settings job with
      | None => None
      | Some jpeg_settings =>
        let '(early, pme, evs) :=
          if needNewSess
          then new_session env pme main_stream jpeg_settings src_dim dst_dim
          else (None, pme, []) in
        match early with
        | Some ret =>
            Some (mk_encode_result ret pme (Some job) needNewSess
                    (ev0 ++ evs))
        | None =>
          (* get exif data *)
          let pJpegExifObj := getExifData env (metadata job) jpeg_settings in
          let job := set_exif_jobId job pJpegExifObj (jobId job) in
          let jpg_job :=
            fill_job env pme main_frame (metadata job) jpeg_settings src_dim
              dst_dim pJpegExifObj in
          (* Allocate for a local copy of debug parameters *)
          if negb (malloc_debug_params env)
          then Some (mk_encode_result NO_MEMORY pme (Some job) false
                       (ev0 ++ evs))
          else
            (* Start jpeg encoding *)
            let '(ret, jobId') := start_job (mJpegHandle env) jpg_job in
            let job :=
              set_exif_jobId job pJpegExifObj
                (if bool_decide (ret = NO_ERROR) then jobId' else jobId job) in
            Some (mk_encode_result ret pme (Some job) false
                    (ev0 ++ evs ++ [EvStartJob jpg_job ret jobId']))
        end
      end
  end end end.

End WithMaxBuf.
End Submit.
Export Submit.

(** ** Release routines *)

Module Release.

(** [releaseSuperBuf(super_buf)] *)
Definition releaseSuperBuf (super_buf : option mm_camera_super_buf_t)
  : list event :=
  match super_buf with
  | Some f => [EvBufDone f]
  | None => []
  end.

(** [releasePPInputData(data, user_data)] *)
Definition releasePPInputData (buf : qcamera_hal3_pp_buffer_t)
  : qcamera_hal3_pp_buffer_t * list event :=
  match pp_input buf with
  | Some f =>
      (mk_pp_buffer None (pp_frameNumber buf),
       releaseSuperBuf (Some f) ++ [EvFreeSuperBuf f])
  | None => (buf, [])
  end.

(** [releaseMetadata(data, user_data)] *)
Definition releaseMetadata (data : mm_camera_super_buf_t) : list event :=
  [EvMetadataBufDone data].

(** [releaseJpegJobData(job)]: the job afterwards and what was released. *)
Definition releaseJpegJobData (pme : QCamera3PostProcessor)
    (job : option qcamera_hal3_jpeg_data_t)
  : option qcamera_hal3_jpeg_data_t * list event :=
  match job with
  | Some job =>
    let e_reproc :=
      match src_reproc_frame job with
      | Some f => [EvFreeSuperBuf f]
      | None => []
      end in
    let e_src :=
      match src_frame job with
      | Some f =>
          (if non_null (m_pReprocChannel pme) then [EvReprocBufDone f]
           else []) ++ [EvFreeSuperBuf f]
      | None => []
      end in
    let '(src_metadata', e_meta) :=
      match fwk_src_buffer job with
      | Some b => (src_metadata job, [EvFreeFwkFrame b])
      | None =>
          match src_metadata job with
          | Some m => (None, [EvMetadataBufDone m; EvFreeSuperBuf m])
          | None => (None, [])
          end
      end in
    let e_fwk :=
      match fwk_frame job with
      | Some f => [EvFreeFwkFrame f]
      | None => []
      end in
    let e_exif :=
      match pJpegExifObj job with
      | Some _ => [EvDeleteExif]
      | None => []
      end in
    let e_settings :=
      match jpeg_settings job with
      | Some s => [EvFreeSettings s]
      | None => []
      end in
    (Some (mk_jpeg_data (jobId job) None None (metadata job) src_metadata'
             None None None None),
     e_reproc ++ e_src ++ e_meta ++ e_fwk ++ e_exif ++ e_settings ++
     [EvSendCmd CAMERA_CMD_TYPE_DO_NEXT_JOB])
  | None => (None, [EvSendCmd CAMERA_CMD_TYPE_DO_NEXT_JOB])
  end.

(** [releaseJpegData(data, user_data)] *)
Definition releaseJpegData (pme : QCamera3PostProcessor)
    (data : qcamera_hal3_jpeg_data_t) : list event :=
  snd (releaseJpegJobData pme (Some data)).

(** [releasePPJobData(pp_job)] *)
Definition releasePPJobData (pp_job : option qcamera_hal3_pp_data_t)
  : option qcamera_hal3_pp_data_t * list event :=
  match pp_job with
  | Some pp_job =>
    let '(j1, e_src) :=
      match pp_src_frame pp_job with
      | Some f =>
          (mk_pp_data None (pp_fwk_src_frame pp_job) None
             (pp_jpeg_settings pp_job) (pp_src_metadata pp_job),
           [EvFreeSuperBuf f] ++
           match pp_src_metadata pp_job with
           | Some m => [EvMetadataBufDone m; EvFreeSuperBuf m]
           | None => []
           end)
      | None => (pp_job, [])
      end in
    let '(j2, e_fwk) :=
      match pp_fwk_src_frame j1 with
      | Some f =>
          (mk_pp_data (pp_src_frame j1) None (pp_metadata j1)
             (pp_jpeg_settings j1) (pp_src_metadata j1),
           [EvFreeFwkFrame f])
      | None => (j1, [])
      end in
    (Some j2, e_src ++ e_fwk ++ [EvSendCmd CAMERA_CMD_TYPE_DO_NEXT_JOB])
  | None => (None, [EvSendCmd CAMERA_CMD_TYPE_DO_NEXT_JOB])
  end.

(** [releaseOngoingPPData(data, user_data)] *)
Definition releaseOngoingPPData (pp_data : qcamera_hal3_pp_data_t)
  : list event :=
  releaseSuperBuf (pp_src_frame pp_data) ++
  snd (releasePPJobData (Some pp_data)).

(** Modelled from the spec: [flush()] of the absent queue class "drains all
    remaining items, invoking each one's release routine"; these are the
    events of flushing a queue whose release routine is [release]. *)
Definition flush_events {A} (release : A -> list event) (q : list A)
  : list event :=
  concat (map release q).

End Release.
Export Release.

(** ** The data-processing thread and the public entry points *)

Module Dispatcher.

(** The locals of [dataProcessRoutine] that live across iterations, and the
    object the thread works on. *)
Record State := mk_state {
  running : bool;
  is_active : bool;
  needNewSess : bool;
  pme : QCamera3PostProcessor
}.

Definition with_pme (s : State) (p : QCamera3PostProcessor) : State :=
  mk_state (running s) (is_active s) (needNewSess s) p.

(** A stack-allocated [qcamera_fwk_input_pp_data_t] after [memset] to 0 and
    the assignment of [frameNumber]. *)
Definition zero_fwk_frame (frame_number : Z) : qcamera_fwk_input_pp_data_t :=
  mk_fwk_input 0 frame_number 0 0 0 None
    (mk_reproc_config REPROCESS_TYPE_NONE CAM_FORMAT_OTHER zero_dim zero_dim
       zero_offset).

(** Pointer equality of two super-buffer pointers. *)
Definition same_super_buf (a b : option mm_camera_super_buf_t) : bool :=
  bool_decide (super_buf_addr <$> a = super_buf_addr <$> b).

Section WithMaxBuf.
Variable MM_JPEG_MAX_BUF : nat.

(** [processPPData(frame)]: the status and the object afterwards. *)
Definition processPPData (env : Env) (p : QCamera3PostProcessor)
    (frame : option mm_camera_super_buf_t) : Z * QCamera3PostProcessor :=
  let '(job, q) := dequeue (m_ongoingPPQ p) in
  let p := set_m_ongoingPPQ p q in
  match job with
  | None => (BAD_VALUE, p)                   (* Cannot find reprocess job *)
  | Some job =>
    if negb (non_null (pp_src_frame job)) &&
       negb (non_null (pp_fwk_src_frame job))
    then (BAD_VALUE, p)
    else if negb (non_null (pp_jpeg_settings job)) then (BAD_VALUE, p)
    else if negb (malloc_jpeg_job env) then (NO_MEMORY, p)
    else
      let jpeg_job :=
        mk_jpeg_data 0 frame
          (if negb (same_super_buf frame (pp_src_frame job))
           then pp_src_frame job else None)
          (match pp_fwk_src_frame job with
           | None => pp_metadata job
           | Some f => metadata_buffer f
           end)
          (pp_src_metadata job)
          None
          (pp_fwk_src_frame job)
          None
          (pp_jpeg_settings job) in
      (* free pp job buf; enqueue to jpeg input queue; wake the thread *)
      let p := set_m_inputJpegQ p (enqueue (m_inputJpegQ p) jpeg_job) in
      (NO_ERROR,
       emit p [EvFreePPJob; EvSendCmd CAMERA_CMD_TYPE_DO_NEXT_JOB])
  end.

(** The ongoing jpeg queue holds a pointer to the job the encode function
    writes to; after the call the newest item is the job as written. *)
Definition update_last {A} (q : list A) (x : option A) : list A :=
  match x with
  | Some x => removelast q ++ [x]
  | None => q
  end.

(** First part of the active [DO_NEXT_JOB] branch: "check if there is any
    ongoing jpeg jobs". *)
Definition next_jpeg_job (env : Env) (s : State) : option State :=
  let p := pme s in
  if isEmpty (m_ongoingJpegQ p) then
    let '(jpeg_job, q) := dequeue (m_inputJpegQ p) in
    let p := set_m_inputJpegQ p q in
    match jpeg_job with
    | Some job =>
      (* add into ongoing jpeg job Q *)
      let p := set_m_ongoingJpegQ p (enqueue (m_ongoingJpegQ p) job) in
      let r :=
        if non_null (fwk_frame job)
        then Some (encodeFWKData MM_JPEG_MAX_BUF env p (Some job)
                     (needNewSess s))
        else encodeData MM_JPEG_MAX_BUF env p job (needNewSess s) in
      match r with
      | None => None
      | Some r =>
        let p := emit (er_pme r) (er_events r) in
        let p := set_m_ongoingJpegQ p
                   (update_last (m_ongoingJpegQ p) (er_job r)) in
        if bool_decide (NO_ERROR ≠ er_ret r) then
          (* dequeue the last one *)
          let '(_, q) := dequeue_last (m_ongoingJpegQ p) in
          let p := set_m_ongoingJpegQ p q in
          let p := emit p (snd (releaseJpegJobData p (er_job r)) ++
                           [EvFreeJpegJob]) in
          Some (mk_state (running s) (is_active s) (er_needNewSess r) p)
        else Some (mk_state (running s) (is_active s) (er_needNewSess r) p)
      end
    | None => Some (with_pme s p)
    end
  else Some s.

(** Second part: "check if there are any framework pp jobs". *)
Definition next_fwk_pp_job (env : Env) (p : QCamera3PostProcessor)
  : QCamera3PostProcessor :=
  if negb (isEmpty (m_inputFWKPPQ p)) then
    let '(fwk_frame, q) := dequeue (m_inputFWKPPQ p) in
    let p := set_m_inputFWKPPQ p q in
    match fwk_frame with
    | Some fwk_frame =>
      let '(jpeg_settings, q) := dequeue (m_jpegSettingsQ p) in
      let p := set_m_jpegSettingsQ p q in
      let '(ret, p) :=
        if malloc_pp_job env then
          match m_pReprocChannel p with
          | Some _ =>
            (* add into ongoing PP job Q *)
            let pp_job :=
              mk_pp_data None (Some fwk_frame) None jpeg_settings None in
            let p := set_m_ongoingPPQ p (enqueue (m_ongoingPPQ p) pp_job) in
            let ret := doReprocessOffline env fwk_frame in
            let p := emit p [EvOverrideFwkMetadata fwk_frame;
                             EvDoReprocessOffline (frameNumber fwk_frame)] in
            if bool_decide (NO_ERROR ≠ ret)
            then (* remove from ongoing PP job Q *)
              (ret, set_m_ongoingPPQ p (snd (dequeue_last (m_ongoingPPQ p))))
            else (ret, p)
          | None => (-1, p)                 (* Reprocess channel is NULL *)
          end
        else (-1, p) in
      if bool_decide (0 ≠ ret) then
        emit p ((if malloc_pp_job env then [EvFreePPJob] else []) ++
                [EvFreeFwkFrame fwk_frame])
      else p
    | None => p
    end
  else p.

(** Third part: "dequeuing pp frame", under [mReprocJobLock].  Both
    queues were found non-empty, so both dequeues return an item; the
    source reads through [pp_buffer] unchecked. *)
Definition next_pp_job (env : Env) (p : QCamera3PostProcessor)
  : QCamera3PostProcessor :=
  if negb (isEmpty (m_inputPPQ p)) && negb (isEmpty (m_inputMetaQ p)) then
    let '(pp_buffer, q) := dequeue (m_inputPPQ p) in
    let p := set_m_inputPPQ p q in
    let '(meta_buffer, q) := dequeue (m_inputMetaQ p) in
    let p := set_m_inputMetaQ p q in
    let '(jpeg_settings, q) := dequeue (m_jpegSettingsQ p) in
    let p := set_m_jpegSettingsQ p q in
    match pp_buffer with
    | None => p
    | Some pp_buffer =>
    let '(ret, p) :=
      if negb (malloc_pp_job env) then (-1, p)
      else
        match meta_buffer with
        | None => (-1, p)
        | Some meta =>
          let meta_buffer_arg := bufs meta !! 0%nat in
          let pp_job :=
            mk_pp_data (pp_input pp_buffer) None (meta_buffer_arg ≫= buffer)
              jpeg_settings (Some meta) in
          let p := set_m_ongoingPPQ p (enqueue (m_ongoingPPQ p) pp_job) in
          match m_pReprocChannel p with
          | Some _ =>
            let fwk_frame := zero_fwk_frame (pp_frameNumber pp_buffer) in
            let '(ret, fwk_frame) :=
              overrideMetadata env pp_buffer meta_buffer_arg jpeg_settings
                fwk_frame in
            let p := emit p [EvOverrideMetadata pp_buffer] in
            if bool_decide (NO_ERROR = ret) then
              (* add into ongoing PP job Q *)
              let ret := doReprocessOffline env fwk_frame in
              let p := emit p [EvDoReprocessOffline (frameNumber fwk_frame)] in
              if bool_decide (NO_ERROR ≠ ret)
              then (* remove from ongoing PP job Q *)
                (ret,
                 set_m_ongoingPPQ p (snd (dequeue_last (m_ongoingPPQ p))))
              else (ret, p)
            else (ret, p)
          | None =>
            (* No reprocess. Calling processPPData directly *)
            processPPData env p (pp_input pp_buffer)
          end
        end in
    if bool_decide (0 ≠ ret) then
      emit p
        ((* free pp_job *)
         (if malloc_pp_job env then [EvFreePPJob] else []) ++
         (* free frame *)
         match pp_input pp_buffer with
         | Some f => releaseSuperBuf (Some f) ++ [EvFreeSuperBuf f]
         | None => []
         end ++ [EvFreePPBuffer] ++
         (* free metadata *)
         match meta_buffer with
         | Some m => [EvMetadataBufDone m; EvFreeSuperBuf m]
         | None => []
         end)
    else emit p [EvFreePPBuffer]
    end
  else p.

(** The [else] of [is_active == TRUE]: "not active, simply return buf and
    do no op". *)
Definition drain_inactive (p : QCamera3PostProcessor)
  : QCamera3PostProcessor :=
  let '(jpeg_job, q) := dequeue (m_inputJpegQ p) in
  let p := set_m_inputJpegQ p q in
  let p := emit p match jpeg_job with
                  | Some _ => [EvFreeJpegJob]
                  | None => []
                  end in
  let '(pp_buf, q) := dequeue (m_inputPPQ p) in
  let p := set_m_inputPPQ p q in
  let p := emit p match pp_buf with
                  | Some buf =>
                      match pp_input buf with
                      | Some f => releaseSuperBuf (Some f) ++ [EvFreeSuperBuf f]
                      | None => []
                      end ++ [EvFreePPBuffer]
                  | None => []
                  end in
  let '(metadata, q) := dequeue (m_inputMetaQ p) in
  let p := set_m_inputMetaQ p q in
  let p := emit p match metadata with
                  | Some m => [EvMetadataBufDone m; EvFreeSuperBuf m]
                  | None => []
                  end in
  let '(fwk_frame, q) := dequeue (m_inputFWKPPQ p) in
  let p := set_m_inputFWKPPQ p q in
  emit p match fwk_frame with
         | Some f => [EvFreeFwkFrame f]
         | None => []
         end.

(** "cancel all ongoing jpeg jobs": the loop of the [STOP] branch and of
    [flush()], by recursion on the queue it empties. *)
Fixpoint cancel_ongoing (p : QCamera3PostProcessor)
    (q : list qcamera_hal3_jpeg_data_t) : list event :=
  match q with
  | [] => []
  | jpeg_job :: q' =>
      [EvAbortJob (jobId jpeg_job)] ++
      snd (releaseJpegJobData p (Some jpeg_job)) ++ [EvFreeJpegJob] ++
      cancel_ongoing p q'
  end.

(** The [CAMERA_CMD_TYPE_STOP_DATA_PROC] branch. *)
Definition stop_data_proc (s : State) : State :=
  let p := pme s in
  (* cancel all ongoing jpeg jobs *)
  let p := set_m_ongoingJpegQ (emit p (cancel_ongoing p (m_ongoingJpegQ p)))
             [] in
  (* destroy jpeg encoding session *)
  let p :=
    if bool_decide (0 < mJpegSessionId p)
    then set_mJpegSessionId (emit p [EvDestroySession (mJpegSessionId p)]) 0
    else p in
  (* flush the queues *)
  let p := set_m_ongoingPPQ
             (emit p (flush_events releaseOngoingPPData (m_ongoingPPQ p)))
             [] in
  let p := set_m_inputJpegQ
             (emit p (flush_events (releaseJpegData p) (m_inputJpegQ p)))
             [] in
  let p := set_m_inputPPQ
             (emit p (flush_events (fun b => snd (releasePPInputData b))
                        (m_inputPPQ p)))
             [] in
  let p := set_m_inputFWKPPQ p [] in
  let p := set_m_inputMetaQ
             (emit p (flush_events releaseMetadata (m_inputMetaQ p))) [] in
  mk_state (running s) false true p.

(** The [CAMERA_CMD_TYPE_START_DATA_PROC] branch. *)
Definition start_data_proc (s : State) : State :=
  let p := pme s in
  let p := set_m_ongoingPPQ p (queue_init (m_ongoingPPQ p)) in
  let p := set_m_inputJpegQ p (queue_init (m_inputJpegQ p)) in
  let p := set_m_inputPPQ p (queue_init (m_inputPPQ p)) in
  let p := set_m_inputFWKPPQ p (queue_init (m_inputFWKPPQ p)) in
  let p := set_m_inputMetaQ p (queue_init (m_inputMetaQ p)) in
  mk_state (running s) true true p.

(** The [CAMERA_CMD_TYPE_DO_NEXT_JOB] branch. *)
Definition do_next_job (env : Env) (s : State) : option State :=
  (* needNewSess is set to TRUE as postproc is not re-STARTed anymore *)
  let s := mk_state (running s) (is_active s) true (pme s) in
  if is_active s then
    s1 ← next_jpeg_job env s;
    Some (with_pme s1 (next_pp_job env (next_fwk_pp_job env (pme s1))))
  else Some (with_pme s (drain_inactive (pme s))).

(** One iteration of the loop of [dataProcessRoutine] on command [cmd];
    [None] where the iteration reads through a NULL pointer. *)
Definition dataProcessRoutine (env : Env) (cmd : camera_cmd_type_t)
    (s : State) : option State :=
  match cmd with
  | CAMERA_CMD_TYPE_START_DATA_PROC => Some (start_data_proc s)
  | CAMERA_CMD_TYPE_STOP_DATA_PROC => Some (stop_data_proc s)
  | CAMERA_CMD_TYPE_DO_NEXT_JOB => do_next_job env s
  | CAMERA_CMD_TYPE_EXIT =>
      Some (mk_state false (is_active s) (needNewSess s) (pme s))
  | CAMERA_CMD_TYPE_NONE => Some s
  end.

End WithMaxBuf.
End Dispatcher.
Export Dispatcher.

(** ** Public entry points and the encoder's side *)

Module Api.

(** Jobs submitted to the encoder and not yet completed or aborted, read
    off the log: a successful [start_job] puts its job id in flight, an
    [abort_job] or a completion takes the id out. *)
Definition track (flying : list Z) (ev : event) : list Z :=
  match ev with
  | EvStartJob _ ret id =>
      if bool_decide (ret = NO_ERROR) then flying ++ [id] else flying
  | EvAbortJob id => filter (λ x, x ≠ id) flying
  | EvJobComplete id => filter (λ x, x ≠ id) flying
  | _ => flying
  end.

Definition in_flight (l : list event) : list Z := fold_left track l [].

(** The object after the constructor and [init(memory, mask)]: empty
    queues, no encoder client, no session, the thread launched with
    [is_active = FALSE] and [needNewSess = TRUE]. *)
Definition initial (ch_ctrl : QCamera3Channel) (memory : QCamera3StreamMem)
  : State :=
  mk_state true false true
    (mk_pme ch_ctrl memory 0 0 true None [] [] [] [] [] [] [] []).

(** [findJpegJobByJobId(jobId)] *)
Definition findJpegJobByJobId (p : QCamera3PostProcessor) (id : Z)
  : option qcamera_hal3_jpeg_data_t * QCamera3PostProcessor :=
  if bool_decide (id = 0) then (None, p)
  else
    (* only one jpeg job ongoing, so simply dequeue the head *)
    let '(job, q) := dequeue (m_ongoingJpegQ p) in
    (job, set_m_ongoingJpegQ p q).

(** [dequeuePPJob(frameNumber)] *)
Definition dequeuePPJob (p : QCamera3PostProcessor) (frame_number : Z)
  : option qcamera_hal3_pp_data_t * QCamera3PostProcessor :=
  let '(pp_job, q) := dequeue (m_ongoingPPQ p) in
  (pp_job, set_m_ongoingPPQ p q).

(** [initJpeg(jpeg_cb, max_pic_dim, user_data)] *)
Definition initJpeg (env : Env) (p : QCamera3PostProcessor)
    (max_pic_dim : cam_dimension_t) : Z * QCamera3PostProcessor :=
  if bool_decide (0 > width max_pic_dim) || bool_decide (0 > height max_pic_dim)
  then (BAD_VALUE, p)
  else
    let handle := jpeg_open env max_pic_dim in
    let p := mk_pme (m_parent p) (mOutputMem p) handle (mJpegSessionId p)
               (m_bThumbnailNeeded p) (m_pReprocChannel p) (m_inputPPQ p)
               (m_inputFWKPPQ p) (m_ongoingPPQ p) (m_inputJpegQ p)
               (m_ongoingJpegQ p) (m_inputMetaQ p) (m_jpegSettingsQ p)
               (log p) in
    if bool_decide (handle = 0) then (UNKNOWN_ERROR, p) else (NO_ERROR, p).

(** Stop and delete the reprocess channel, if there is one. *)
Definition drop_reproc_channel (p : QCamera3PostProcessor)
  : QCamera3PostProcessor :=
  match m_pReprocChannel p with
  | Some _ => set_m_pReprocChannel (emit p [EvReprocStop; EvReprocDelete]) None
  | None => p
  end.

(** [start(config)].  Modelled from the spec for the command hand-over:
    the thread class is not part of the file; by section 5, [start] and
    [stop] are synchronous handshakes, the caller blocking until the thread
    has run the command, so the call yields nothing when the thread has
    exited. *)
Definition start (env : Env) (s : State) (config : reprocess_config_t)
  : option (Z * State) :=
  let p := pme s in
  let send_start (rc : Z) (p : QCamera3PostProcessor) :=
    if running s then Some (rc, start_data_proc (with_pme s p)) else None in
  match reprocess_type config with
  | REPROCESS_TYPE_NONE => send_start NO_ERROR p
  | ty =>
    let p := drop_reproc_channel p in
    (* if reprocess is needed, start reprocess channel *)
    match addOfflineReprocChannel env config with
    | None => Some (UNKNOWN_ERROR, with_pme s p)
    | Some ch =>
      let p := set_m_pReprocChannel p (Some ch) in
      match ty with
      | REPROCESS_TYPE_JPEG =>
        let rc := reproc_start env in
        let p := emit p [EvReprocStart] in
        if bool_decide (rc ≠ 0)
        then Some (rc, with_pme s
                         (set_m_pReprocChannel (emit p [EvReprocDelete]) None))
        else send_start rc p
      | _ => send_start NO_ERROR p
      end
    end
  end.

(** [stop()] *)
Definition stop (s : State) : option (Z * State) :=
  if running s then
    let s := stop_data_proc s in
    Some (NO_ERROR, with_pme s (drop_reproc_channel (pme s)))
  else None.

(** [flush()] *)
Definition flush (env : Env) (s : State) : Z * State :=
  let p := pme s in
  let p := set_m_ongoingJpegQ (emit p (cancel_ongoing p (m_ongoingJpegQ p)))
             [] in
  (* releaseOfflineBuffers(true) *)
  match m_pReprocChannel p with
  | Some _ =>
      (unmapOfflineBuffers env true,
       with_pme s (emit p [EvUnmapOfflineBuffers true]))
  | None => (NO_ERROR, with_pme s p)
  end.

(** [deinit()]: the thread is told to exit, the channel and the encoder
    client are released. *)
Definition deinit (env : Env) (s : State) : Z * State :=
  let p := pme s in
  let p :=
    match m_pReprocChannel p with
    | Some _ =>
        set_m_pReprocChannel (emit p [EvReprocStop; EvReprocDelete]) None
    | None => p
    end in
  let '(rc, p) :=
    if bool_decide (mJpegClientHandle p > 0) then
      (jpeg_close env (mJpegClientHandle p),
       let p := emit p [EvJpegClose (mJpegClientHandle p)] in
       mk_pme (m_parent p) (mOutputMem p) 0 (mJpegSessionId p)
         (m_bThumbnailNeeded p) (m_pReprocChannel p) (m_inputPPQ p)
         (m_inputFWKPPQ p) (m_ongoingPPQ p) (m_inputJpegQ p)
         (m_ongoingJpegQ p) (m_inputMetaQ p) (m_jpegSettingsQ p) (log p))
    else (NO_ERROR, p) in
  (rc, mk_state false (is_active s) (needNewSess s) p).

(** [processData(input, output, frameNumber)] *)
Definition processData (env : Env) (p : QCamera3PostProcessor)
    (input : option mm_camera_super_buf_t) (frame_number : Z)
  : Z * QCamera3PostProcessor :=
  if negb (malloc_pp_buffer env) then (NO_MEMORY, p)
  else
    let pp_buffer := mk_pp_buffer input frame_number in
    let p := set_m_inputPPQ p (enqueue (m_inputPPQ p) pp_buffer) in
    if negb (isEmpty (m_inputMetaQ p))
    then (NO_ERROR, emit p [EvSendCmd CAMERA_CMD_TYPE_DO_NEXT_JOB])
    else (NO_ERROR, p).

(** [processData(frame)] for a framework input buffer. *)
Definition processFwkData (env : Env) (p : QCamera3PostProcessor)
    (frame : qcamera_fwk_input_pp_data_t) : Z * QCamera3PostProcessor :=
  match reprocess_type (reproc_config frame) with
  | REPROCESS_TYPE_NONE =>
    let '(jpeg_settings, q) := dequeue (m_jpegSettingsQ p) in
    let p := set_m_jpegSettingsQ p q in
    match jpeg_settings with
    | None => (BAD_VALUE, p)                (* Cannot find jpeg settings *)
    | Some jpeg_settings =>
      if negb (malloc_jpeg_job env) then (NO_MEMORY, p)
      else
        let jpeg_job :=
          mk_jpeg_data 0 None None (metadata_buffer frame) None (Some frame)
            None None (Some jpeg_settings) in
        (* enqueue to jpeg input queue *)
        let p := set_m_inputJpegQ p (enqueue (m_inputJpegQ p) jpeg_job) in
        (NO_ERROR, emit p [EvSendCmd CAMERA_CMD_TYPE_DO_NEXT_JOB])
    end
  | _ =>
    (* enqueue to post proc input queue *)
    let p := set_m_inputFWKPPQ p (enqueue (m_inputFWKPPQ p) frame) in
    (NO_ERROR, emit p [EvSendCmd CAMERA_CMD_TYPE_DO_NEXT_JOB])
  end.

(** [processPPMetadata(reproc_meta)] *)
Definition processPPMetadata (p : QCamera3PostProcessor)
    (reproc_meta : mm_camera_super_buf_t) : Z * QCamera3PostProcessor :=
  let p := set_m_inputMetaQ p (enqueue (m_inputMetaQ p) reproc_meta) in
  if negb (isEmpty (m_inputPPQ p))
  then (NO_ERROR, emit p [EvSendCmd CAMERA_CMD_TYPE_DO_NEXT_JOB])
  else (NO_ERROR, p).

(** [processJpegSettingData(jpeg_settings)]: the status is [-EINVAL] or
    the truth value [enqueue] returns. *)
Definition processJpegSettingData (p : QCamera3PostProcessor)
    (jpeg_settings : option jpeg_settings_t) : Z * QCamera3PostProcessor :=
  match jpeg_settings with
  | None => (-22, p)
  | Some js => (1, set_m_jpegSettingsQ p (enqueue (m_jpegSettingsQ p) js))
  end.

(** Modelled from the spec: the completion callback lives in the channel
    class, which is not part of the file.  By sections 4.4 and 6 the
    encoder reports a job it was given, by its job id; the job is looked up
    with [findJpegJobByJobId] and its buffers are released through
    [releaseJpegJobData]. *)
Definition jpeg_complete (s : State) (id : Z) : option State :=
  if bool_decide (id ∈ in_flight (log (pme s))) then
    let p := emit (pme s) [EvJobComplete id] in
    let '(job, p) := findJpegJobByJobId p id in
    match job with
    | Some j =>
        Some (with_pme s
                (emit p (snd (releaseJpegJobData p (Some j)) ++
                         [EvFreeJpegJob])))
    | None => Some (with_pme s p)
    end
  else None.

(** What can happen to the post-processor: its thread takes a command, a
    client calls an entry point, the encoder completes a job. *)
Inductive action :=
| ThreadCmd (c : camera_cmd_type_t)
| CallInitJpeg (max_pic_dim : cam_dimension_t)
| CallStart (config : reprocess_config_t)
| CallStop
| CallFlush
| CallDeinit
| CallProcessData (input : option mm_camera_super_buf_t) (frame_number : Z)
| CallProcessFwkData (frame : qcamera_fwk_input_pp_data_t)
| CallProcessPPMetadata (reproc_meta : mm_camera_super_buf_t)
| CallProcessJpegSettingData (jpeg_settings : option jpeg_settings_t)
| CallProcessPPData (frame : option mm_camera_super_buf_t)
| CallDequeuePPJob (frame_number : Z)
| JpegComplete (id : Z).

Section WithMaxBuf.
Variable MM_JPEG_MAX_BUF : nat.

(** The state after an action, in environment [env]; [None] when the
    action cannot happen there (the thread has exited, the job is not in
    flight) or reads through NULL. *)
Definition perform (env : Env) (a : action) (s : State) : option State :=
  match a with
  | ThreadCmd c =>
      if running s then dataProcessRoutine MM_JPEG_MAX_BUF env c s else None
  | CallInitJpeg d => Some (with_pme s (snd (initJpeg env (pme s) d)))
  | CallStart config => snd <$> start env s config
  | CallStop => snd <$> stop s
  | CallFlush => Some (snd (flush env s))
  | CallDeinit => Some (snd (deinit env s))
  | CallProcessData input n =>
      Some (with_pme s (snd (processData env (pme s) input n)))
  | CallProcessFwkData frame =>
      Some (with_pme s (snd (processFwkData env (pme s) frame)))
  | CallProcessPPMetadata m =>
      Some (with_pme s (snd (processPPMetadata (pme s) m)))
  | CallProcessJpegSettingData js =>
      Some (with_pme s (snd (processJpegSettingData (pme s) js)))
  | CallProcessPPData frame =>
      Some (with_pme s (snd (processPPData env (pme s) frame)))
  | CallDequeuePPJob n => Some (with_pme s (snd (dequeuePPJob (pme s) n)))
  | JpegComplete id => jpeg_complete s id
  end.


(** A sequence of actions, all in environment [env]. *)
Fixpoint run (env : Env) (acts : list action) (s : State) : option State :=
  match acts with
  | [] => Some s
  | a :: acts' => s' ← perform env a s; run env acts' s'
  end.

End WithMaxBuf.
End Api.
Export Api.

(** * Predicates used in the statements *)

Module Tracking.

(** Events that leave the set of jobs in flight as it is. *)
Definition neutral (ev : event) : bool :=
  match ev with
  | EvStartJob _ _ _ | EvAbortJob _ | EvJobComplete _ => false
  | _ => true
  end.

(** [p'] comes from [p] by steps that keep the ongoing jpeg queue and add
    neutral events only. *)
Definition frames (p p' : QCamera3PostProcessor) : Prop :=
  m_ongoingJpegQ p' = m_ongoingJpegQ p ∧
  ∃ evs, log p' = log p ++ evs ∧ forallb neutral evs = true.



End Tracking.
Export Tracking.

(** * Example objects *)

(** A table of two entries, filled by two calls; the third is refused. *)
Definition full_exif_example : QCamera3Exif :=
  snd (addEntry 2 (snd (addEntry 2 (new_QCamera3Exif 2) 272 EXIF_ASCII 3
                          [81; 67; 0] true))
         33434 EXIF_RATIONAL 1 [1; 0; 0; 0; 60; 0; 0; 0] true).

(** Output memory with one 4096-byte buffer. *)
Definition ex_mem : QCamera3StreamMem :=
  mk_stream_mem 1 (fun _ => 4096) (fun _ => 0) (fun _ => 7).

(** A snapshot stream of 640x480 frames, stride 640 and 480 scan lines. *)
Definition ex_stream : QCamera3Stream :=
  mk_stream CAM_STREAM_TYPE_SNAPSHOT CAM_FORMAT_YUV_420_NV21
    (mk_offset (mk_plane 640 480) [mk_plane 640 240] 460800)
    (Some ex_mem) (mk_dim 640 480).

(** The picture channel, handle 1, with that stream under handle 10. *)
Definition ex_parent : QCamera3Channel :=
  mk_channel 1 (fun h => if bool_decide (h = 10) then Some ex_stream else None).

(** A captured frame and a metadata frame. *)
Definition ex_frame : mm_camera_super_buf_t :=
  mk_super_buf 100 1 [mk_buf_def 10 0 true None].

Definition ex_metadata : metadata_buffer_t :=
  mk_metadata (Some 100) (Some 33333) None.

Definition ex_meta_frame : mm_camera_super_buf_t :=
  mk_super_buf 200 1 [mk_buf_def 11 0 true (Some ex_metadata)].

(** Settings asking for a rotation by 90 degrees, quality 0 and a 320x240
    thumbnail; the same with quality 90 and no rotation. *)
Definition ex_settings : jpeg_settings_t :=
  mk_settings 300 0 90 0 0 (mk_dim 320 240).

Definition ex_settings_plain : jpeg_settings_t :=
  mk_settings 301 0 0 90 0 (mk_dim 320 240).

(** A framework input frame, 640x480 in, 1280x960 out. *)
Definition ex_fwk : qcamera_fwk_input_pp_data_t :=
  mk_fwk_input 400 7 460800 0 9 (Some ex_metadata)
    (mk_reproc_config REPROCESS_TYPE_NONE CAM_FORMAT_YUV_420_NV21
       (mk_dim 640 480) (mk_dim 1280 960)
       (mk_offset (mk_plane 640 480) [] 460800)).

(** An environment in which every outside call succeeds, the encoder does
    not rotate, sessions get id 3 and jobs get id 42. *)
Definition ex_env : Env :=
  mk_env
    (mk_jpeg_ops (fun _ _ => (0, 3)) (fun _ => 0) (fun _ => (0, 42))
       (fun _ => 0))
    false (0, mk_dim 1280 960) (fun _ _ => None) true true true true
    (fun _ => 0) (fun _ _ _ f => (0, f)) (fun _ => 0) (fun _ => 0)
    (fun _ => 0) (fun _ => None) 0 (fun _ => 5) (fun _ => 0).

(** The same environment with a reprocess channel, handle 2, whose
    [doReprocessOffline] refuses every frame. *)
Definition ex_reproc_channel : QCamera3Channel :=
  mk_channel 2 (fun _ => None).

Definition ex_env_reproc_fails : Env :=
  mk_env
    (mk_jpeg_ops (fun _ _ => (0, 3)) (fun _ => 0) (fun _ => (0, 42))
       (fun _ => 0))
    false (0, mk_dim 1280 960) (fun _ _ => None) true true true true
    (fun _ => 0) (fun _ _ _ f => (0, f)) (fun _ => -1) (fun _ => 0)
    (fun _ => 0) (fun _ => Some ex_reproc_channel) 0 (fun _ => 5)
    (fun _ => 0).

Definition ex_reproc_config : reprocess_config_t :=
  mk_reproc_config REPROCESS_TYPE_JPEG CAM_FORMAT_YUV_420_NV21
    (mk_dim 640 480) (mk_dim 640 480) (mk_offset (mk_plane 640 480) [] 460800).

(** The post-processor after construction, [init] and [initJpeg]. *)
Definition ex_pme : QCamera3PostProcessor :=
  snd (initJpeg ex_env (pme (initial ex_parent ex_mem)) (mk_dim 4000 3000)).

(** Jpeg jobs: one for a framework frame, one for a captured frame. *)
Definition ex_fwk_job : qcamera_hal3_jpeg_data_t :=
  mk_jpeg_data 0 None None (Some ex_metadata) None (Some ex_fwk) None None
    (Some ex_settings).


(** A started post-processor with a reprocess channel and one captured
    frame, its metadata and its settings waiting. *)
Definition ex_waiting_capture : option State :=
  run 1 ex_env_reproc_fails
    [CallInitJpeg (mk_dim 4000 3000);
     CallStart ex_reproc_config;
     CallProcessJpegSettingData (Some ex_settings);
     CallProcessData (Some ex_frame) 7;
     CallProcessPPMetadata ex_meta_frame]
    (initial ex_parent ex_mem).

(** A post-processor that was never started, with one jpeg job for a
    framework frame waiting in the input jpeg queue. *)
Definition ex_waiting_inactive : option State :=
  run 1 ex_env
    [CallInitJpeg (mk_dim 4000 3000);
     CallProcessJpegSettingData (Some ex_settings);
     CallProcessFwkData ex_fwk]
    (initial ex_parent ex_mem).

(** A started post-processor with a captured-frame job at the encoder and
    a second one waiting. *)
Definition ex_encoding : option State :=
  run 1 ex_env
    [CallInitJpeg (mk_dim 4000 3000);
     CallStart
       (mk_reproc_config REPROCESS_TYPE_NONE CAM_FORMAT_YUV_420_NV21
          (mk_dim 640 480) (mk_dim 640 480) zero_offset);
     CallProcessJpegSettingData (Some ex_settings);
     CallProcessJpegSettingData (Some ex_settings_plain);
     CallProcessData (Some ex_frame) 7;
     CallProcessPPMetadata ex_meta_frame;
     ThreadCmd CAMERA_CMD_TYPE_DO_NEXT_JOB;
     ThreadCmd CAMERA_CMD_TYPE_DO_NEXT_JOB;
     CallProcessFwkData ex_fwk]
    (initial ex_parent ex_mem).

(** * The tag-entry collection as a whole *)

Module ExifTable.

(** What [~QCamera3Exif()] does with one entry: whether it frees the heap
    payload.  Each case of the switch tests the pointer member of the
    [data] union against NULL (after [count > 1] for the types that keep a
    single element in place); the answer is [None] where that member is
    read from a union last written in place, and for an entry whose type
    is still the zero of the [memset]. *)
Definition frees_payload (e : exif_entry) : option bool :=
  let pointer_set :=
    match tag_data e with
    | DataZero => Some false
    | DataHeap _ => Some true
    | DataInline _ => None
    end in
  match tag_type e with
  | Some EXIF_ASCII | Some EXIF_UNDEFINED => pointer_set
  | Some EXIF_OTHER => Some false
  | Some _ =>
      if bool_decide (tag_count e > 1) then pointer_set else Some false
  | None => None
  end.

(** The loop of the destructor over the given indices: the indices whose
    payload is freed, in order; [None] when an index is outside the array
    or an entry cannot be judged. *)
Fixpoint free_entries (entries : list exif_entry) (indices : list nat)
  : option (list nat) :=
  match indices with
  | [] => Some []
  | i :: rest =>
      e ← entries !! i;
      freed ← frees_payload e;
      frees ← free_entries entries rest;
      Some (if freed : bool then i :: frees else frees)
  end.

(** [~QCamera3Exif()] *)
Definition delete_QCamera3Exif (exif : QCamera3Exif) : option (list nat) :=
  free_entries (m_Entries exif) (seq 0 (Z.to_nat (m_nNumEntries exif))).

(** One call of [addEntry]: its arguments and whether the allocation it
    may make succeeds. *)
Record addEntry_call := mk_call {
  call_tagid : Z;
  call_type : exif_tag_type_t;
  call_count : Z;
  call_data : list Z;
  call_malloc_ok : bool
}.

Section WithCapacity.
Variable MAX_HAL3_EXIF_TABLE_ENTRIES : nat.

(** A sequence of [addEntry] calls on one object, as [getExifData] makes
    them, return values dropped. *)
Definition addEntries (exif : QCamera3Exif) (calls : list addEntry_call)
  : QCamera3Exif :=
  fold_left
    (fun exif c =>
       snd (addEntry MAX_HAL3_EXIF_TABLE_ENTRIES exif (call_tagid c)
              (call_type c) (call_count c) (call_data c) (call_malloc_ok c)))
    calls exif.

End WithCapacity.

(** Whether [addEntry] calls [malloc] for a payload of this type and
    count: always for a string or an undefined block, for more than one
    element of the other types. *)
Definition needs_malloc (type : exif_tag_type_t) (count : Z) : bool :=
  match type with
  | EXIF_ASCII | EXIF_UNDEFINED => true
  | EXIF_OTHER => false
  | _ => bool_decide (count > 1)
  end.

(** Whether a call that is not refused for capacity leaves a heap payload
    in its entry. *)
Definition allocates (c : addEntry_call) : bool :=
  call_malloc_ok c && needs_malloc (call_type c) (call_count c).

(** The entry a call writes when it is the only call on a table of one
    slot. *)
Definition entry_of_call (c : addEntry_call) : exif_entry :=
  default zero_entry
    (m_Entries (addEntries 1 (new_QCamera3Exif 1) [c]) !! 0%nat).

(** The slots, counted from [i], in which the calls leave a heap payload. *)
Fixpoint allocated_slots (i : nat) (calls : list addEntry_call) : list nat :=
  match calls with
  | [] => []
  | c :: rest =>
      if allocates c then i :: allocated_slots (S i) rest
      else allocated_slots (S i) rest
  end.

End ExifTable.
Export ExifTable.

(** * The GPS processing method string *)

Module ExifStrings.

(** [ExifAsciiPrefix], "ASCII\0\0\0", and its size. *)
Definition ExifAsciiPrefix : list Z := [65; 83; 67; 73; 73; 0; 0; 0].
Definition EXIF_ASCII_PREFIX_SIZE : nat := 8.

(** [strlen(s)] on the bytes readable at [s]: the number of bytes before
    the first NUL; [None] when there is no NUL to stop at. *)
Fixpoint strlen (s : list Z) : option nat :=
  match s with
  | [] => None
  | c :: s' => if bool_decide (c = 0) then Some 0%nat else S <$> strlen s'
  end.

(** Bytes stored one after the other from offset [off] of a buffer; [None]
    when a store falls outside the buffer. *)
Fixpoint store_bytes (buf : list Z) (off : nat) (bs : list Z)
  : option (list Z) :=
  match bs with
  | [] => Some buf
  | b :: bs' =>
      if bool_decide (off < length buf)%nat
      then store_bytes (<[off := b]> buf) (S off) bs'
      else None
  end.

(** [memcpy(buf + off, src, n)] *)
Definition memcpy (buf : list Z) (off : nat) (src : list Z) (n : nat)
  : option (list Z) :=
  if bool_decide (n ≤ length src)%nat then store_bytes buf off (take n src)
  else None.

(** [strlcpy(buf + off, src, size)]: at most [size - 1] bytes of the string
    and a NUL. *)
Definition strlcpy (buf : list Z) (off : nat) (src : list Z) (size : nat)
  : option (list Z) :=
  len ← strlen src;
  match size with
  | O => Some buf
  | S room => store_bytes buf off (take (len `min` room) src ++ [0])
  end.

(** [getExifGpsProcessingMethod(gpsProcessingMethod, count, value)]: the
    status, the buffer and [count] afterwards; [None] when the call writes
    outside the buffer or [value] has no terminator. *)
Definition getExifGpsProcessingMethod (gpsProcessingMethod : list Z)
    (count : Z) (value : option (list Z)) : option (Z * list Z * Z) :=
  match value with
  | Some value =>
      buf ← memcpy gpsProcessingMethod 0 ExifAsciiPrefix
              EXIF_ASCII_PREFIX_SIZE;
      let count := Z.of_nat EXIF_ASCII_PREFIX_SIZE in
      len ← strlen value;
      buf ← strlcpy buf EXIF_ASCII_PREFIX_SIZE value (len + 1);
      let count := to_uint32 (count + to_uint32 (Z.of_nat len)) in
      (* increase 1 for the last NULL char *)
      if bool_decide (Z.to_nat count < length buf)%nat
      then Some (NO_ERROR, <[Z.to_nat count := 0]> buf, to_uint32 (count + 1))
      else None
  | None => Some (BAD_VALUE, gpsProcessingMethod, count)
  end.

End ExifStrings.
Export ExifStrings.

(** * Further predicates used in the statements *)

Module Selection.

(** Whether the loop of [encodeData] over the buffers of a frame takes
    buffer [b] as the main frame: its stream is known to the channel and is
    a snapshot or offline-processing stream. *)
Definition is_main_buf (srcChannel : QCamera3Channel)
    (b : mm_camera_buf_def_t) : bool :=
  match getStreamByHandle srcChannel (stream_id b) with
  | Some srcStream =>
      match getMyType srcStream with
      | CAM_STREAM_TYPE_SNAPSHOT | CAM_STREAM_TYPE_OFFLINE_PROC => true
      | _ => false
      end
  | None => false
  end.

(** Two job records that hold the same frames, metadata and settings: they
    differ at most in the job id and the EXIF object, the two fields the
    encode functions write. *)
Definition same_job_resources (a b : qcamera_hal3_jpeg_data_t) : Prop :=
  src_frame b = src_frame a ∧ src_reproc_frame b = src_reproc_frame a ∧
  metadata b = metadata a ∧ src_metadata b = src_metadata a ∧
  fwk_frame b = fwk_frame a ∧ fwk_src_buffer b = fwk_src_buffer a ∧
  jpeg_settings b = jpeg_settings a.

(** Two objects that differ at most in the session id and the thumbnail
    flag, the two members the encode functions write. *)
Definition same_but_session (p p' : QCamera3PostProcessor) : Prop :=
  m_parent p' = m_parent p ∧ mOutputMem p' = mOutputMem p ∧
  mJpegClientHandle p' = mJpegClientHandle p ∧
  m_pReprocChannel p' = m_pReprocChannel p ∧
  m_inputPPQ p' = m_inputPPQ p ∧ m_inputFWKPPQ p' = m_inputFWKPPQ p ∧
  m_ongoingPPQ p' = m_ongoingPPQ p ∧ m_inputJpegQ p' = m_inputJpegQ p ∧
  m_ongoingJpegQ p' = m_ongoingJpegQ p ∧ m_inputMetaQ p' = m_inputMetaQ p ∧
  m_jpegSettingsQ p' = m_jpegSettingsQ p ∧ log p' = log p.

End Selection.
Export Selection.

(** * Sequences of calls of the entry points *)

Module Sequences.

(** The settings of a list passed one by one to [processJpegSettingData],
    and the framework frames of a list passed one by one to
    [processData], return values dropped. *)
Definition queue_settings (p : QCamera3PostProcessor)
    (settings : list jpeg_settings_t) : QCamera3PostProcessor :=
  fold_left (fun p js => snd (processJpegSettingData p (Some js))) settings p.

Definition process_frames (env : Env) (p : QCamera3PostProcessor)
    (frames : list qcamera_fwk_input_pp_data_t) : QCamera3PostProcessor :=
  fold_left (fun p f => snd (processFwkData env p f)) frames p.

(** The jpeg job [processData] builds for a framework frame that needs no
    reprocessing, from the frame and the settings it is paired with. *)
Definition fwk_jpeg_job (f : qcamera_fwk_input_pp_data_t)
    (js : jpeg_settings_t) : qcamera_hal3_jpeg_data_t :=
  mk_jpeg_data 0 None None (metadata_buffer f) None (Some f) None None
    (Some js).

End Sequences.
Export Sequences.

(** * Further example objects *)

(** An environment in which the encoder refuses every job. *)
Definition ex_env_start_fails : Env :=
  mk_env
    (mk_jpeg_ops (fun _ _ => (0, 3)) (fun _ => 0) (fun _ => (-1, 0))
       (fun _ => 0))
    false (0, mk_dim 1280 960) (fun _ _ => None) true true true true
    (fun _ => 0) (fun _ _ _ f => (0, f)) (fun _ => 0) (fun _ => 0)
    (fun _ => 0) (fun _ => None) 0 (fun _ => 5) (fun _ => 0).

(** A started post-processor, no reprocess channel, with one jpeg job for a
    framework frame waiting in the input jpeg queue. *)
Definition ex_fwk_waiting : option State :=
  run 1 ex_env
    [CallInitJpeg (mk_dim 4000 3000);
     CallStart
       (mk_reproc_config REPROCESS_TYPE_NONE CAM_FORMAT_YUV_420_NV21
          (mk_dim 640 480) (mk_dim 640 480) zero_offset);
     CallProcessJpegSettingData (Some ex_settings);
     CallProcessFwkData ex_fwk]
    (initial ex_parent ex_mem).

(** Output memory that knows buffer 0 only, a post-processor with an
    encoder client on that memory, and a framework job whose settings name
    output buffer 5. *)
Definition ex_mem_one : QCamera3StreamMem :=
  mk_stream_mem 1 (fun i => if bool_decide (i = 0) then 4096 else BAD_INDEX)
    (fun _ => 0) (fun _ => 7).

Definition ex_pme_one : QCamera3PostProcessor :=
  snd (initJpeg ex_env (pme (initial ex_parent ex_mem_one)) (mk_dim 4000 3000)).

Definition ex_settings_no_buffer : jpeg_settings_t :=
  mk_settings 302 5 90 0 0 (mk_dim 320 240).

Definition ex_fwk_job_no_buffer : qcamera_hal3_jpeg_data_t :=
  mk_jpeg_data 0 None None (Some ex_metadata) None (Some ex_fwk) None None
    (Some ex_settings_no_buffer).

(** A post-processor with a reprocess channel and one framework frame
    waiting for reprocessing, without and with jpeg settings queued. *)
Definition ex_pme_fwk_waiting : QCamera3PostProcessor :=
  set_m_inputFWKPPQ (set_m_pReprocChannel ex_pme (Some ex_reproc_channel))
    [ex_fwk].

Definition ex_pme_fwk_with_settings : QCamera3PostProcessor :=
  set_m_jpegSettingsQ ex_pme_fwk_waiting [ex_settings].

(** * Properties *)

(** ** Machine integers *)

Lemma to_int32_small (z : Z) : -2 ^ 31 <= z < 2 ^ 31 -> to_int32 z = z.
Proof.
  intros Hz. unfold to_int32.
  rewrite Z.mod_small by lia. lia.
Qed.

Lemma to_uint32_small (z : Z) : 0 <= z < 2 ^ 32 -> to_uint32 z = z.
Proof. intros Hz. unfold to_uint32. apply Z.mod_small. lia. Qed.

Lemma to_int32_range (z : Z) : -2 ^ 31 <= to_int32 z < 2 ^ 31.
Proof.
  unfold to_int32.
  pose proof (Z.mod_pos_bound (z + 2 ^ 31) (2 ^ 32) ltac:(lia)). lia.
Qed.

(** ** Exposure time *)

Lemma getRational_ok (r : rat_t) (n d : Z) :
  0 <= n < 2 ^ 32 -> 0 < d < 2 ^ 32 ->
  getRational (Some r) n d = (NO_ERROR, Some (mk_rat n d)).
Proof.
  intros Hn Hd. unfold getRational.
  rewrite !bool_decide_eq_false_2 by lia. simpl.
  by rewrite !to_uint32_small by lia.
Qed.

Lemma getRational_bad_denom (rat : option rat_t) (n d : Z) :
  d <= 0 -> getRational rat n d = (BAD_VALUE, rat).
Proof.
  intros Hd. unfold getRational.
  rewrite (bool_decide_eq_true_2 (0 >= d)) by lia.
  by rewrite orb_true_r.
Qed.

(** C6, as the code has it: a raw exposure value of 0 gives the rational
    (1, 60); a raw value V between 1 and [INT32_MAX] gives (1, V); any other
    value is first narrowed to a 32-bit [int], and the narrowed value d
    gives (1, d) when it is positive and otherwise [BAD_VALUE], the
    rational being left unwritten. *)
Theorem getExifExpTimeInfo_rational (r : rat_t) (V : Z) :
  in_int64 V ->
  (V = 0 -> getExifExpTimeInfo (Some r) V = (NO_ERROR, Some (mk_rat 1 60))) ∧
  (0 < V <= INT32_MAX ->
     getExifExpTimeInfo (Some r) V = (NO_ERROR, Some (mk_rat 1 V))) ∧
  (V ≠ 0 -> 0 < to_int32 V ->
     getExifExpTimeInfo (Some r) V =
       (NO_ERROR, Some (mk_rat 1 (to_int32 V)))) ∧
  (V ≠ 0 -> to_int32 V <= 0 ->
     getExifExpTimeInfo (Some r) V = (BAD_VALUE, Some r)).
Proof.
  intros _. unfold getExifExpTimeInfo. repeat split.
  - intros ->. rewrite bool_decide_eq_false_2 by lia.
    rewrite to_int32_small by lia. by apply getRational_ok.
  - intros HV. unfold INT32_MAX in HV.
    rewrite bool_decide_eq_true_2 by lia.
    rewrite to_int32_small by lia. apply getRational_ok; lia.
  - intros HV Hpos. rewrite bool_decide_eq_true_2 by done.
    pose proof (to_int32_range V). apply getRational_ok; lia.
  - intros HV Hneg. rewrite bool_decide_eq_true_2 by done.
    by apply getRational_bad_denom.
Qed.

Lemma getExifExpTimeInfo_rational_witness :
  getExifExpTimeInfo (Some (mk_rat 0 0)) 33333 =
    (NO_ERROR, Some (mk_rat 1 33333)).
Proof.
  refine
    (proj1 (proj2 (getExifExpTimeInfo_rational (mk_rat 0 0) 33333 _)) _);
    unfold in_int64, INT64_MIN, INT64_MAX, INT32_MAX; lia.
Defined.

(** C6 as stated fails: a three-second exposure, 3000000000 ns, is a
    nonzero [int64_t] value; narrowed to [int] it is negative, the call
    returns [BAD_VALUE] and the rational (1, 3000000000) is not produced. *)
Lemma getExifExpTimeInfo_long_exposure :
  in_int64 3000000000 ∧ 3000000000 ≠ 0 ∧
  getExifExpTimeInfo (Some (mk_rat 0 0)) 3000000000 =
    (BAD_VALUE, Some (mk_rat 0 0)) ∧
  snd (getExifExpTimeInfo (Some (mk_rat 0 0)) 3000000000) ≠
    Some (mk_rat 1 3000000000).
Proof.
  unfold in_int64, INT64_MIN, INT64_MAX.
  split; [lia|]. split; [lia|]. split; [reflexivity|].
  vm_compute. discriminate.
Qed.

(** ** The tag-entry collection *)

(** C9: when the entry count has reached [MAX_HAL3_EXIF_TABLE_ENTRIES],
    [addEntry] returns [NO_MEMORY] and the collection, entry array and
    entry count, is what it was. *)
Theorem addEntry_at_capacity (MAX_HAL3_EXIF_TABLE_ENTRIES : nat)
    (exif : QCamera3Exif) (tagid : Z) (type : exif_tag_type_t) (count : Z)
    (data : list Z) (malloc_ok : bool) :
  m_nNumEntries exif >= Z.of_nat MAX_HAL3_EXIF_TABLE_ENTRIES ->
  addEntry MAX_HAL3_EXIF_TABLE_ENTRIES exif tagid type count data malloc_ok
    = (NO_MEMORY, exif).
Proof.
  intros Hfull. unfold addEntry.
  by rewrite bool_decide_eq_true_2.
Qed.

Lemma addEntry_at_capacity_witness :
  m_nNumEntries full_exif_example = 2 ∧
  addEntry 2 full_exif_example 37386 EXIF_SHORT 1 [100; 0] true
    = (NO_MEMORY, full_exif_example).
Proof.
  split; [reflexivity|].
  apply (addEntry_at_capacity 2 full_exif_example). vm_compute. discriminate.
Defined.

(** Below capacity the entry is written at index [m_nNumEntries] and the
    count grows by one, also when the allocation fails. *)
Lemma addEntry_below_capacity (MAX_HAL3_EXIF_TABLE_ENTRIES : nat)
    (exif : QCamera3Exif) (tagid : Z) (type : exif_tag_type_t) (count : Z)
    (data : list Z) (malloc_ok : bool) :
  0 <= m_nNumEntries exif < Z.of_nat MAX_HAL3_EXIF_TABLE_ENTRIES ->
  Z.of_nat MAX_HAL3_EXIF_TABLE_ENTRIES < 2 ^ 32 ->
  m_nNumEntries
    (snd (addEntry MAX_HAL3_EXIF_TABLE_ENTRIES exif tagid type count data
            malloc_ok)) = m_nNumEntries exif + 1.
Proof.
  intros Hn Hmax. unfold addEntry.
  rewrite bool_decide_eq_false_2 by lia. simpl.
  apply to_uint32_small. lia.
Qed.

(** ** Encode quality *)

Section EncodeConfig.
Variable MM_JPEG_MAX_BUF : nat.





End EncodeConfig.


(** ** Source-frame validation in [encodeFWKData] *)

Section SourceCheck.
Variable MM_JPEG_MAX_BUF : nat.

(** The two ways the check on the sources is failed. *)
Lemma encodeFWKData_neither env pme job needNewSess :
  src_frame job = None -> fwk_frame job = None ->
  encodeFWKData MM_JPEG_MAX_BUF env pme (Some job) needNewSess
  = mk_encode_result BAD_VALUE pme (Some job) needNewSess [].
Proof. intros _ Hfwk. unfold encodeFWKData. by rewrite Hfwk. Qed.

Lemma encodeFWKData_both env pme job needNewSess :
  is_Some (src_frame job) -> is_Some (fwk_frame job) ->
  encodeFWKData MM_JPEG_MAX_BUF env pme (Some job) needNewSess
  = mk_encode_result BAD_VALUE pme (Some job) needNewSess [].
Proof.
  intros [f Hsrc] [g Hfwk]. unfold encodeFWKData.
  rewrite Hfwk, Hsrc. simpl. by repeat case_match.
Qed.

(** C1: [encodeFWKData] accepts a job only if exactly one of the captured
    source frame [src_frame] and the framework source frame [fwk_frame] is
    there: with both, or with neither, it returns [BAD_VALUE], calls
    nothing and leaves the object and the job as they were. *)
Theorem encodeFWKData_exactly_one_source env pme job needNewSess :
  (is_Some (src_frame job) ∧ is_Some (fwk_frame job)) ∨
  (src_frame job = None ∧ fwk_frame job = None) ->
  let r := encodeFWKData MM_JPEG_MAX_BUF env pme (Some job) needNewSess in
  er_ret r = BAD_VALUE ∧ er_events r = [] ∧ er_pme r = pme ∧
  er_job r = Some job.
Proof.
  intros Hsources r. subst r.
  destruct Hsources as [[Hsrc Hfwk]|[Hsrc Hfwk]].
  - by rewrite encodeFWKData_both.
  - by rewrite encodeFWKData_neither.
Qed.

End SourceCheck.

Lemma encodeFWKData_exactly_one_source_witness :
  er_ret (encodeFWKData 4 ex_env ex_pme
            (Some (mk_jpeg_data 0 (Some ex_frame) None (Some ex_metadata)
                     None (Some ex_fwk) None None (Some ex_settings)))
            true) = BAD_VALUE ∧
  er_ret (encodeFWKData 4 ex_env ex_pme
            (Some (mk_jpeg_data 0 None None (Some ex_metadata)
                     None None None None (Some ex_settings)))
            true) = BAD_VALUE.
Proof.
  split.
  - apply (encodeFWKData_exactly_one_source 4 ex_env ex_pme
             (mk_jpeg_data 0 (Some ex_frame) None (Some ex_metadata)
                None (Some ex_fwk) None None (Some ex_settings)) true).
    left. simpl. split; eexists; reflexivity.
  - apply (encodeFWKData_exactly_one_source 4 ex_env ex_pme
             (mk_jpeg_data 0 None None (Some ex_metadata)
                None None None None (Some ex_settings)) true).
    right. simpl. split; reflexivity.
Defined.

(** With the framework frame alone, and metadata, settings and an encoder
    client at hand, the job goes through to the encoder. *)
Lemma encodeFWKData_fwk_only_example :
  er_ret (encodeFWKData 4 ex_env ex_pme (Some ex_fwk_job) true) = NO_ERROR.
Proof. reflexivity. Qed.

(** ** Orientation and dimensions *)

Section Orientation.
Variable MM_JPEG_MAX_BUF : nat.



(** The session block makes no [start_job] call. *)
Lemma destroy_old_session_events env pme early pme' evs :
  destroy_old_session env pme = (early, pme', evs) ->
  evs = [] ∨ evs = [EvDestroySession (mJpegSessionId pme)].
Proof.
  unfold destroy_old_session. intros H.
  repeat case_match; simplify_eq; auto.
Qed.

Lemma fwk_new_session_events env pme f js S D early pme' evs ev :
  fwk_new_session MM_JPEG_MAX_BUF env pme f js S D = (early, pme', evs) ->
  ev ∈ evs ->
  (∃ id, ev = EvDestroySession id) ∨ (∃ p, ev = EvCreateSession p).
Proof.
  unfold fwk_new_session. intros H Hev.
  destruct (destroy_old_session env pme) as [[e0 pme0] evs0] eqn:Hd.
  apply destroy_old_session_events in Hd.
  repeat case_match; simplify_eq;
    destruct Hd as [-> | ->]; set_unfold; naive_solver.
Qed.




(** The parameters [getJpegEncodeConfig] builds do not depend on the
    session id held by the object. *)
Lemma getJpegEncodeConfig_session_id pme v parm main_stream js :
  (getJpegEncodeConfig MM_JPEG_MAX_BUF (set_mJpegSessionId pme v) parm
     main_stream js).1.2
  = (getJpegEncodeConfig MM_JPEG_MAX_BUF pme parm main_stream js).1.2.
Proof.
  unfold getJpegEncodeConfig, config_dest_buf. simpl.
  repeat case_match; simplify_eq; reflexivity.
Qed.

Lemma destroy_old_session_object env pme pme' evs :
  destroy_old_session env pme = (None, pme', evs) ->
  pme' = pme ∨ pme' = set_mJpegSessionId pme 0.
Proof.
  unfold destroy_old_session. intros H.
  repeat case_match; simplify_eq; auto.
Qed.

Lemma new_session_events env pme main_stream js S D early pme' evs ev :
  new_session MM_JPEG_MAX_BUF env pme main_stream js S D = (early, pme', evs) ->
  ev ∈ evs ->
  (∃ id, ev = EvDestroySession id) ∨
  ev = EvCreateSession
         (session_params (needJpegRotation env) js S D
            (getJpegEncodeConfig MM_JPEG_MAX_BUF pme
               (zero_params MM_JPEG_MAX_BUF) main_stream js).1.2).
Proof.
  unfold new_session. intros H Hev.
  destruct (destroy_old_session env pme) as [[e0 pme0] evs0] eqn:Hd.
  pose proof (destroy_old_session_events _ _ _ _ _ Hd) as Hevs0.
  destruct e0 as [rc|].
  { simplify_eq. destruct Hevs0 as [-> | ->]; set_unfold; naive_solver. }
  apply destroy_old_session_object in Hd.
  destruct (getJpegEncodeConfig _ pme0 _ _ _) as [[rc cfg] pme1] eqn:Hcfg.
  assert (cfg = (getJpegEncodeConfig MM_JPEG_MAX_BUF pme
                   (zero_params MM_JPEG_MAX_BUF) main_stream js).1.2)
    as Hsame.
  { destruct Hd as [-> | ->].
    - by rewrite Hcfg.
    - by rewrite <- (getJpegEncodeConfig_session_id pme 0), Hcfg. }
  destruct (create_session _ _ _) as [ret sid].
  rewrite <- Hsame.
  case_bool_decide; simplify_eq;
    destruct Hevs0 as [-> | ->]; set_unfold; naive_solver.
Qed.







End Orientation.



(** ** Rollback of a failed reprocess submission *)

(** The third part of the active branch never frees encode settings: an
    [EvFreeSettings] in the log afterwards was there before. *)
Lemma next_pp_job_keeps_settings env p s :
  EvFreeSettings s ∈ log (next_pp_job env p) -> EvFreeSettings s ∈ log p.
Proof.
  unfold next_pp_job, processPPData, releaseSuperBuf.
  repeat case_match; simplify_eq; simpl;
    rewrite ?elem_of_app; set_unfold; naive_solver.
Qed.

(** C3 on the code: a captured frame, its metadata and its settings are
    waiting, the reprocess channel refuses the frame.  The step hands the
    frame back ([EvBufDone]), releases the metadata ([EvMetadataBufDone]),
    frees the job record and empties the ongoing queue, but the settings,
    taken off their queue, are not freed. *)
Theorem reprocess_failure_leaks_settings :
  ∃ s s',
    ex_waiting_capture = Some s ∧
    m_jpegSettingsQ (pme s) = [ex_settings] ∧
    perform 1 ex_env_reproc_fails (ThreadCmd CAMERA_CMD_TYPE_DO_NEXT_JOB) s
      = Some s' ∧
    log (pme s') =
      log (pme s) ++
      [EvOverrideMetadata (mk_pp_buffer (Some ex_frame) 7);
       EvDoReprocessOffline 7;
       EvFreePPJob;
       EvBufDone ex_frame; EvFreeSuperBuf ex_frame; EvFreePPBuffer;
       EvMetadataBufDone ex_meta_frame; EvFreeSuperBuf ex_meta_frame] ∧
    m_ongoingPPQ (pme s') = [] ∧
    m_jpegSettingsQ (pme s') = [] ∧
    EvFreeSettings ex_settings ∉ log (pme s').
Proof.
  destruct ex_waiting_capture as [s|] eqn:Hs;
    [|vm_compute in Hs; discriminate].
  destruct (perform 1 ex_env_reproc_fails
              (ThreadCmd CAMERA_CMD_TYPE_DO_NEXT_JOB) s) as [s'|] eqn:Hs'.
  2:{ vm_compute in Hs. injection Hs as <-. vm_compute in Hs'. discriminate. }
  exists s, s'.
  vm_compute in Hs. injection Hs as <-.
  vm_compute in Hs'. injection Hs' as <-.
  repeat split; try (vm_compute; reflexivity).
  intros Hin. apply list_elem_of_In in Hin. vm_compute in Hin.
  repeat destruct Hin as [Hin|Hin]; try discriminate; done.
Qed.

(** ** Draining while inactive *)

(** With only a jpeg job waiting, the inactive branch takes the job off the
    input jpeg queue and frees the job record, whatever the job holds, and
    does nothing else. *)
Lemma drain_inactive_jpeg_job p job q :
  m_inputJpegQ p = job :: q -> m_inputPPQ p = [] -> m_inputMetaQ p = [] ->
  m_inputFWKPPQ p = [] ->
  log (drain_inactive p) = log p ++ [EvFreeJpegJob] ∧
  m_inputJpegQ (drain_inactive p) = q.
Proof.
  intros Hj Hpp Hmeta Hfwk. destruct p. simpl in *. subst.
  unfold drain_inactive. simpl. by rewrite !app_nil_r.
Qed.

(** C4 on the code: the post-processor is inactive and a jpeg job holding a
    framework frame and its settings waits in the input jpeg queue.  The
    wake takes the job off the queue and frees the job record only: the
    frame and the settings, which [releaseJpegJobData] would free, are
    not released. *)
Theorem inactive_wake_skips_job_release :
  ∃ s s' job,
    ex_waiting_inactive = Some s ∧ is_active s = false ∧
    m_inputJpegQ (pme s) = [job] ∧
    fwk_frame job = Some ex_fwk ∧ jpeg_settings job = Some ex_settings ∧
    perform 1 ex_env (ThreadCmd CAMERA_CMD_TYPE_DO_NEXT_JOB) s = Some s' ∧
    m_inputJpegQ (pme s') = [] ∧
    log (pme s') = log (pme s) ++ [EvFreeJpegJob] ∧
    snd (releaseJpegJobData (pme s) (Some job)) =
      [EvFreeFwkFrame ex_fwk; EvFreeSettings ex_settings;
       EvSendCmd CAMERA_CMD_TYPE_DO_NEXT_JOB] ∧
    (EvFreeFwkFrame ex_fwk ∉ log (pme s')) ∧
    EvFreeSettings ex_settings ∉ log (pme s').
Proof.
  destruct ex_waiting_inactive as [s|] eqn:Hs;
    [|vm_compute in Hs; discriminate].
  destruct (perform 1 ex_env (ThreadCmd CAMERA_CMD_TYPE_DO_NEXT_JOB) s)
    as [s'|] eqn:Hs'.
  2:{ vm_compute in Hs. injection Hs as <-. vm_compute in Hs'. discriminate. }
  exists s, s', ex_fwk_job.
  vm_compute in Hs. injection Hs as <-.
  vm_compute in Hs'. injection Hs' as <-.
  repeat split; try (vm_compute; reflexivity);
    intros Hin; apply list_elem_of_In in Hin; vm_compute in Hin;
    repeat destruct Hin as [Hin|Hin]; try discriminate; done.
Qed.

(** ** Stopping twice *)

(** Compute the field updates of the object, innermost first. *)
Ltac unfold_updates :=
  cbv beta iota zeta delta
    [with_pme emit set_mJpegSessionId set_m_bThumbnailNeeded
     set_m_pReprocChannel set_m_inputPPQ set_m_inputFWKPPQ
     set_m_ongoingPPQ set_m_inputJpegQ set_m_ongoingJpegQ
     set_m_inputMetaQ set_m_jpegSettingsQ queue_init
     m_parent mOutputMem mJpegClientHandle mJpegSessionId
     m_bThumbnailNeeded m_pReprocChannel m_inputPPQ m_inputFWKPPQ
     m_ongoingPPQ m_inputJpegQ m_ongoingJpegQ m_inputMetaQ m_jpegSettingsQ
     log running is_active needNewSess pme].

Section Stop.
Variable MM_JPEG_MAX_BUF : nat.

(** After [stop()] nothing is left to release: the thread is inactive, the
    queues the [STOP] branch empties are empty, no session is open and the
    reprocess channel is gone. *)
Lemma stop_leaves_nothing s rc s1 :
  stop s = Some (rc, s1) ->
  rc = NO_ERROR ∧ running s1 = true ∧ is_active s1 = false ∧
  needNewSess s1 = true ∧
  m_ongoingJpegQ (pme s1) = [] ∧ m_ongoingPPQ (pme s1) = [] ∧
  m_inputJpegQ (pme s1) = [] ∧ m_inputPPQ (pme s1) = [] ∧
  m_inputFWKPPQ (pme s1) = [] ∧ m_inputMetaQ (pme s1) = [] ∧
  m_pReprocChannel (pme s1) = None ∧ ¬ (0 < mJpegSessionId (pme s1)).
Proof.
  unfold stop, stop_data_proc, drop_reproc_channel.
  destruct s as [r a n p]. destruct r; [|done]. simpl. intros H.
  repeat case_match; simplify_eq; simpl in *;
    repeat split; try done; try lia;
    match goal with H : bool_decide _ = false |- _ =>
      by apply bool_decide_eq_false_1 in H end.
Qed.

(** In such a state a further [stop()], and a wake of the thread, succeed
    and change nothing: no call is made, no event is logged. *)
Lemma stop_when_stopped s :
  running s = true -> is_active s = false -> needNewSess s = true ->
  m_ongoingJpegQ (pme s) = [] -> m_ongoingPPQ (pme s) = [] ->
  m_inputJpegQ (pme s) = [] -> m_inputPPQ (pme s) = [] ->
  m_inputFWKPPQ (pme s) = [] -> m_inputMetaQ (pme s) = [] ->
  m_pReprocChannel (pme s) = None -> ¬ (0 < mJpegSessionId (pme s)) ->
  stop s = Some (NO_ERROR, s) ∧
  ∀ env,
    dataProcessRoutine MM_JPEG_MAX_BUF env CAMERA_CMD_TYPE_DO_NEXT_JOB s
    = Some s.
Proof.
  destruct s as [r a n p]. destruct p. simpl.
  intros -> -> -> -> -> -> -> -> -> -> Hsid.
  unfold stop, stop_data_proc, drop_reproc_channel, do_next_job,
    dataProcessRoutine, do_next_job, drain_inactive.
  unfold_updates. simpl.
  rewrite bool_decide_eq_false_2 by done.
  unfold_updates. simpl. by rewrite !app_nil_r.
Qed.

(** C8: two calls of [stop()] in a row both return [NO_ERROR], and the
    second makes no call at all: no job is aborted, no session destroyed,
    no buffer released, the log and the whole state stay as the first call
    left them.  The same holds with wakes of the thread, as posted by the
    releases of the first call, in between. *)
Theorem stop_twice s :
  running s = true ->
  ∃ s1,
    stop s = Some (NO_ERROR, s1) ∧
    (∀ env,
       dataProcessRoutine MM_JPEG_MAX_BUF env CAMERA_CMD_TYPE_DO_NEXT_JOB s1
       = Some s1) ∧
    stop s1 = Some (NO_ERROR, s1) ∧
    (∀ rc2 s2, stop s1 = Some (rc2, s2) ->
       rc2 = NO_ERROR ∧ log (pme s2) = log (pme s1)).
Proof.
  intros Hrun.
  destruct (stop s) as [[rc s1]|] eqn:Hstop;
    [|unfold stop in Hstop; by rewrite Hrun in Hstop].
  destruct (stop_leaves_nothing _ _ _ Hstop)
    as (-> & H1 & H2 & H3 & H4 & H5 & H6 & H7 & H8 & H9 & H10 & H11).
  destruct (stop_when_stopped s1) as [Hagain Hwake]; try done.
  exists s1. repeat split; try done.
  - rewrite Hagain in H. by simplify_eq.
  - rewrite Hagain in H. by simplify_eq.
Qed.

End Stop.

Lemma stop_twice_witness :
  ∃ s s1, ex_encoding = Some s ∧
          in_flight (log (pme s)) = [42] ∧
          stop s = Some (NO_ERROR, s1) ∧
          in_flight (log (pme s1)) = [] ∧
          stop s1 = Some (NO_ERROR, s1).
Proof.
  destruct ex_encoding as [s|] eqn:Hs; [|vm_compute in Hs; discriminate].
  assert (running s = true) as Hrun.
  { vm_compute in Hs. injection Hs as <-. reflexivity. }
  destruct (stop_twice 1 s Hrun) as (s1 & Hstop & _ & Hagain & _).
  exists s, s1.
  split; [reflexivity|].
  split; [vm_compute in Hs; injection Hs as <-; vm_compute; reflexivity|].
  split; [exact Hstop|]. split; [|exact Hagain].
  vm_compute in Hs. injection Hs as <-.
  vm_compute in Hstop. injection Hstop as <-. vm_compute. reflexivity.
Defined.

(** ** At most one job at the encoder *)



Lemma forallb_neutral_app (a b : list event) :
  forallb neutral a = true -> forallb neutral b = true ->
  forallb neutral (a ++ b) = true.
Proof. intros Ha Hb. rewrite forallb_app. by rewrite Ha, Hb. Qed.

Lemma neutral_no_start (evs : list event) j ret id :
  forallb neutral evs = true -> EvStartJob j ret id ∉ evs.
Proof.
  intros H Hin. rewrite forallb_forall in H.
  apply list_elem_of_In in Hin. by apply H in Hin.
Qed.

Lemma frames_refl p : frames p p.
Proof. split; [done|]. exists []. by rewrite app_nil_r. Qed.

Lemma frames_trans p1 p2 p3 : frames p1 p2 -> frames p2 p3 -> frames p1 p3.
Proof.
  intros [Hq1 (e1 & Hl1 & Hn1)] [Hq2 (e2 & Hl2 & Hn2)].
  split; [congruence|]. exists (e1 ++ e2).
  split; [by rewrite Hl2, Hl1, app_assoc|by apply forallb_neutral_app].
Qed.


(** Show [frames p p'] for a [p'] built from [p] by field updates and
    [emit]s of explicit events. *)
Ltac solve_frames :=
  unfold frames; unfold_updates; simpl;
  split; [reflexivity|];
  eexists; split;
    [rewrite <- ?app_assoc; first [reflexivity | symmetry; apply app_nil_r]
    |reflexivity].

Lemma releaseJpegJobData_neutral p job :
  forallb neutral (snd (releaseJpegJobData p job)) = true.
Proof.
  unfold releaseJpegJobData. destruct job as [job|]; [|done].
  destruct job as [? [?|] [?|] ? [?|] [?|] [?|] [?|] [?|]]; simpl;
    by destruct (non_null (m_pReprocChannel p)).
Qed.



#[local] Arguments releaseJpegJobData : simpl never.
#[local] Arguments cancel_ongoing : simpl never.

Section OneInFlight.
Variable MM_JPEG_MAX_BUF : nat.

Lemma processPPData_frames env p frame :
  frames p (processPPData env p frame).2.
Proof.
  unfold processPPData, dequeue.
  repeat case_match; simplify_eq; solve_frames.
Qed.

Lemma next_fwk_pp_job_frames env p : frames p (next_fwk_pp_job env p).
Proof.
  unfold next_fwk_pp_job, dequeue.
  repeat case_match; simplify_eq; solve_frames.
Qed.

Lemma next_pp_job_frames env p : frames p (next_pp_job env p).
Proof.
  unfold next_pp_job.
  destruct (negb (isEmpty (m_inputPPQ p)) && negb (isEmpty (m_inputMetaQ p)));
    [|apply frames_refl].
  destruct (dequeue (m_inputPPQ p)) as [pp_buffer q1].
  destruct (dequeue (m_inputMetaQ _)) as [meta_buffer q2].
  destruct (dequeue (m_jpegSettingsQ _)) as [jpeg_settings q3].
  destruct pp_buffer as [pp_buffer|]; [|solve_frames].
  destruct (malloc_pp_job env); simpl;
    [|repeat case_match; simplify_eq; solve_frames].
  destruct meta_buffer as [meta|];
    [|repeat case_match; simplify_eq; solve_frames].
  destruct (m_pReprocChannel _) as [ch|].
  - repeat case_match; simplify_eq; solve_frames.
  - match goal with
    | |- context [processPPData ?e ?q ?f] =>
        pose proof (processPPData_frames e q f) as Hpp;
        destruct (processPPData e q f) as [rc_pp p_pp]
    end.
    simpl in Hpp.
    repeat case_match; simplify_eq;
      (eapply frames_trans; [|eapply frames_trans; [exact Hpp|]]);
      solve_frames.
Qed.

Lemma drain_inactive_frames p : frames p (drain_inactive p).
Proof.
  unfold drain_inactive, dequeue.
  repeat case_match; simplify_eq; solve_frames.
Qed.





















(** The pairing parts of the active branch take nothing off the input jpeg
    queue; [processPPData] may add a job at its back. *)
Lemma processPPData_input_prefix env p frame :
  m_inputJpegQ p `prefix_of` m_inputJpegQ (processPPData env p frame).2.
Proof.
  unfold processPPData, dequeue.
  repeat case_match; simplify_eq; unfold_updates; simpl;
    first [done | by eexists].
Qed.

Lemma next_fwk_pp_job_input env p :
  m_inputJpegQ (next_fwk_pp_job env p) = m_inputJpegQ p.
Proof.
  unfold next_fwk_pp_job, dequeue.
  repeat case_match; simplify_eq; by unfold_updates.
Qed.

Lemma next_pp_job_input_prefix env p :
  m_inputJpegQ p `prefix_of` m_inputJpegQ (next_pp_job env p).
Proof.
  unfold next_pp_job.
  destruct (negb (isEmpty (m_inputPPQ p)) && negb (isEmpty (m_inputMetaQ p)));
    [|done].
  destruct (dequeue (m_inputPPQ p)) as [pp_buffer q1].
  destruct (dequeue (m_inputMetaQ _)) as [meta_buffer q2].
  destruct (dequeue (m_jpegSettingsQ _)) as [jpeg_settings q3].
  destruct pp_buffer as [pp_buffer|]; [|by unfold_updates].
  destruct (malloc_pp_job env); simpl;
    [|repeat case_match; simplify_eq; by unfold_updates].
  destruct meta_buffer as [meta|];
    [|repeat case_match; simplify_eq; by unfold_updates].
  destruct (m_pReprocChannel _) as [ch|].
  - repeat case_match; simplify_eq; by unfold_updates.
  - match goal with
    | |- context [processPPData ?e ?q ?f] =>
        pose proof (processPPData_input_prefix e q f) as Hpp;
        destruct (processPPData e q f) as [rc_pp p_pp]
    end.
    simpl in Hpp. case_bool_decide; exact Hpp.
Qed.

(** With a job in the ongoing jpeg queue, a wake of the thread submits
    nothing and takes nothing off the input jpeg queue of an active
    post-processor. *)
Lemma do_next_job_gated env s s' :
  dataProcessRoutine MM_JPEG_MAX_BUF env CAMERA_CMD_TYPE_DO_NEXT_JOB s
    = Some s' ->
  m_ongoingJpegQ (pme s) ≠ [] ->
  ∃ evs, log (pme s') = log (pme s) ++ evs ∧
         (∀ j ret id, EvStartJob j ret id ∉ evs) ∧
         (is_active s = true ->
            m_inputJpegQ (pme s) `prefix_of` m_inputJpegQ (pme s')).
Proof.
  unfold dataProcessRoutine, do_next_job. intros Hs Hog.
  set (s0 := mk_state (running s) (is_active s) true (pme s)) in Hs.
  change (is_active s0) with (is_active s) in Hs.
  destruct (is_active s).
  - assert (next_jpeg_job MM_JPEG_MAX_BUF env s0 = Some s0) as Hjpeg.
    { unfold next_jpeg_job. subst s0. simpl.
      by destruct (m_ongoingJpegQ (pme s)). }
    rewrite Hjpeg in Hs.
    change (Some (with_pme s0
                    (next_pp_job env (next_fwk_pp_job env (pme s))))
            = Some s') in Hs.
    simplify_eq.
    destruct (frames_trans _ _ _ (next_fwk_pp_job_frames env (pme s))
                (next_pp_job_frames env (next_fwk_pp_job env (pme s))))
      as [_ (evs & Hl & Hn)].
    exists evs. split; [exact Hl|]. split.
    + intros j ret id. by apply neutral_no_start.
    + intros _. simpl.
      rewrite <- (next_fwk_pp_job_input env (pme s)) at 1.
      apply next_pp_job_input_prefix.
  - simplify_eq.
    destruct (drain_inactive_frames (pme s)) as [_ (evs & Hl & Hn)].
    exists evs. split; [exact Hl|]. split; [|done].
    intros j ret id. by apply neutral_no_start.
Qed.


End OneInFlight.


(** * Further properties *)

(** ** Rationals *)

(** [getRational] succeeds exactly when the pointer is not NULL, the
    numerator is not negative and the denominator is positive; it then
    stores the two values; otherwise it returns [BAD_VALUE] and writes
    nothing. *)
Theorem getRational_accepts (rat : option rat_t) (n d : Z) :
  -2 ^ 31 <= n < 2 ^ 31 -> -2 ^ 31 <= d < 2 ^ 31 ->
  (fst (getRational rat n d) = NO_ERROR <-> is_Some rat ∧ 0 <= n ∧ 0 < d) ∧
  (fst (getRational rat n d) = NO_ERROR ->
     snd (getRational rat n d) = Some (mk_rat n d)) ∧
  (fst (getRational rat n d) ≠ NO_ERROR ->
     getRational rat n d = (BAD_VALUE, rat)).
Proof.
  intros Hn Hd. unfold getRational.
  destruct (bool_decide (0 > n)) eqn:En; simpl.
  - apply bool_decide_eq_true_1 in En.
    split; [|split]; [split|..]; try done. intros (_ & ? & _). lia.
  - apply bool_decide_eq_false_1 in En.
    destruct (bool_decide (0 >= d)) eqn:Ed; simpl.
    + apply bool_decide_eq_true_1 in Ed.
      split; [|split]; [split|..]; try done. intros (_ & _ & ?). lia.
    + apply bool_decide_eq_false_1 in Ed.
      destruct rat as [r|]; simpl.
      * rewrite !to_uint32_small by lia.
        split; [|split]; [split|..]; try done.
        intros _. split; [by eexists|lia].
      * split; [|split]; [split|..]; try done.
        intros ([? ?] & _). done.
Qed.

Lemma getRational_accepts_witness :
  getRational (Some (mk_rat 0 0)) 33 1000 = (NO_ERROR, Some (mk_rat 33 1000)) ∧
  getRational (Some (mk_rat 7 9)) (-1) 1000 = (BAD_VALUE, Some (mk_rat 7 9)).
Proof.
  split.
  - pose proof (getRational_accepts (Some (mk_rat 0 0)) 33 1000
                  ltac:(lia) ltac:(lia)) as (Hiff & Hok & _).
    assert (fst (getRational (Some (mk_rat 0 0)) 33 1000) = NO_ERROR) as Hrc.
    { apply Hiff. split; [by eexists|lia]. }
    specialize (Hok Hrc).
    destruct (getRational (Some (mk_rat 0 0)) 33 1000) as [rc r].
    simpl in *. by subst.
  - apply (getRational_accepts (Some (mk_rat 7 9)) (-1) 1000); [lia|lia|].
    vm_compute. discriminate.
Defined.

(** ** The tag-entry collection below capacity *)

(** Below capacity [addEntry] takes the next slot whatever the outcome of
    its allocation: the slot at index [m_nNumEntries] gets the tag id, the
    type, the count and [copy = 1], the entry count grows by one, and no
    other slot changes. *)
Theorem addEntry_writes_next_slot (MAX_HAL3_EXIF_TABLE_ENTRIES : nat)
    (exif : QCamera3Exif) (tagid : Z) (type : exif_tag_type_t) (count : Z)
    (data : list Z) (malloc_ok : bool) :
  0 <= m_nNumEntries exif < Z.of_nat MAX_HAL3_EXIF_TABLE_ENTRIES ->
  length (m_Entries exif) = MAX_HAL3_EXIF_TABLE_ENTRIES ->
  Z.of_nat MAX_HAL3_EXIF_TABLE_ENTRIES < 2 ^ 32 ->
  let exif' :=
    snd (addEntry MAX_HAL3_EXIF_TABLE_ENTRIES exif tagid type count data
           malloc_ok) in
  let n := Z.to_nat (m_nNumEntries exif) in
  m_nNumEntries exif' = m_nNumEntries exif + 1 ∧
  length (m_Entries exif') = MAX_HAL3_EXIF_TABLE_ENTRIES ∧
  (∀ j, j ≠ n -> m_Entries exif' !! j = m_Entries exif !! j) ∧
  (∃ e, m_Entries exif' !! n = Some e ∧ tag_id e = tagid ∧
        tag_type e = Some type ∧ tag_count e = count ∧ tag_copy e = 1).
Proof.
  intros Hn Hlen Hmax. unfold addEntry.
  rewrite bool_decide_eq_false_2 by lia. simpl.
  split; [apply to_uint32_small; lia|].
  split; [by rewrite length_insert|].
  split.
  - intros j Hj. by rewrite list_lookup_insert_ne.
  - eexists. split; [apply list_lookup_insert_eq; lia|]. done.
Qed.

Lemma addEntry_writes_next_slot_witness :
  m_nNumEntries
    (snd (addEntry 2 (new_QCamera3Exif 2) 272 EXIF_ASCII 3 [81; 67; 0] false))
  = 1.
Proof.
  apply (addEntry_writes_next_slot 2 (new_QCamera3Exif 2) 272 EXIF_ASCII 3
           [81; 67; 0] false); [simpl; lia|reflexivity|simpl; lia].
Defined.

(** The status of [addEntry] below capacity: [NO_MEMORY] exactly when the
    call needs an allocation and the allocation fails, and then the payload
    of the slot is what it was before the call, although the slot is taken;
    [NO_ERROR] otherwise, and then a string is stored as a heap copy of its
    [count] bytes followed by a NUL. *)
Theorem addEntry_allocation_outcome (MAX_HAL3_EXIF_TABLE_ENTRIES : nat)
    (exif : QCamera3Exif) (tagid : Z) (type : exif_tag_type_t) (count : Z)
    (data : list Z) (malloc_ok : bool) :
  0 <= m_nNumEntries exif < Z.of_nat MAX_HAL3_EXIF_TABLE_ENTRIES ->
  length (m_Entries exif) = MAX_HAL3_EXIF_TABLE_ENTRIES ->
  let r :=
    addEntry MAX_HAL3_EXIF_TABLE_ENTRIES exif tagid type count data
      malloc_ok in
  let n := Z.to_nat (m_nNumEntries exif) in
  (needs_malloc type count = true -> malloc_ok = false ->
     fst r = NO_MEMORY ∧
     tag_data <$> m_Entries (snd r) !! n = tag_data <$> m_Entries exif !! n) ∧
  (needs_malloc type count = false ∨ malloc_ok = true -> fst r = NO_ERROR) ∧
  (type = EXIF_ASCII -> malloc_ok = true ->
     tag_data <$> m_Entries (snd r) !! n =
       Some (DataHeap (take (Z.to_nat count) data ++ [0]))).
Proof.
  intros Hn Hlen. unfold addEntry.
  rewrite bool_decide_eq_false_2 by lia. simpl.
  assert (Z.to_nat (m_nNumEntries exif) < length (m_Entries exif))%nat
    as Hi by lia.
  rewrite list_lookup_insert_eq by done. simpl.
  destruct (lookup_lt_is_Some_2 _ _ Hi) as [e0 He0]. rewrite He0. simpl.
  split; [|split].
  - intros Hneed ->. unfold store_counted.
    destruct type; simpl in Hneed; try done; rewrite ?Hneed; done.
  - intros Hcase. unfold store_counted.
    destruct type, malloc_ok; simpl in *; try done;
      destruct Hcase as [Hcase|Hcase]; try done;
      try (by rewrite Hcase); by destruct (bool_decide (count > 1)).
  - by intros -> ->.
Qed.

Lemma addEntry_allocation_outcome_witness :
  fst (addEntry 2 (new_QCamera3Exif 2) 272 EXIF_ASCII 3 [81; 67; 0] false)
  = NO_MEMORY ∧
  tag_data <$>
    m_Entries (snd (addEntry 2 (new_QCamera3Exif 2) 272 EXIF_ASCII 3
                      [81; 67; 0] false)) !! 0%nat
  = Some DataZero.
Proof.
  apply (addEntry_allocation_outcome 2 (new_QCamera3Exif 2) 272 EXIF_ASCII 3
           [81; 67; 0] false); [simpl; lia|reflexivity|reflexivity|reflexivity].
Defined.

(** ** The tag-entry collection over a sequence of calls *)

(** What one call does to an object whose next slot is still zeroed. *)
Lemma addEntry_zeroed_slot (MAX_HAL3_EXIF_TABLE_ENTRIES : nat)
    (exif : QCamera3Exif) (c : addEntry_call) :
  0 <= m_nNumEntries exif < Z.of_nat MAX_HAL3_EXIF_TABLE_ENTRIES ->
  Z.of_nat MAX_HAL3_EXIF_TABLE_ENTRIES < 2 ^ 32 ->
  m_Entries exif !! Z.to_nat (m_nNumEntries exif) = Some zero_entry ->
  snd (addEntry MAX_HAL3_EXIF_TABLE_ENTRIES exif (call_tagid c) (call_type c)
         (call_count c) (call_data c) (call_malloc_ok c))
  = mk_exif (<[Z.to_nat (m_nNumEntries exif) := entry_of_call c]>
               (m_Entries exif))
            (m_nNumEntries exif + 1).
Proof.
  intros Hn Hmax Hzero.
  unfold entry_of_call, addEntries, addEntry. simpl.
  rewrite bool_decide_eq_false_2 by lia. simpl.
  rewrite Hzero. simpl. rewrite to_uint32_small by lia. done.
Qed.

(** The destructor frees the payload of a call's entry exactly when the
    call allocated it. *)
Lemma frees_payload_entry_of_call (c : addEntry_call) :
  frees_payload (entry_of_call c) = Some (allocates c).
Proof.
  destruct c as [tagid type count data ok].
  unfold frees_payload, entry_of_call, allocates, addEntries, addEntry,
    store_counted, needs_malloc.
  simpl.
  destruct type, ok; simpl; try done;
    destruct (bool_decide (count > 1)); done.
Qed.

Lemma free_entries_calls (pre post : list exif_entry)
    (calls : list addEntry_call) :
  free_entries (pre ++ map entry_of_call calls ++ post)
    (seq (length pre) (length calls))
  = Some (allocated_slots (length pre) calls).
Proof.
  revert pre. induction calls as [|c calls IH]; intros pre; [done|].
  simpl.
  rewrite lookup_app_r by lia. rewrite Nat.sub_diag. simpl.
  rewrite frees_payload_entry_of_call. simpl.
  specialize (IH (pre ++ [entry_of_call c])).
  rewrite length_app in IH. simpl in IH.
  rewrite Nat.add_1_r in IH. rewrite <- app_assoc in IH. simpl in IH.
  rewrite IH. simpl. by destruct (allocates c).
Qed.

(** The table after a sequence of calls on a new object, in closed form. *)
Lemma addEntries_closed_form (MAX_HAL3_EXIF_TABLE_ENTRIES : nat)
    (calls : list addEntry_call) :
  Z.of_nat MAX_HAL3_EXIF_TABLE_ENTRIES < 2 ^ 32 ->
  addEntries MAX_HAL3_EXIF_TABLE_ENTRIES
    (new_QCamera3Exif MAX_HAL3_EXIF_TABLE_ENTRIES) calls
  = mk_exif
      (map entry_of_call (take MAX_HAL3_EXIF_TABLE_ENTRIES calls) ++
       replicate (MAX_HAL3_EXIF_TABLE_ENTRIES - length calls) zero_entry)
      (Z.of_nat (length calls `min` MAX_HAL3_EXIF_TABLE_ENTRIES)).
Proof.
  intros Hmax. induction calls as [|c calls IH] using rev_ind.
  - simpl. rewrite take_nil. simpl. by rewrite Nat.sub_0_r.
  - unfold addEntries in *. rewrite fold_left_app. simpl. rewrite IH.
    rewrite length_app. simpl.
    destruct (decide (MAX_HAL3_EXIF_TABLE_ENTRIES ≤ length calls)%nat)
      as [Hfull|Hroom].
    + unfold addEntry. simpl. rewrite bool_decide_eq_true_2 by lia. simpl.
      rewrite take_app_le by lia.
      replace (MAX_HAL3_EXIF_TABLE_ENTRIES - (length calls + 1))%nat
        with (MAX_HAL3_EXIF_TABLE_ENTRIES - length calls)%nat by lia.
      f_equal. lia.
    + rewrite take_ge by lia.
      rewrite addEntry_zeroed_slot; simpl.
      * rewrite take_ge by (rewrite length_app; simpl; lia).
        f_equal; [|lia].
        replace (Z.to_nat (Z.of_nat (length calls `min`
                   MAX_HAL3_EXIF_TABLE_ENTRIES))) with
          (length (map entry_of_call calls) + 0)%nat
          by (rewrite length_map; lia).
        rewrite insert_app_r.
        replace (MAX_HAL3_EXIF_TABLE_ENTRIES - length calls)%nat
          with (S (MAX_HAL3_EXIF_TABLE_ENTRIES - (length calls + 1)))
          by lia.
        simpl. by rewrite map_app, <- app_assoc.
      * lia.
      * done.
      * replace (Z.to_nat (Z.of_nat (length calls `min`
                   MAX_HAL3_EXIF_TABLE_ENTRIES))) with
          (length (map entry_of_call calls) + 0)%nat
          by (rewrite length_map; lia).
        rewrite lookup_app_r by lia.
        replace (length (map entry_of_call calls) + 0 -
                 length (map entry_of_call calls))%nat with 0%nat by lia.
        replace (MAX_HAL3_EXIF_TABLE_ENTRIES - length calls)%nat
          with (S (MAX_HAL3_EXIF_TABLE_ENTRIES - (length calls + 1)))
          by lia.
        done.
Qed.

(** The table after any sequence of calls on a new object: the entry count
    is the number of calls, capped at the capacity; each slot below it
    holds the entry of the call of the same position, as that call alone
    would have written it; the slots above are still zeroed; the array
    keeps its length, so the calls beyond the capacity have written
    nothing. *)
Theorem addEntries_table (MAX_HAL3_EXIF_TABLE_ENTRIES : nat)
    (calls : list addEntry_call) :
  Z.of_nat MAX_HAL3_EXIF_TABLE_ENTRIES < 2 ^ 32 ->
  let exif :=
    addEntries MAX_HAL3_EXIF_TABLE_ENTRIES
      (new_QCamera3Exif MAX_HAL3_EXIF_TABLE_ENTRIES) calls in
  m_nNumEntries exif
    = Z.of_nat (length calls `min` MAX_HAL3_EXIF_TABLE_ENTRIES) ∧
  length (m_Entries exif) = MAX_HAL3_EXIF_TABLE_ENTRIES ∧
  (∀ i c, (i < MAX_HAL3_EXIF_TABLE_ENTRIES)%nat -> calls !! i = Some c ->
     m_Entries exif !! i = Some (entry_of_call c)) ∧
  (∀ i, (length calls ≤ i < MAX_HAL3_EXIF_TABLE_ENTRIES)%nat ->
     m_Entries exif !! i = Some zero_entry).
Proof.
  intros Hmax exif. subst exif. rewrite addEntries_closed_form by done.
  simpl. split; [done|]. split; [|split].
  - rewrite length_app, length_map, length_take, length_replicate. lia.
  - intros i c Hi Hc.
    rewrite lookup_app_l
      by (rewrite length_map, length_take;
          apply lookup_lt_Some in Hc; lia).
    rewrite list_lookup_fmap, lookup_take_lt by done. by rewrite Hc.
  - intros i Hi.
    rewrite lookup_app_r by (rewrite length_map, length_take; lia).
    apply lookup_replicate_2.
    rewrite length_map, length_take. lia.
Qed.

Lemma addEntries_table_witness :
  m_nNumEntries
    (addEntries 2 (new_QCamera3Exif 2)
       [mk_call 272 EXIF_ASCII 3 [81; 67; 0] true;
        mk_call 33434 EXIF_RATIONAL 1 [1; 0; 0; 0; 60; 0; 0; 0] true;
        mk_call 37386 EXIF_SHORT 1 [100; 0] true]) = 2 ∧
  m_Entries
    (addEntries 2 (new_QCamera3Exif 2)
       [mk_call 272 EXIF_ASCII 3 [81; 67; 0] true;
        mk_call 33434 EXIF_RATIONAL 1 [1; 0; 0; 0; 60; 0; 0; 0] true;
        mk_call 37386 EXIF_SHORT 1 [100; 0] true]) !! 1%nat
  = Some (mk_entry 33434 (Some EXIF_RATIONAL) 1 1
            (DataInline [1; 0; 0; 0; 60; 0; 0; 0])).
Proof.
  pose proof (addEntries_table 2
                [mk_call 272 EXIF_ASCII 3 [81; 67; 0] true;
                 mk_call 33434 EXIF_RATIONAL 1 [1; 0; 0; 0; 60; 0; 0; 0] true;
                 mk_call 37386 EXIF_SHORT 1 [100; 0] true]
                ltac:(simpl; lia)) as (Hn & _ & Hslot & _).
  split; [exact Hn|].
  exact (Hslot 1%nat _ ltac:(lia) eq_refl).
Defined.

(** The destructor of an object filled by any sequence of [addEntry] calls
    frees the payload of exactly the slots whose call allocated one, each
    once and in slot order: no payload is left behind and nothing that was
    stored in place, or whose allocation failed, is passed to [free]. *)
Theorem destructor_frees_allocated (MAX_HAL3_EXIF_TABLE_ENTRIES : nat)
    (calls : list addEntry_call) :
  Z.of_nat MAX_HAL3_EXIF_TABLE_ENTRIES < 2 ^ 32 ->
  delete_QCamera3Exif
    (addEntries MAX_HAL3_EXIF_TABLE_ENTRIES
       (new_QCamera3Exif MAX_HAL3_EXIF_TABLE_ENTRIES) calls)
  = Some (allocated_slots 0 (take MAX_HAL3_EXIF_TABLE_ENTRIES calls)).
Proof.
  intros Hmax.
  assert (addEntries MAX_HAL3_EXIF_TABLE_ENTRIES
            (new_QCamera3Exif MAX_HAL3_EXIF_TABLE_ENTRIES) calls
          = mk_exif
              (map entry_of_call (take MAX_HAL3_EXIF_TABLE_ENTRIES calls) ++
               replicate (MAX_HAL3_EXIF_TABLE_ENTRIES - length calls)
                 zero_entry)
              (Z.of_nat (length calls `min` MAX_HAL3_EXIF_TABLE_ENTRIES)))
    as ->.
  { by apply addEntries_closed_form. }
  unfold delete_QCamera3Exif. simpl.
  rewrite Nat2Z.id.
  replace (length calls `min` MAX_HAL3_EXIF_TABLE_ENTRIES)%nat
    with (length (take MAX_HAL3_EXIF_TABLE_ENTRIES calls))
    by (rewrite length_take; lia).
  apply (free_entries_calls []).
Qed.

Lemma destructor_frees_allocated_witness :
  delete_QCamera3Exif
    (addEntries 2 (new_QCamera3Exif 2)
       [mk_call 272 EXIF_ASCII 3 [81; 67; 0] true;
        mk_call 33434 EXIF_RATIONAL 1 [1; 0; 0; 0; 60; 0; 0; 0] true;
        mk_call 37386 EXIF_SHORT 2 [100; 0; 200; 0] true])
  = Some [0%nat].
Proof.
  apply (destructor_frees_allocated 2
           [mk_call 272 EXIF_ASCII 3 [81; 67; 0] true;
            mk_call 33434 EXIF_RATIONAL 1 [1; 0; 0; 0; 60; 0; 0; 0] true;
            mk_call 37386 EXIF_SHORT 2 [100; 0; 200; 0] true]).
  simpl. lia.
Defined.

(** ** The GPS processing method string *)

Lemma store_bytes_spec (buf : list Z) (off : nat) (bs : list Z) :
  (off + length bs ≤ length buf)%nat ->
  store_bytes buf off bs
  = Some (take off buf ++ bs ++ drop (off + length bs) buf).
Proof.
  revert buf off. induction bs as [|b bs IH]; intros buf off Hfit; simpl.
  - rewrite Nat.add_0_r. by rewrite take_drop.
  - simpl in Hfit. rewrite bool_decide_eq_true_2 by lia.
    rewrite IH by (rewrite length_insert; lia).
    f_equal.
    rewrite take_S_r with (x := b)
      by (apply list_lookup_insert_eq; lia).
    rewrite take_insert_ge by lia.
    rewrite drop_insert_lt by lia.
    rewrite <- app_assoc. simpl.
    by replace (S (off + length bs))%nat with (off + S (length bs))%nat by lia.
Qed.

Lemma strlen_bound (s : list Z) (len : nat) :
  strlen s = Some len -> (len < length s)%nat.
Proof.
  revert len. induction s as [|c s IH]; intros len; simpl; [done|].
  case_bool_decide; intros Hlen; simplify_eq; simpl; [lia|].
  destruct (strlen s) as [l|]; simpl in Hlen; simplify_eq.
  specialize (IH l eq_refl). lia.
Qed.

(** For a string [value] of [len] characters and a buffer with room for the
    eight prefix bytes, the string and its terminator,
    [getExifGpsProcessingMethod] returns [NO_ERROR], leaves in the buffer
    the prefix "ASCII\0\0\0", the characters of the string and one NUL, the
    bytes after them untouched, and sets [count] to [len + 9], the number
    of bytes written; with a NULL [value] it returns [BAD_VALUE] and writes
    neither the buffer nor [count]. *)
Theorem getExifGpsProcessingMethod_layout (buf : list Z) (count : Z)
    (value : list Z) (len : nat) :
  strlen value = Some len ->
  (EXIF_ASCII_PREFIX_SIZE + len + 1 ≤ length buf)%nat ->
  Z.of_nat (length buf) < 2 ^ 32 ->
  getExifGpsProcessingMethod buf count (Some value)
  = Some (NO_ERROR,
          ExifAsciiPrefix ++ take len value ++ [0] ++
          drop (EXIF_ASCII_PREFIX_SIZE + len + 1) buf,
          Z.of_nat (EXIF_ASCII_PREFIX_SIZE + len + 1)) ∧
  getExifGpsProcessingMethod buf count None = Some (BAD_VALUE, buf, count).
Proof.
  unfold EXIF_ASCII_PREFIX_SIZE. intros Hlen Hfit Hsize. split; [|done].
  unfold getExifGpsProcessingMethod, memcpy, strlcpy, EXIF_ASCII_PREFIX_SIZE.
  simpl bool_decide. cbn iota.
  rewrite store_bytes_spec by (simpl; lia).
  simpl take at 1. simpl length. cbn [mbind option_bind].
  rewrite Hlen. cbn [mbind option_bind].
  replace (len + 1)%nat with (S len) by lia.
  rewrite Nat.min_id.
  pose proof (strlen_bound _ _ Hlen) as Hlt.
  rewrite store_bytes_spec
    by (rewrite length_app, length_take; simpl; rewrite length_drop; lia).
  cbn [mbind option_bind].
  change (take 0 buf ++ take 8 ExifAsciiPrefix ++ drop (0 + 8) buf)
    with (ExifAsciiPrefix ++ drop 8 buf).
  rewrite (take_app_length' ExifAsciiPrefix) by done.
  assert (length (take len value ++ [0]) = S len) as Hcopy
    by (rewrite length_app, length_take; simpl; lia).
  rewrite Hcopy.
  rewrite (drop_app_add' ExifAsciiPrefix _ 8 (S len)) by done.
  rewrite drop_drop.
  rewrite (to_uint32_small (Z.of_nat len)) by lia.
  rewrite (to_uint32_small (Z.of_nat 8 + Z.of_nat len)) by lia.
  rewrite to_uint32_small by lia.
  replace (Z.to_nat (Z.of_nat 8 + Z.of_nat len)) with
    (length (ExifAsciiPrefix ++ take len value) + 0)%nat
    by (rewrite length_app, length_take; simpl; lia).
  rewrite bool_decide_eq_true_2; cycle 1.
  { rewrite !length_app, length_take, length_drop. simpl. lia. }
  rewrite <- (app_assoc (take len value)), (app_assoc ExifAsciiPrefix).
  rewrite insert_app_r.
  rewrite <- (app_assoc ExifAsciiPrefix).
  replace (8 + S len)%nat with (8 + len + 1)%nat by lia.
  f_equal. f_equal. lia.
Qed.

Lemma getExifGpsProcessingMethod_layout_witness :
  getExifGpsProcessingMethod (replicate 16 255) 0 (Some [71; 80; 83; 0; 9])
  = Some (NO_ERROR,
          [65; 83; 67; 73; 73; 0; 0; 0; 71; 80; 83; 0; 255; 255; 255; 255],
          12).
Proof.
  apply (getExifGpsProcessingMethod_layout (replicate 16 255) 0
           [71; 80; 83; 0; 9] 3); [reflexivity|simpl; lia|simpl; lia].
Defined.

(** ** The encode-configuration builders *)

(** [getFWKJpegEncodeConfig] fails exactly when the frame or the settings
    are NULL or the output buffer index is not one of the output memory; it
    then returns [BAD_VALUE] and leaves the parameters and the object as
    they were.  When it succeeds the parameters name one source buffer, the
    framework input buffer, and one destination buffer, the output buffer
    of the settings' index, and the thumbnail, if one is needed, is encoded
    from the main source buffer. *)
Theorem getFWKJpegEncodeConfig_outcome (pme : QCamera3PostProcessor)
    (parm : mm_jpeg_encode_params_t)
    (frame : option qcamera_fwk_input_pp_data_t)
    (js : option jpeg_settings_t) :
  (0 < length (src_main_buf parm))%nat ->
  (0 < length (src_thumb_buf parm))%nat ->
  (0 < length (dest_buf parm))%nat ->
  let r := getFWKJpegEncodeConfig pme parm frame js in
  (r.1.1 = NO_ERROR <->
     ∃ f s, frame = Some f ∧ js = Some s ∧
            getSize (mOutputMem pme) (out_buf_index s) ≠ BAD_INDEX) ∧
  (r.1.1 ≠ NO_ERROR -> r = (BAD_VALUE, parm, pme)) ∧
  (∀ f s, frame = Some f -> js = Some s -> r.1.1 = NO_ERROR ->
     num_src_bufs r.1.2 = 1 ∧ num_dst_bufs r.1.2 = 1 ∧
     buf0 (src_main_buf r.1.2) =
       mk_jpeg_buf 0 (input_buffer_frame_len f) (input_buffer_ptr f)
         (input_buffer_fd f) MM_JPEG_FMT_YUV
         (input_stream_plane_info (reproc_config f)) ∧
     buf0 (dest_buf r.1.2) =
       mk_jpeg_buf 0 (getSize (mOutputMem pme) (out_buf_index s))
         (getPtr (mOutputMem pme) (out_buf_index s))
         (getFd (mOutputMem pme) (out_buf_index s)) MM_JPEG_FMT_YUV
         (input_stream_plane_info (reproc_config f)) ∧
     (m_bThumbnailNeeded r.2 = true ->
        num_tmb_bufs r.1.2 = 1 ∧
        buf0 (src_thumb_buf r.1.2) = buf0 (src_main_buf r.1.2)) ∧
     (m_bThumbnailNeeded r.2 = false ->
        num_tmb_bufs r.1.2 = num_tmb_bufs parm ∧
        src_thumb_buf r.1.2 = src_thumb_buf parm)).
Proof.
  intros Hsrc Hthumb Hdst. unfold getFWKJpegEncodeConfig.
  destruct frame as [f|], js as [s|]; simpl;
    try (split; [|split];
         [split; [done|by intros (? & ? & ? & ? & ?)]|done|done]).
  case_bool_decide as Hidx; simpl.
  - split; [|split].
    + split; [done|].
      intros (f' & s' & ? & ? & Hok); simplify_eq; congruence.
    + done.
    + done.
  - split; [|split].
    + split; [|done]. intros _. exists f, s. repeat split. congruence.
    + done.
    + intros f' s' ? ? _. simplify_eq.
      destruct (bool_decide (jpeg_quality s' <= 0)),
        (bool_decide (width (thumbnail_size s') > 0)),
        (bool_decide (height (thumbnail_size s') > 0)); simpl;
        unfold buf0; simpl;
        rewrite ?list_lookup_insert_eq by done; by repeat split.
Qed.

Lemma getFWKJpegEncodeConfig_outcome_witness :
  (getFWKJpegEncodeConfig ex_pme (zero_params 4) (Some ex_fwk)
     (Some ex_settings)).1.1 = NO_ERROR.
Proof.
  apply (getFWKJpegEncodeConfig_outcome ex_pme (zero_params 4) (Some ex_fwk)
           (Some ex_settings)); [simpl; lia|simpl; lia|simpl; lia|].
  exists ex_fwk, ex_settings. repeat split. vm_compute. discriminate.
Defined.

Section BufferLoops.
Variable MM_JPEG_MAX_BUF : nat.

(** The buffer loop: it keeps the length of the array, succeeds exactly
    when no index in its range is refused by the stream memory, then leaves
    at each index of the range the buffer of that index, and in any case
    leaves the elements outside the range alone. *)
Lemma fill_bufs_spec (mem : QCamera3StreamMem)
    (offset : cam_frame_len_offset_t) (cast : Z -> Z) (m k : nat)
    (arr : list mm_jpeg_buf_t) :
  let r := fill_bufs mem offset cast (seq k m) arr in
  length r.2 = length arr ∧
  (r.1 = true <->
     ∀ i, (k ≤ i < k + m)%nat -> getSize mem (Z.of_nat i) ≠ BAD_INDEX) ∧
  (r.1 = true ->
     ∀ i, (k ≤ i < k + m)%nat -> (i < length arr)%nat ->
       r.2 !! i =
         Some (mk_jpeg_buf (Z.of_nat i) (cast (getSize mem (Z.of_nat i)))
                 (getPtr mem (Z.of_nat i)) (getFd mem (Z.of_nat i))
                 MM_JPEG_FMT_YUV offset)) ∧
  (∀ i, (i < k)%nat -> r.2 !! i = arr !! i).
Proof.
  revert k arr. induction m as [|m IH]; intros k arr; simpl.
  - split; [done|]. split; [|split]; [split| |]; try done; intros; lia.
  - case_bool_decide as Hbad; simpl.
    + split; [by rewrite length_insert|].
      split; [|split]; [split| |]; try done.
      * intros Hall. exfalso. apply (Hall k); [lia|done].
      * intros i Hi. apply list_lookup_insert_ne. lia.
    + specialize (IH (S k)
        (<[k := mk_jpeg_buf (Z.of_nat k) (cast (getSize mem (Z.of_nat k)))
                  (getPtr mem (Z.of_nat k)) (getFd mem (Z.of_nat k))
                  MM_JPEG_FMT_YUV offset]> arr)).
      simpl in IH. destruct IH as (Hlen & Hiff & Hfill & Hout).
      rewrite length_insert in Hlen.
      split; [done|]. split; [|split]; [split| |].
      * intros Hok i Hi. destruct (decide (i = k)) as [->|Hne]; [done|].
        apply Hiff; [done|lia].
      * intros Hall. apply Hiff. intros i Hi. apply Hall. lia.
      * intros Hok i Hi Hlt. destruct (decide (i = k)) as [->|Hne].
        -- rewrite Hout by lia. by apply list_lookup_insert_eq.
        -- apply Hfill; [done|lia|by rewrite length_insert].
      * intros i Hi. rewrite Hout by lia.
        apply list_lookup_insert_ne. lia.
Qed.

(** [getJpegEncodeConfig] on a stream with stream memory of [getCnt]
    buffers.  It succeeds exactly when the stream memory knows the size of
    each of the first min([getCnt], [MM_JPEG_MAX_BUF]) buffers and the
    output memory knows the output buffer of the settings, and returns
    [BAD_VALUE] otherwise.  When it succeeds, [num_src_bufs] is that
    minimum and [src_main_buf[i]], for each [i] below it, is buffer [i] of
    the stream memory with the frame offset of the stream; with a thumbnail
    the same holds of [num_tmb_bufs] and [src_thumb_buf], the size narrowed
    to 32 bits. *)
Theorem getJpegEncodeConfig_buffers (pme : QCamera3PostProcessor)
    (parm : mm_jpeg_encode_params_t) (main_stream : QCamera3Stream)
    (js : jpeg_settings_t) (mem : QCamera3StreamMem) :
  getStreamBufs main_stream = Some mem ->
  0 <= getCnt mem ->
  length (src_main_buf parm) = MM_JPEG_MAX_BUF ->
  length (src_thumb_buf parm) = MM_JPEG_MAX_BUF ->
  let n := Z.min (getCnt mem) (Z.of_nat MM_JPEG_MAX_BUF) in
  let r := getJpegEncodeConfig MM_JPEG_MAX_BUF pme parm main_stream js in
  (r.1.1 = NO_ERROR <->
     (∀ i, 0 <= i < n -> getSize mem i ≠ BAD_INDEX) ∧
     getSize (mOutputMem pme) (out_buf_index js) ≠ BAD_INDEX) ∧
  (r.1.1 ≠ NO_ERROR -> r.1.1 = BAD_VALUE) ∧
  (r.1.1 = NO_ERROR ->
     num_src_bufs r.1.2 = n ∧
     (∀ i, 0 <= i < n ->
        src_main_buf r.1.2 !! Z.to_nat i =
          Some (mk_jpeg_buf i (getSize mem i) (getPtr mem i) (getFd mem i)
                  MM_JPEG_FMT_YUV (getFrameOffset main_stream))) ∧
     (m_bThumbnailNeeded r.2 = true ->
        num_tmb_bufs r.1.2 = n ∧
        ∀ i, 0 <= i < n ->
          src_thumb_buf r.1.2 !! Z.to_nat i =
            Some (mk_jpeg_buf i (to_uint32 (getSize mem i)) (getPtr mem i)
                    (getFd mem i) MM_JPEG_FMT_YUV
                    (getFrameOffset main_stream)))).
Proof.
  intros Hmem Hcnt Hmain Hthumb n r. subst r.
  unfold getJpegEncodeConfig. rewrite Hmem. fold n.
  set (thumb := bool_decide (width (thumbnail_size js) > 0) &&
                bool_decide (height (thumbnail_size js) > 0)).
  set (pme1 := set_m_bThumbnailNeeded pme thumb).
  set (p1 := set_thumb_quality _ _).
  assert (src_main_buf p1 = src_main_buf parm) as Hp1m
    by (subst p1; by case_bool_decide).
  assert (src_thumb_buf p1 = src_thumb_buf parm) as Hp1t
    by (subst p1; by case_bool_decide).
  assert (dest_buf p1 = dest_buf parm) as Hp1d
    by (subst p1; by case_bool_decide).
  clearbody p1.
  assert (∀ i, 0 <= i < n -> (0 ≤ Z.to_nat i < 0 + Z.to_nat n)%nat ∧
                             (Z.to_nat i < MM_JPEG_MAX_BUF)%nat ∧
                             Z.of_nat (Z.to_nat i) = i) as Hidx
    by (intros i Hi; subst n; lia).
  assert (∀ P : Z -> Prop,
            (∀ i, (0 ≤ i < 0 + Z.to_nat n)%nat -> P (Z.of_nat i)) <->
            (∀ i, 0 <= i < n -> P i)) as Hrange.
  { intros P. split; intros HP i Hi.
    - destruct (Hidx i Hi) as (? & _ & Heq). rewrite <- Heq. by apply HP.
    - apply HP. lia. }
  pose proof (fill_bufs_spec mem (getFrameOffset main_stream) (fun z => z)
                (Z.to_nat n) 0 (src_main_buf p1)) as Hfill.
  cbv zeta in Hfill.
  destruct (fill_bufs mem (getFrameOffset main_stream) (fun z => z)
              (seq 0 (Z.to_nat n)) (src_main_buf p1)) as [ok arr] eqn:Hrun.
  cbn [fst snd] in Hfill. destruct Hfill as (Hlen & Hiff & Hval & _).
  rewrite (Hrange (fun i => getSize mem i ≠ BAD_INDEX)) in Hiff.
  destruct ok; simpl.
  - pose proof (proj1 Hiff eq_refl) as Hall.
    assert (∀ i, 0 <= i < n ->
              arr !! Z.to_nat i =
                Some (mk_jpeg_buf i (getSize mem i) (getPtr mem i)
                        (getFd mem i) MM_JPEG_FMT_YUV
                        (getFrameOffset main_stream))) as Hmainbufs.
    { intros i Hi. destruct (Hidx i Hi) as (Hr & Hlt & Heq).
      rewrite <- Heq at 2 3 4 5. apply Hval; [done..|].
      rewrite Hp1m, Hmain. done. }
    destruct thumb eqn:Hth; simpl.
    + pose proof (fill_bufs_spec mem (getFrameOffset main_stream) to_uint32
                    (Z.to_nat n) 0 (src_thumb_buf p1)) as Hfill2.
      cbv zeta in Hfill2.
      destruct (fill_bufs mem (getFrameOffset main_stream) to_uint32
                  (seq 0 (Z.to_nat n)) (src_thumb_buf p1))
        as [ok2 arr2] eqn:Hrun2.
      cbn [fst snd] in Hfill2.
      destruct Hfill2 as (Hlen2 & Hiff2 & Hval2 & _).
      rewrite (Hrange (fun i => getSize mem i ≠ BAD_INDEX)) in Hiff2.
      destruct ok2; [|by apply Hiff2 in Hall].
      unfold config_dest_buf. simpl. case_bool_decide as Hout; simpl.
      * split; [|split]; [|done|done].
        split; [done|]. intros (_ & Hok); congruence.
      * split; [|split]; [|done|].
        { split; [|done]. intros _. split; [done|]. congruence. }
        intros _. split; [done|]. split; [done|]. intros _.
        split; [done|]. intros i Hi.
        destruct (Hidx i Hi) as (Hr & Hlt & Heq).
        rewrite <- Heq at 2 3 4 5. apply Hval2; [done..|].
        rewrite Hp1t, Hthumb. done.
    + unfold config_dest_buf. simpl. case_bool_decide as Hout; simpl.
      * split; [|split]; [|done|done].
        split; [done|]. intros (_ & Hok); congruence.
      * split; [|split]; [|done|].
        { split; [|done]. intros _. split; [done|]. congruence. }
        intros _. split; [done|]. split; [done|]. done.
  - split; [|split]; [|done|done].
    split; [done|]. intros (Hall & _). by apply Hiff in Hall.
Qed.

End BufferLoops.

Lemma getJpegEncodeConfig_buffers_witness :
  (getJpegEncodeConfig 4 ex_pme (zero_params 4) ex_stream ex_settings).1.1
  = NO_ERROR.
Proof.
  apply (getJpegEncodeConfig_buffers 4 ex_pme (zero_params 4) ex_stream
           ex_settings ex_mem);
    [reflexivity|simpl; lia|reflexivity|reflexivity|].
  split.
  - intros i _. vm_compute. discriminate.
  - vm_compute. discriminate.
Defined.

(** ** The main frame of a captured super buffer *)

(** The search of [encodeData] for the main frame finds nothing exactly
    when no buffer of the frame belongs to a snapshot or offline-processing
    stream of the channel; otherwise it yields the last such buffer, with
    its stream: the loop runs to the end, a later match replacing an
    earlier one. *)
Theorem find_main_frame_last (srcChannel : QCamera3Channel)
    (recvd_frame : mm_camera_super_buf_t) :
  (find_main_frame srcChannel recvd_frame = None <->
     ∀ b, b ∈ bufs recvd_frame -> is_main_buf srcChannel b = false) ∧
  (∀ main_stream main_frame,
     find_main_frame srcChannel recvd_frame = Some (main_stream, main_frame) ->
     getStreamByHandle srcChannel (stream_id main_frame) = Some main_stream ∧
     is_main_buf srcChannel main_frame = true ∧
     ∃ before after,
       bufs recvd_frame = before ++ main_frame :: after ∧
       ∀ b, b ∈ after -> is_main_buf srcChannel b = false).
Proof.
  unfold find_main_frame.
  induction (bufs recvd_frame) as [|b l IH] using rev_ind.
  - simpl. split; [split; [by set_unfold|done]|done].
  - rewrite fold_left_app. simpl.
    destruct IH as [IHnone IHsome].
    unfold is_main_buf at 1 3.
    destruct (getStreamByHandle srcChannel (stream_id b)) as [s|] eqn:Hs.
    + destruct (getMyType s) eqn:Hty.
      * split.
        -- split; [done|]. intros Hall.
           specialize (Hall b ltac:(set_solver)).
           unfold is_main_buf in Hall. by rewrite Hs, Hty in Hall.
        -- intros ms mf Heq. simplify_eq.
           split; [done|]. split; [unfold is_main_buf; by rewrite Hs, Hty|].
           exists l, []. split; [done|]. by set_unfold.
      * split.
        -- split; [done|]. intros Hall.
           specialize (Hall b ltac:(set_solver)).
           unfold is_main_buf in Hall. by rewrite Hs, Hty in Hall.
        -- intros ms mf Heq. simplify_eq.
           split; [done|]. split; [unfold is_main_buf; by rewrite Hs, Hty|].
           exists l, []. split; [done|]. by set_unfold.
      * split.
        -- rewrite IHnone. split.
           ++ intros Hall b' Hin. apply elem_of_app in Hin as [Hin|Hin].
              ** by apply Hall.
              ** apply list_elem_of_singleton in Hin as ->.
                 unfold is_main_buf. by rewrite Hs, Hty.
           ++ intros Hall b' Hin. apply Hall. set_solver.
        -- intros ms mf Heq.
           destruct (IHsome ms mf Heq) as (H1 & H2 & before & after & -> & H3).
           split; [done|]. split; [done|].
           exists before, (after ++ [b]).
           split; [by rewrite <- app_assoc|].
           intros b' Hin. apply elem_of_app in Hin as [Hin|Hin].
           ** by apply H3.
           ** apply list_elem_of_singleton in Hin as ->.
              unfold is_main_buf. by rewrite Hs, Hty.
    + split.
      * rewrite IHnone. split.
        -- intros Hall b' Hin. apply elem_of_app in Hin as [Hin|Hin].
           ++ by apply Hall.
           ++ apply list_elem_of_singleton in Hin as ->.
              unfold is_main_buf. by rewrite Hs.
        -- intros Hall b' Hin. apply Hall. set_solver.
      * intros ms mf Heq.
        destruct (IHsome ms mf Heq) as (H1 & H2 & before & after & -> & H3).
        split; [done|]. split; [done|].
        exists before, (after ++ [b]).
        split; [by rewrite <- app_assoc|].
        intros b' Hin. apply elem_of_app in Hin as [Hin|Hin].
        -- by apply H3.
        -- apply list_elem_of_singleton in Hin as ->.
           unfold is_main_buf. by rewrite Hs.
Qed.

(** ** Encoding sessions *)

Section Sessions.
Variable MM_JPEG_MAX_BUF : nat.

Lemma destroy_old_session_handle env pme early pme' evs :
  destroy_old_session env pme = (early, pme', evs) ->
  mJpegClientHandle pme' = mJpegClientHandle pme.
Proof.
  unfold destroy_old_session. intros H.
  repeat case_match; by simplify_eq.
Qed.

Lemma getFWKJpegEncodeConfig_handle pme parm frame js :
  mJpegClientHandle (getFWKJpegEncodeConfig pme parm frame js).2
  = mJpegClientHandle pme.
Proof. unfold getFWKJpegEncodeConfig. by repeat case_match. Qed.

Lemma getJpegEncodeConfig_handle pme parm main_stream js :
  mJpegClientHandle
    (getJpegEncodeConfig MM_JPEG_MAX_BUF pme parm main_stream js).2
  = mJpegClientHandle pme.
Proof.
  unfold getJpegEncodeConfig, config_dest_buf. by repeat case_match.
Qed.

(** A session block that does not return early has created a session, and
    the session id of the object is the one the encoder gave. *)
Lemma fwk_new_session_created env pme f js S D pme' evs :
  fwk_new_session MM_JPEG_MAX_BUF env pme f js S D = (None, pme', evs) ->
  ∃ p, EvCreateSession p ∈ evs ∧
       create_session (mJpegHandle env) (mJpegClientHandle pme) p
       = (NO_ERROR, mJpegSessionId pme').
Proof.
  unfold fwk_new_session. intros H.
  destruct (destroy_old_session env pme) as [[e0 pme0] evs0] eqn:Hd.
  apply destroy_old_session_handle in Hd.
  destruct e0 as [rc0|]; [done|].
  match type of H with
  | context [getFWKJpegEncodeConfig ?p ?a ?b ?c] =>
      pose proof (getFWKJpegEncodeConfig_handle p a b c) as Hcfg;
      destruct (getFWKJpegEncodeConfig p a b c) as [[rc cfg] pme1]
  end.
  simpl in Hcfg. rewrite Hd in Hcfg. rewrite Hcfg in H.
  destruct (create_session _ _ _) as [ret sid] eqn:Hcreate.
  case_bool_decide as Hret; simplify_eq.
  exists cfg. split; [set_solver|]. exact Hcreate.
Qed.

Lemma new_session_created env pme main_stream js S D pme' evs :
  new_session MM_JPEG_MAX_BUF env pme main_stream js S D = (None, pme', evs) ->
  ∃ p, EvCreateSession p ∈ evs ∧
       create_session (mJpegHandle env) (mJpegClientHandle pme) p
       = (NO_ERROR, mJpegSessionId pme').
Proof.
  unfold new_session. intros H.
  destruct (destroy_old_session env pme) as [[e0 pme0] evs0] eqn:Hd.
  apply destroy_old_session_handle in Hd.
  destruct e0 as [rc0|]; [done|].
  match type of H with
  | context [getJpegEncodeConfig _ ?p ?a ?b ?c] =>
      pose proof (getJpegEncodeConfig_handle p a b c) as Hcfg;
      destruct (getJpegEncodeConfig MM_JPEG_MAX_BUF p a b c)
        as [[rc cfg] pme1]
  end.
  simpl in Hcfg. rewrite Hd in Hcfg. rewrite Hcfg in H.
  destruct (create_session _ _ _) as [ret sid] eqn:Hcreate.
  case_bool_decide as Hret; simplify_eq.
  eexists. split; [|exact Hcreate]. set_solver.
Qed.

Lemma fwk_fill_job_session env pme meta js S D exif :
  session_id (fwk_fill_job env pme meta js S D exif) = mJpegSessionId pme.
Proof. unfold fwk_fill_job. by destruct (m_bThumbnailNeeded pme). Qed.

Lemma fill_job_session env pme main_frame meta js S D exif :
  session_id (fill_job env pme main_frame meta js S D exif)
  = mJpegSessionId pme.
Proof. unfold fill_job. by destruct (m_bThumbnailNeeded pme). Qed.

(** A job an encode function starts when asked for a new session runs in
    the session the same call created. *)
Lemma encodeFWKData_new_session env pme job j ret id :
  EvStartJob j ret id ∈
    er_events (encodeFWKData MM_JPEG_MAX_BUF env pme (Some job) true) ->
  ∃ p, EvCreateSession p ∈
         er_events (encodeFWKData MM_JPEG_MAX_BUF env pme (Some job) true) ∧
       create_session (mJpegHandle env) (mJpegClientHandle pme) p
       = (NO_ERROR, session_id j).
Proof.
  unfold encodeFWKData.
  destruct (fwk_frame job) as [f|]; [|by set_unfold].
  destruct (metadata job) as [meta|]; [|by set_unfold].
  destruct (jpeg_settings job) as [js|]; [|by set_unfold].
  destruct (non_null (src_frame job) && non_null (src_frame job));
    [by set_unfold|].
  case_bool_decide; [by set_unfold|].
  destruct (fwk_new_session _ _ _ _ _ _ _) as [[early pme1] evs] eqn:Hs.
  destruct early as [rc|]; simpl.
  - intros Hin.
    eapply (fwk_new_session_events MM_JPEG_MAX_BUF) in Hs; [|done].
    naive_solver.
  - destruct (start_job _ _) as [ret' id'] eqn:Hstart. simpl.
    rewrite elem_of_app, list_elem_of_singleton.
    intros [Hin|Heq].
    + eapply (fwk_new_session_events MM_JPEG_MAX_BUF) in Hs; [|done].
      naive_solver.
    + simplify_eq. rewrite fwk_fill_job_session.
      apply fwk_new_session_created in Hs as (p & Hp & Hc).
      exists p. split; [|done]. set_solver.
Qed.

Lemma encodeData_new_session env pme job r j ret id :
  encodeData MM_JPEG_MAX_BUF env pme job true = Some r ->
  EvStartJob j ret id ∈ er_events r ->
  ∃ p, EvCreateSession p ∈ er_events r ∧
       create_session (mJpegHandle env) (mJpegClientHandle pme) p
       = (NO_ERROR, session_id j).
Proof.
  unfold encodeData.
  destruct (src_frame job) as [recvd_frame|] eqn:Hsrc; [|done].
  destruct (find_src_channel pme recvd_frame) as [srcChannel|] eqn:Hch;
    [|intros; simplify_eq; by set_unfold].
  destruct (find_main_frame srcChannel recvd_frame)
    as [[main_stream main_frame]|] eqn:Hmain;
    [|intros; simplify_eq; by set_unfold].
  destruct (negb (mem_info main_frame));
    [intros; simplify_eq; by set_unfold|].
  case_bool_decide; [intros; simplify_eq; set_unfold; naive_solver|].
  destruct (getStreamSize env) as [rc_size D] eqn:Hsize.
  case_bool_decide; [intros; simplify_eq; set_unfold; naive_solver|].
  destruct (jpeg_settings job) as [js|] eqn:Hjs; [|done].
  destruct (new_session _ _ _ _ _ _ _) as [[early pme1] evs] eqn:Hs.
  pose proof (λ ev, new_session_events _ _ _ _ _ _ _ _ _ _ ev Hs) as Hevs.
  destruct early as [rc|].
  - intros ? Hev. simplify_eq. simpl in Hev. set_unfold.
    destruct Hev as [?|Hev]; [done|]. apply Hevs in Hev. naive_solver.
  - apply new_session_created in Hs as (p & Hp & Hc).
    destruct (negb (malloc_debug_params env)).
    + intros ? Hev. simplify_eq. simpl in Hev. set_unfold.
      destruct Hev as [?|Hev]; [done|]. apply Hevs in Hev. naive_solver.
    + destruct (start_job _ _) as [ret' id']. intros ? Hev. simplify_eq.
      simpl in Hev. set_unfold.
      destruct Hev as [?|[Hev|[Heq|[]]]]; [done| |].
      * apply Hevs in Hev. naive_solver.
      * simplify_eq. rewrite fill_job_session. exists p. split; [|done].
        simpl. set_solver.
Qed.

Lemma same_but_session_refl p : same_but_session p p.
Proof. by repeat split. Qed.

Lemma same_but_session_trans p1 p2 p3 :
  same_but_session p1 p2 -> same_but_session p2 p3 -> same_but_session p1 p3.
Proof.
  unfold same_but_session. intros H12 H23.
  destruct_and!. repeat split; congruence.
Qed.

Lemma destroy_old_session_same env pme early pme' evs :
  destroy_old_session env pme = (early, pme', evs) ->
  same_but_session pme pme'.
Proof.
  unfold destroy_old_session. intros H.
  repeat case_match; simplify_eq; by repeat split.
Qed.

Lemma getFWKJpegEncodeConfig_same pme parm frame js :
  same_but_session pme (getFWKJpegEncodeConfig pme parm frame js).2.
Proof.
  unfold getFWKJpegEncodeConfig. repeat case_match; by repeat split.
Qed.

Lemma getJpegEncodeConfig_same pme parm main_stream js :
  same_but_session pme
    (getJpegEncodeConfig MM_JPEG_MAX_BUF pme parm main_stream js).2.
Proof.
  unfold getJpegEncodeConfig, config_dest_buf.
  repeat case_match; by repeat split.
Qed.

Lemma fwk_new_session_same env pme f js S D early pme' evs :
  fwk_new_session MM_JPEG_MAX_BUF env pme f js S D = (early, pme', evs) ->
  same_but_session pme pme'.
Proof.
  unfold fwk_new_session. intros H.
  destruct (destroy_old_session env pme) as [[e0 pme0] evs0] eqn:Hd.
  apply destroy_old_session_same in Hd.
  destruct e0 as [rc0|]; [by simplify_eq|].
  match type of H with
  | context [getFWKJpegEncodeConfig ?p ?a ?b ?c] =>
      pose proof (getFWKJpegEncodeConfig_same p a b c) as Hcfg;
      destruct (getFWKJpegEncodeConfig p a b c) as [[rc cfg] pme1]
  end.
  simpl in Hcfg.
  destruct (create_session _ _ _) as [ret sid].
  assert (same_but_session pme (set_mJpegSessionId pme1 sid)) as Hsame.
  { eapply same_but_session_trans; [done|].
    eapply same_but_session_trans; [done|]. by repeat split. }
  case_bool_decide; by simplify_eq.
Qed.

Lemma new_session_same env pme main_stream js S D early pme' evs :
  new_session MM_JPEG_MAX_BUF env pme main_stream js S D = (early, pme', evs) ->
  same_but_session pme pme'.
Proof.
  unfold new_session. intros H.
  destruct (destroy_old_session env pme) as [[e0 pme0] evs0] eqn:Hd.
  apply destroy_old_session_same in Hd.
  destruct e0 as [rc0|]; [by simplify_eq|].
  match type of H with
  | context [getJpegEncodeConfig _ ?p ?a ?b ?c] =>
      pose proof (getJpegEncodeConfig_same p a b c) as Hcfg;
      destruct (getJpegEncodeConfig MM_JPEG_MAX_BUF p a b c)
        as [[rc cfg] pme1]
  end.
  simpl in Hcfg.
  destruct (create_session _ _ _) as [ret sid].
  assert (same_but_session pme (set_mJpegSessionId pme1 sid)) as Hsame.
  { eapply same_but_session_trans; [done|].
    eapply same_but_session_trans; [done|]. by repeat split. }
  case_bool_decide; by simplify_eq.
Qed.

(** What an encode function leaves of the object and of the job record. *)
Lemma encodeFWKData_leaves env pme job needNewSess :
  let r := encodeFWKData MM_JPEG_MAX_BUF env pme (Some job) needNewSess in
  same_but_session pme (er_pme r) ∧
  ∃ j', er_job r = Some j' ∧ same_job_resources job j'.
Proof.
  unfold encodeFWKData.
  assert (same_job_resources job job) as Hjob by by repeat split.
  pose proof (same_but_session_refl pme) as Hpme.
  destruct (fwk_frame job) as [f|]; [|by eauto].
  destruct (metadata job) as [meta|]; [|by eauto].
  destruct (jpeg_settings job) as [js|]; [|by eauto].
  destruct (_ && _); [by eauto|].
  case_bool_decide; [by eauto|].
  destruct needNewSess.
  - destruct (fwk_new_session _ _ _ _ _ _ _) as [[early pme1] evs] eqn:Hs.
    apply fwk_new_session_same in Hs.
    destruct early as [rc|]; simpl; [by eauto|].
    destruct (start_job _ _) as [ret id']. simpl.
    split; [done|]. eexists. split; [done|]. by repeat split.
  - simpl. destruct (start_job _ _) as [ret id']. simpl.
    split; [done|]. eexists. split; [done|]. by repeat split.
Qed.

Lemma encodeData_leaves env pme job needNewSess r :
  encodeData MM_JPEG_MAX_BUF env pme job needNewSess = Some r ->
  same_but_session pme (er_pme r) ∧
  ∃ j', er_job r = Some j' ∧ same_job_resources job j'.
Proof.
  unfold encodeData.
  assert (same_job_resources job job) as Hjob by by repeat split.
  pose proof (same_but_session_refl pme) as Hpme.
  destruct (src_frame job) as [recvd_frame|]; [|done].
  destruct (find_src_channel pme recvd_frame) as [srcChannel|];
    [|intros; simplify_eq; by eauto].
  destruct (find_main_frame srcChannel recvd_frame)
    as [[main_stream main_frame]|];
    [|intros; simplify_eq; by eauto].
  destruct (negb (mem_info main_frame)); [intros; simplify_eq; by eauto|].
  case_bool_decide; [intros; simplify_eq; by eauto|].
  destruct (getStreamSize env) as [rc_size D].
  case_bool_decide; [intros; simplify_eq; by eauto|].
  destruct (jpeg_settings job) as [js|]; [|done].
  destruct needNewSess.
  - destruct (new_session _ _ _ _ _ _ _) as [[early pme1] evs] eqn:Hs.
    apply new_session_same in Hs.
    destruct early as [rc|]; [intros; simplify_eq; by eauto|].
    destruct (negb (malloc_debug_params env)).
    + intros; simplify_eq; simpl. split; [done|].
      eexists. split; [done|]. by repeat split.
    + destruct (start_job _ _) as [ret id'].
      intros; simplify_eq; simpl. split; [done|].
      eexists. split; [done|]. by repeat split.
  - destruct (negb (malloc_debug_params env)).
    + intros; simplify_eq; simpl. split; [done|].
      eexists. split; [done|]. by repeat split.
    + destruct (start_job _ _) as [ret id'].
      intros; simplify_eq; simpl. split; [done|].
      eexists. split; [done|]. by repeat split.
Qed.

End Sessions.

(** ** Submission of jpeg jobs by the thread *)

Lemma releaseJpegJobData_channel p p' job :
  m_pReprocChannel p' = m_pReprocChannel p ->
  releaseJpegJobData p' job = releaseJpegJobData p job.
Proof. intros H. unfold releaseJpegJobData. by rewrite H. Qed.

(** The events of [releaseJpegJobData], block by block. *)
Lemma releaseJpegJobData_events p job :
  snd (releaseJpegJobData p (Some job)) =
    match src_reproc_frame job with
    | Some f => [EvFreeSuperBuf f]
    | None => []
    end ++
    match src_frame job with
    | Some f =>
        (if non_null (m_pReprocChannel p) then [EvReprocBufDone f] else []) ++
        [EvFreeSuperBuf f]
    | None => []
    end ++
    match fwk_src_buffer job with
    | Some b => [EvFreeFwkFrame b]
    | None =>
        match src_metadata job with
        | Some m => [EvMetadataBufDone m; EvFreeSuperBuf m]
        | None => []
        end
    end ++
    match fwk_frame job with
    | Some f => [EvFreeFwkFrame f]
    | None => []
    end ++
    match pJpegExifObj job with
    | Some _ => [EvDeleteExif]
    | None => []
    end ++
    match jpeg_settings job with
    | Some s => [EvFreeSettings s]
    | None => []
    end ++ [EvSendCmd CAMERA_CMD_TYPE_DO_NEXT_JOB].
Proof.
  unfold releaseJpegJobData.
  by destruct (fwk_src_buffer job), (src_metadata job).
Qed.

(** What [releaseJpegJobData] hands back of a job. *)
Lemma releaseJpegJobData_releases p job :
  let evs := snd (releaseJpegJobData p (Some job)) in
  (∀ js, jpeg_settings job = Some js -> EvFreeSettings js ∈ evs) ∧
  (∀ f, fwk_frame job = Some f -> EvFreeFwkFrame f ∈ evs) ∧
  (∀ f, src_frame job = Some f -> EvFreeSuperBuf f ∈ evs) ∧
  (∀ f, src_reproc_frame job = Some f -> EvFreeSuperBuf f ∈ evs) ∧
  (∀ b, fwk_src_buffer job = Some b -> EvFreeFwkFrame b ∈ evs) ∧
  (∀ m, fwk_src_buffer job = None -> src_metadata job = Some m ->
     EvMetadataBufDone m ∈ evs ∧ EvFreeSuperBuf m ∈ evs) ∧
  (is_Some (pJpegExifObj job) -> EvDeleteExif ∈ evs).
Proof.
  cbv zeta. rewrite releaseJpegJobData_events.
  split; [|split; [|split; [|split; [|split; [|split]]]]].
  - intros js ->. rewrite !elem_of_app. do 5 right. left.
    by apply list_elem_of_singleton.
  - intros f ->. rewrite !elem_of_app. do 3 right. left.
    by apply list_elem_of_singleton.
  - intros f ->. rewrite !elem_of_app. right. left. right.
    by apply list_elem_of_singleton.
  - intros f ->. rewrite !elem_of_app. left.
    by apply list_elem_of_singleton.
  - intros b ->. rewrite !elem_of_app. do 2 right. left.
    by apply list_elem_of_singleton.
  - intros m -> ->. rewrite !elem_of_app.
    split; do 2 right; left; set_solver.
  - intros [e ->]. rewrite !elem_of_app. do 4 right. left.
    by apply list_elem_of_singleton.
Qed.

#[local] Arguments encodeFWKData : simpl never.
#[local] Arguments encodeData : simpl never.

Section Submission.
Variable MM_JPEG_MAX_BUF : nat.

(** The first part of an active wake, when the ongoing jpeg queue is empty
    and a job waits: the job goes through one encode call; when the call
    returns [NO_ERROR] the job, as the call left it, is the ongoing queue;
    otherwise the ongoing queue is empty again and the job is released and
    freed. *)
Lemma next_jpeg_job_submission env s s' job q :
  next_jpeg_job MM_JPEG_MAX_BUF env s = Some s' ->
  m_ongoingJpegQ (pme s) = [] ->
  m_inputJpegQ (pme s) = job :: q ->
  ∃ r j',
    (if non_null (fwk_frame job)
     then Some (encodeFWKData MM_JPEG_MAX_BUF env
                  (set_m_ongoingJpegQ (set_m_inputJpegQ (pme s) q) [job])
                  (Some job) (needNewSess s))
     else encodeData MM_JPEG_MAX_BUF env
            (set_m_ongoingJpegQ (set_m_inputJpegQ (pme s) q) [job])
            job (needNewSess s)) = Some r ∧
    er_job r = Some j' ∧ same_job_resources job j' ∧
    m_inputJpegQ (pme s') = q ∧
    m_pReprocChannel (pme s') = m_pReprocChannel (pme s) ∧
    mJpegClientHandle (pme s') = mJpegClientHandle (pme s) ∧
    running s' = running s ∧ is_active s' = is_active s ∧
    (er_ret r = NO_ERROR ->
       m_ongoingJpegQ (pme s') = [j'] ∧
       log (pme s') = log (pme s) ++ er_events r) ∧
    (er_ret r ≠ NO_ERROR ->
       m_ongoingJpegQ (pme s') = [] ∧
       log (pme s') =
         log (pme s) ++ er_events r ++
         snd (releaseJpegJobData (pme s) (Some j')) ++ [EvFreeJpegJob]).
Proof.
  unfold next_jpeg_job. intros Hs Hog Hin. rewrite Hog, Hin in Hs.
  simpl in Hs. rewrite Hog in Hs. change (enqueue [] job) with [job] in Hs.
  set (p1 := set_m_ongoingJpegQ (set_m_inputJpegQ (pme s) q) [job]) in *.
  assert (∀ r, (if non_null (fwk_frame job)
                then Some (encodeFWKData MM_JPEG_MAX_BUF env p1 (Some job)
                             (needNewSess s))
                else encodeData MM_JPEG_MAX_BUF env p1 job (needNewSess s))
               = Some r ->
               same_but_session p1 (er_pme r) ∧
               ∃ j', er_job r = Some j' ∧ same_job_resources job j')
    as Hleaves.
  { intros r Hr. destruct (non_null (fwk_frame job)).
    - simplify_eq. apply encodeFWKData_leaves.
    - by eapply encodeData_leaves. }
  destruct (if non_null (fwk_frame job) then _ else _) as [r|]; [|done].
  destruct (Hleaves r eq_refl) as [Hsame (j' & Hj & Hres)]. clear Hleaves.
  destruct Hsame as (_ & _ & Hhdl & Hch & _ & _ & _ & Hij & Hoj & _ & _ & Hlog).
  subst p1. simpl in Hhdl, Hch, Hij, Hoj, Hlog.
  exists r, j'. split; [done|]. split; [done|]. split; [done|].
  rewrite Hj in Hs. unfold update_last, dequeue_last in Hs.
  destruct (bool_decide (NO_ERROR ≠ er_ret r)) eqn:Hret; simplify_eq; simpl.
  - apply bool_decide_eq_true_1 in Hret.
    split; [done|]. split; [done|]. split; [done|].
    split; [done|]. split; [done|].
    split; [intros Hok; by rewrite Hok in Hret|]. intros _.
    rewrite Hoj. simpl. split; [done|].
    rewrite Hlog, <- !app_assoc. do 2 f_equal.
    f_equal. f_equal. by apply releaseJpegJobData_channel.
  - apply bool_decide_eq_false_1 in Hret.
    assert (er_ret r = NO_ERROR) as Hok
      by (symmetry; by apply dec_stable).
    split; [done|]. split; [done|]. split; [done|].
    split; [done|]. split; [done|].
    split; [|done]. intros _. rewrite Hoj, Hlog. done.
Qed.

(** The other parts of a wake start no job and leave the ongoing jpeg
    queue alone; the input jpeg queue can only grow at its back. *)
Lemma pp_parts_of_wake env p :
  let p' := next_pp_job env (next_fwk_pp_job env p) in
  m_ongoingJpegQ p' = m_ongoingJpegQ p ∧
  m_inputJpegQ p `prefix_of` m_inputJpegQ p' ∧
  ∃ evs, log p' = log p ++ evs ∧ forallb neutral evs = true.
Proof.
  simpl.
  destruct (frames_trans _ _ _ (next_fwk_pp_job_frames env p)
              (next_pp_job_frames env (next_fwk_pp_job env p)))
    as [Hq Hlog].
  split; [done|]. split; [|done].
  rewrite <- (next_fwk_pp_job_input env p) at 1.
  apply next_pp_job_input_prefix.
Qed.

(** Every job the thread submits runs in a session created in the same
    wake: when a [DO_NEXT_JOB] wake makes a [start_job] call, the wake has
    made a [create_session] call that returned [NO_ERROR], and the job
    carries the session id that call gave. *)
Theorem submitted_job_has_new_session env s s' :
  dataProcessRoutine MM_JPEG_MAX_BUF env CAMERA_CMD_TYPE_DO_NEXT_JOB s
    = Some s' ->
  ∃ evs, log (pme s') = log (pme s) ++ evs ∧
    ∀ j ret id, EvStartJob j ret id ∈ evs ->
      ∃ p, EvCreateSession p ∈ evs ∧
           create_session (mJpegHandle env) (mJpegClientHandle (pme s)) p
           = (NO_ERROR, session_id j).
Proof.
  intros Hs.
  destruct (m_ongoingJpegQ (pme s)) as [|j0 og] eqn:Hog.
  2:{ destruct (do_next_job_gated MM_JPEG_MAX_BUF env s s' Hs)
        as (evs & Hl & Hno & _); [by rewrite Hog|].
      exists evs. split; [done|]. intros j ret id Hin. by apply Hno in Hin. }
  unfold dataProcessRoutine, do_next_job in Hs.
  set (s0 := mk_state (running s) (is_active s) true (pme s)) in Hs.
  change (is_active s0) with (is_active s) in Hs.
  destruct (is_active s).
  - destruct (next_jpeg_job _ _ s0) as [s1|] eqn:Hjpeg; [|done].
    simpl in Hs. simplify_eq.
    destruct (pp_parts_of_wake env (pme s1)) as (_ & _ & evs2 & Hl2 & Hn2).
    simpl. rewrite Hl2.
    destruct (m_inputJpegQ (pme s)) as [|job q] eqn:Hin.
    + unfold next_jpeg_job in Hjpeg. simpl in Hjpeg.
      rewrite Hog, Hin in Hjpeg. simpl in Hjpeg. simplify_eq. simpl.
      exists evs2. split; [done|]. intros j ret id Hj.
      by apply neutral_no_start in Hj.
    + destruct (next_jpeg_job_submission env s0 s1 job q Hjpeg Hog Hin)
        as (r & j' & Hr & Hj & Hres & _ & _ & _ & _ & _ & Hok & Hfail).
      simpl in Hr.
      assert (∀ j ret id, EvStartJob j ret id ∈ er_events r ->
                ∃ p, EvCreateSession p ∈ er_events r ∧
                     create_session (mJpegHandle env)
                       (mJpegClientHandle (pme s)) p
                     = (NO_ERROR, session_id j)) as Hsess.
      { intros j ret id Hstart. destruct (non_null (fwk_frame job)).
        - simplify_eq.
          by apply encodeFWKData_new_session in Hstart.
        - destruct (encodeData_new_session _ _ _ _ _ _ _ _ Hr Hstart)
            as (p & Hp & Hc).
          exists p. split; [done|exact Hc]. }
      destruct (decide (er_ret r = NO_ERROR)) as [Hret|Hret].
      * destruct (Hok Hret) as [_ Hl1]. simpl in Hl1. rewrite Hl1.
        exists (er_events r ++ evs2). split; [by rewrite app_assoc|].
        intros j ret id Hstart. apply elem_of_app in Hstart as [Hstart|Hstart].
        -- destruct (Hsess _ _ _ Hstart) as (p & Hp & Hc).
           exists p. split; [set_solver|done].
        -- by apply neutral_no_start in Hstart.
      * destruct (Hfail Hret) as [_ Hl1]. simpl in Hl1. rewrite Hl1.
        eexists. split; [by rewrite <- !app_assoc|].
        intros j ret id Hstart.
        apply elem_of_app in Hstart as [Hstart|Hstart].
        -- destruct (Hsess _ _ _ Hstart) as (p & Hp & Hc).
           exists p. split; [set_solver|done].
        -- exfalso. revert Hstart. apply neutral_no_start.
           rewrite !forallb_app.
           rewrite releaseJpegJobData_neutral. simpl. by rewrite Hn2.
  - simplify_eq.
    destruct (drain_inactive_frames (pme s)) as [_ (evs & Hl & Hn)].
    exists evs. split; [exact Hl|].
    intros j ret id Hj. by apply neutral_no_start in Hj.
Qed.

(** A jpeg job whose submission fails is rolled back completely: when an
    active wake finds the ongoing jpeg queue empty, takes [job] off the
    input queue and leaves the ongoing queue empty, then no [start_job]
    call of the wake returned [NO_ERROR], the job record is freed, and the
    settings, the framework frame and the captured frame the job held are
    freed through [releaseJpegJobData]. *)
Theorem failed_submission_releases_job env s s' job q :
  dataProcessRoutine MM_JPEG_MAX_BUF env CAMERA_CMD_TYPE_DO_NEXT_JOB s
    = Some s' ->
  is_active s = true ->
  m_ongoingJpegQ (pme s) = [] ->
  m_inputJpegQ (pme s) = job :: q ->
  m_ongoingJpegQ (pme s') = [] ->
  q `prefix_of` m_inputJpegQ (pme s') ∧
  ∃ evs, log (pme s') = log (pme s) ++ evs ∧
    (∀ j ret id, EvStartJob j ret id ∈ evs -> ret ≠ NO_ERROR) ∧
    EvFreeJpegJob ∈ evs ∧
    (∀ js, jpeg_settings job = Some js -> EvFreeSettings js ∈ evs) ∧
    (∀ f, fwk_frame job = Some f -> EvFreeFwkFrame f ∈ evs) ∧
    (∀ f, src_frame job = Some f -> EvFreeSuperBuf f ∈ evs).
Proof.
  unfold dataProcessRoutine, do_next_job. intros Hs Hact Hog Hin Hog'.
  set (s0 := mk_state (running s) (is_active s) true (pme s)) in Hs.
  change (is_active s0) with (is_active s) in Hs. rewrite Hact in Hs.
  destruct (next_jpeg_job _ _ s0) as [s1|] eqn:Hjpeg; [|done].
  simpl in Hs. simplify_eq. simpl in Hog'.
  destruct (pp_parts_of_wake env (pme s1)) as (Hq2 & Hpre & evs2 & Hl2 & Hn2).
  simpl in *. rewrite Hq2 in Hog'.
  destruct (next_jpeg_job_submission env s0 s1 job q Hjpeg Hog Hin)
    as (r & j' & Hr & Hj & Hres & Hq1 & _ & _ & _ & _ & Hok & Hfail).
  rewrite Hq1 in Hpre. split; [done|].
  destruct (decide (er_ret r = NO_ERROR)) as [Hret|Hret].
  { destruct (Hok Hret) as [Hone _]. by rewrite Hone in Hog'. }
  destruct (Hfail Hret) as [_ Hl1]. simpl in Hl1.
  rewrite Hl2, Hl1.
  exists (er_events r ++
          snd (releaseJpegJobData (pme s) (Some j')) ++
          [EvFreeJpegJob] ++ evs2).
  split; [by rewrite <- !app_assoc|].
  destruct (releaseJpegJobData_releases (pme s) j')
    as (Hjs & Hfwk & Hsrc & _).
  destruct Hres as (Hsf & _ & _ & _ & Hff & _ & Hset).
  split; [|split; [|split; [|split]]].
  - intros j ret id Hstart.
    apply elem_of_app in Hstart as [Hstart|Hstart].
    + assert (er_ret r = ret) as <-; [|done].
      clear -Hr Hstart. destruct (non_null (fwk_frame job)).
      * simplify_eq. revert Hstart. unfold encodeFWKData.
        repeat case_match; simpl; intros Hstart; simplify_eq;
          try (by set_unfold);
          try (match goal with
               | H : fwk_new_session _ _ _ _ _ _ _ = _ |- _ =>
                   pose proof (λ ev, fwk_new_session_events _ _ _ _ _ _ _ _ _ _
                                       ev H) as Hevs
               end);
          set_unfold; naive_solver.
      * revert Hr Hstart. unfold encodeData.
        repeat case_match; intros; simplify_eq; simpl in *;
          try (by set_unfold);
          try (match goal with
               | H : new_session _ _ _ _ _ _ _ = _ |- _ =>
                   pose proof (λ ev, new_session_events _ _ _ _ _ _ _ _ _ _
                                       ev H) as Hevs
               end);
          set_unfold; naive_solver.
    + exfalso. revert Hstart. apply neutral_no_start.
      rewrite !forallb_app.
      rewrite releaseJpegJobData_neutral. simpl. by rewrite Hn2.
  - rewrite !elem_of_app. right. right. left.
    by apply list_elem_of_singleton.
  - intros js Hs'. rewrite !elem_of_app. right. left.
    apply Hjs. congruence.
  - intros f Hf. rewrite !elem_of_app. right. left.
    apply Hfwk. congruence.
  - intros f Hf. rewrite !elem_of_app. right. left.
    apply Hsrc. congruence.
Qed.

End Submission.

(** Give the value of an optional state computed by the machine. *)
Ltac computed_state t :=
  let v := eval vm_compute in t in
  match v with
  | Some ?s => exists s; split; [vm_compute; reflexivity|]
  end.

Lemma submitted_job_has_new_session_witness :
  ∃ s, ex_fwk_waiting = Some s ∧
  ∃ s', dataProcessRoutine 1 ex_env CAMERA_CMD_TYPE_DO_NEXT_JOB s = Some s' ∧
  ∃ evs, log (pme s') = log (pme s) ++ evs ∧
    ∀ j ret id, EvStartJob j ret id ∈ evs ->
      ∃ p, EvCreateSession p ∈ evs ∧
           create_session (mJpegHandle ex_env) (mJpegClientHandle (pme s)) p
           = (NO_ERROR, session_id j).
Proof.
  computed_state ex_fwk_waiting.
  match goal with
  | |- ∃ s', ?run = _ ∧ _ => computed_state run
  end.
  match goal with
  | |- ∃ evs, log (pme ?s') = log (pme ?s) ++ _ ∧ _ =>
      apply (submitted_job_has_new_session 1 ex_env s s')
  end.
  vm_compute. reflexivity.
Defined.

Lemma failed_submission_releases_job_witness :
  ∃ s, ex_fwk_waiting = Some s ∧
  ∃ s', dataProcessRoutine 1 ex_env_start_fails CAMERA_CMD_TYPE_DO_NEXT_JOB s
        = Some s' ∧
  ∃ evs, log (pme s') = log (pme s) ++ evs ∧
    (∀ j ret id, EvStartJob j ret id ∈ evs -> ret ≠ NO_ERROR) ∧
    EvFreeJpegJob ∈ evs ∧
    (∀ js, jpeg_settings ex_fwk_job = Some js -> EvFreeSettings js ∈ evs) ∧
    (∀ f, fwk_frame ex_fwk_job = Some f -> EvFreeFwkFrame f ∈ evs) ∧
    (∀ f, src_frame ex_fwk_job = Some f -> EvFreeSuperBuf f ∈ evs).
Proof.
  computed_state ex_fwk_waiting.
  match goal with
  | |- ∃ s', ?run = _ ∧ _ => computed_state run
  end.
  match goal with
  | |- ∃ evs, log (pme ?s') = log (pme ?s) ++ _ ∧ _ =>
      refine (proj2 (failed_submission_releases_job 1 ex_env_start_fails
                       s s' ex_fwk_job [] _ _ _ _ _))
  end; vm_compute; reflexivity.
Defined.

(** ** Framework reprocess jobs *)

Lemma removelast_snoc {A} (l : list A) (x : A) : removelast (l ++ [x]) = l.
Proof.
  induction l as [|y l IH]; [done|]. simpl.
  destruct (l ++ [x]) eqn:E; [by destruct l|]. by rewrite IH.
Qed.

(** The framework part of an active wake takes the oldest framework frame
    and the oldest settings.  When the pp job can be allocated, there is a
    reprocess channel and the channel accepts the frame, the job, holding
    the frame and the settings, is the newest item of the ongoing pp queue.
    Otherwise the ongoing pp queue is what it was, the pp job and the frame
    are freed, and the settings taken off their queue are not freed. *)
Theorem fwk_reprocess_submission (env : Env) (p : QCamera3PostProcessor)
    (f : qcamera_fwk_input_pp_data_t) (q : list qcamera_fwk_input_pp_data_t) :
  m_inputFWKPPQ p = f :: q ->
  let p' := next_fwk_pp_job env p in
  let accepted :=
    malloc_pp_job env && non_null (m_pReprocChannel p) &&
    bool_decide (doReprocessOffline env f = NO_ERROR) in
  m_inputFWKPPQ p' = q ∧
  m_jpegSettingsQ p' = tail (m_jpegSettingsQ p) ∧
  (accepted = true ->
     m_ongoingPPQ p' =
       m_ongoingPPQ p ++
       [mk_pp_data None (Some f) None (head (m_jpegSettingsQ p)) None] ∧
     log p' =
       log p ++ [EvOverrideFwkMetadata f;
                 EvDoReprocessOffline (frameNumber f)]) ∧
  (accepted = false ->
     m_ongoingPPQ p' = m_ongoingPPQ p ∧
     ∃ evs, log p' = log p ++ evs ∧
            EvFreeFwkFrame f ∈ evs ∧
            (malloc_pp_job env = true -> EvFreePPJob ∈ evs) ∧
            ∀ js, EvFreeSettings js ∉ evs).
Proof.
  intros Hq. unfold next_fwk_pp_job. rewrite Hq. simpl.
  assert ((dequeue (m_jpegSettingsQ p)).1 = head (m_jpegSettingsQ p) ∧
          (dequeue (m_jpegSettingsQ p)).2 = tail (m_jpegSettingsQ p))
    as [Hhd Htl] by (by destruct (m_jpegSettingsQ p)).
  destruct (dequeue (m_jpegSettingsQ p)) as [js qs]. simpl in Hhd, Htl.
  subst js qs.
  destruct (malloc_pp_job env); simpl.
  - destruct (m_pReprocChannel p) as [ch|]; simpl.
    + unfold dequeue_last, enqueue. simpl. rewrite removelast_snoc.
      destruct (decide (doReprocessOffline env f = NO_ERROR)) as [Hok|Hbad].
      * rewrite Hok. simpl. split; [done|]. split; [done|].
        split; [done|]. intros Hfalse. exfalso. revert Hfalse.
        by rewrite ?bool_decide_eq_true_2.
      * rewrite (bool_decide_eq_true_2 (NO_ERROR ≠ _)) by congruence.
        rewrite (bool_decide_eq_true_2 (0 ≠ _)) by (unfold NO_ERROR in Hbad; congruence).
        simpl. split; [done|]. split; [done|].
        rewrite (bool_decide_eq_false_2 (_ = NO_ERROR)) by done.
        split; [done|]. intros _. split; [done|].
        eexists. split; [by rewrite <- app_assoc|].
        split; [set_solver|]. split; [set_solver|].
        intros js. set_solver.
    + split; [done|]. split; [done|]. split; [done|]. intros _.
      split; [done|]. eexists. split; [done|].
      split; [set_solver|]. split; [set_solver|]. intros js. set_solver.
  - split; [done|]. split; [done|]. split; [done|]. intros _.
    split; [done|]. eexists. split; [done|].
    split; [set_solver|]. split; [done|]. intros js. set_solver.
Qed.

Lemma fwk_reprocess_submission_witness :
  m_inputFWKPPQ
    (next_fwk_pp_job ex_env (set_m_inputFWKPPQ ex_pme [ex_fwk])) = [] ∧
  m_ongoingPPQ
    (next_fwk_pp_job ex_env (set_m_inputFWKPPQ ex_pme [ex_fwk])) = [].
Proof.
  pose proof (fwk_reprocess_submission ex_env
                (set_m_inputFWKPPQ ex_pme [ex_fwk]) ex_fwk [] eq_refl)
    as (Hq & _ & _ & Hrej).
  split; [exact Hq|]. exact (proj1 (Hrej eq_refl)).
Defined.

(** ** A wake of a post-processor that is not active *)

Section Wakes.
Variable MM_JPEG_MAX_BUF : nat.

(** While the post-processor is not active a [DO_NEXT_JOB] wake takes the
    oldest item, if any, off each of the four input queues and no more,
    leaves the ongoing queues and the settings queue alone, stays
    inactive, and calls neither the encoder nor the reprocess channel; the
    frame of the pp buffer it took and the metadata frame it took are
    handed back to the channel. *)
Theorem inactive_wake_drains_one_of_each env s s' :
  dataProcessRoutine MM_JPEG_MAX_BUF env CAMERA_CMD_TYPE_DO_NEXT_JOB s
    = Some s' ->
  is_active s = false ->
  is_active s' = false ∧
  m_inputJpegQ (pme s') = tail (m_inputJpegQ (pme s)) ∧
  m_inputPPQ (pme s') = tail (m_inputPPQ (pme s)) ∧
  m_inputMetaQ (pme s') = tail (m_inputMetaQ (pme s)) ∧
  m_inputFWKPPQ (pme s') = tail (m_inputFWKPPQ (pme s)) ∧
  m_ongoingJpegQ (pme s') = m_ongoingJpegQ (pme s) ∧
  m_ongoingPPQ (pme s') = m_ongoingPPQ (pme s) ∧
  m_jpegSettingsQ (pme s') = m_jpegSettingsQ (pme s) ∧
  ∃ evs, log (pme s') = log (pme s) ++ evs ∧
    (∀ ev, ev ∈ evs ->
       match ev with
       | EvStartJob _ _ _ | EvCreateSession _ | EvDestroySession _
       | EvAbortJob _ | EvDoReprocessOffline _ | EvOverrideMetadata _
       | EvOverrideFwkMetadata _ | EvFreeSettings _ => False
       | _ => True
       end) ∧
    (∀ b f, head (m_inputPPQ (pme s)) = Some b -> pp_input b = Some f ->
       EvBufDone f ∈ evs) ∧
    (∀ m, head (m_inputMetaQ (pme s)) = Some m -> EvMetadataBufDone m ∈ evs).
Proof.
  unfold dataProcessRoutine, do_next_job. simpl. intros Hs Hact.
  rewrite Hact in Hs. simplify_eq. simpl.
  unfold drain_inactive.
  destruct (m_inputJpegQ (pme s)) as [|job qj]; simpl;
    destruct (m_inputPPQ (pme s)) as [|[[fr|] n] qp]; simpl;
    destruct (m_inputMetaQ (pme s)) as [|m qm]; simpl;
    destruct (m_inputFWKPPQ (pme s)) as [|f qf]; simpl;
    (split; [done|]); repeat (split; [done|]);
    (eexists; split;
       [rewrite <- ?app_assoc;
          first [reflexivity | symmetry; apply app_nil_r]|]);
    (split; [intros ev Hev; set_unfold; naive_solver|]);
    (split; [intros b f' ? ?; simplify_eq; set_solver
            |intros m' ?; simplify_eq; set_solver]).
Qed.

End Wakes.

Lemma inactive_wake_drains_one_of_each_witness :
  ∃ s, ex_waiting_inactive = Some s ∧
  ∃ s', dataProcessRoutine 1 ex_env CAMERA_CMD_TYPE_DO_NEXT_JOB s = Some s' ∧
        is_active s' = false ∧
        m_inputJpegQ (pme s') = tail (m_inputJpegQ (pme s)).
Proof.
  computed_state ex_waiting_inactive.
  match goal with
  | |- ∃ s', ?run = _ ∧ _ => computed_state run
  end.
  match goal with
  | |- is_active ?s' = false ∧ m_inputJpegQ _ = tail (m_inputJpegQ (pme ?s)) =>
      pose proof (inactive_wake_drains_one_of_each 1 ex_env s s')
        as Hwake
  end.
  destruct Hwake as (Hact & Hq & _); [vm_compute; reflexivity..|].
  split; [exact Hact|exact Hq].
Defined.

(** ** Stopping, flushing and closing *)



#[local] Arguments flush_events : simpl never.




Section Lifecycle.
Variable MM_JPEG_MAX_BUF : nat.



End Lifecycle.




(** [start(config)] activates the thread only on success.  When it returns
    [NO_ERROR] the thread is active and asks for a new session, and for a
    configuration that needs reprocessing the reprocess channel is the one
    just added.  When it fails the configuration needs reprocessing, the
    thread is as it was and no reprocess channel is left, the old one being
    stopped and deleted before the new one is asked for: the status is
    [UNKNOWN_ERROR] when no channel could be added, and otherwise that of
    starting the channel, which is then deleted. *)
Theorem start_outcome (env : Env) (s : State) (config : reprocess_config_t)
    (rc : Z) (s' : State) :
  start env s config = Some (rc, s') ->
  (rc = NO_ERROR ->
     is_active s' = true ∧ needNewSess s' = true ∧
     (reprocess_type config = REPROCESS_TYPE_NONE ->
        m_pReprocChannel (pme s') = m_pReprocChannel (pme s)) ∧
     (reprocess_type config ≠ REPROCESS_TYPE_NONE ->
        is_Some (m_pReprocChannel (pme s')) ∧
        m_pReprocChannel (pme s') = addOfflineReprocChannel env config)) ∧
  (rc ≠ NO_ERROR ->
     is_active s' = is_active s ∧ needNewSess s' = needNewSess s ∧
     m_pReprocChannel (pme s') = None ∧
     reprocess_type config ≠ REPROCESS_TYPE_NONE ∧
     ((addOfflineReprocChannel env config = None ∧ rc = UNKNOWN_ERROR) ∨
      (is_Some (addOfflineReprocChannel env config) ∧
       reprocess_type config = REPROCESS_TYPE_JPEG ∧
       rc = reproc_start env))) ∧
  (is_Some (m_pReprocChannel (pme s)) ->
   reprocess_type config ≠ REPROCESS_TYPE_NONE ->
   ∃ evs, log (pme s') = log (pme s) ++ [EvReprocStop; EvReprocDelete] ++ evs).
Proof.
  destruct s as [r a n [par mem h sid th ch q1 q2 q3 q4 q5 q6 q7 l]].
  unfold start, drop_reproc_channel. cbv zeta.
  destruct (reprocess_type config) eqn:Hty; cbn;
    destruct ch as [ch|]; cbn;
    destruct (addOfflineReprocChannel env config) as [ch'|] eqn:Hadd; cbn;
    try case_bool_decide; destruct r; cbn;
    intros Hs; simplify_eq; cbn;
    unfold NO_ERROR, UNKNOWN_ERROR in *;
    repeat match goal with
           | |- _ ∧ _ => split
           | |- _ -> _ => intros ?
           | H : is_Some None |- _ => by destruct H
           end;
    simplify_eq; try done; try lia;
    try (by eauto);
    try (left; by eauto); try (right; by eauto);
    try (eexists; rewrite <- ?app_assoc; cbn; reflexivity);
    try (match goal with
         | H : ¬ (_ ≠ _) |- _ => apply dec_stable in H; congruence
         end).
Qed.

Lemma start_outcome_witness :
  ∃ s', start ex_env_reproc_fails (initial ex_parent ex_mem) ex_reproc_config
        = Some (NO_ERROR, s') ∧
        is_active s' = true ∧ needNewSess s' = true.
Proof.
  let v := eval vm_compute in
    (start ex_env_reproc_fails (initial ex_parent ex_mem) ex_reproc_config) in
  match v with
  | Some (_, ?s') => exists s'
  end.
  assert (start ex_env_reproc_fails (initial ex_parent ex_mem)
            ex_reproc_config = Some (NO_ERROR, _)) as Hstart
    by (vm_compute; reflexivity).
  split; [exact Hstart|].
  destruct (start_outcome _ _ _ _ _ Hstart) as ((Hact & Hnew & _) & _);
    [reflexivity|].
  split; [exact Hact|exact Hnew].
Defined.

(** ** Finding the job the encoder reports *)



(** ** Pairing of framework frames with jpeg settings *)

Lemma queue_settings_queues p settings :
  m_jpegSettingsQ (queue_settings p settings) = m_jpegSettingsQ p ++ settings ∧
  m_inputJpegQ (queue_settings p settings) = m_inputJpegQ p.
Proof.
  unfold queue_settings. revert p.
  induction settings as [|js l IH]; intros p.
  - simpl. by rewrite app_nil_r.
  - cbn [fold_left].
    destruct (IH (processJpegSettingData p (Some js)).2) as [Hs Hj].
    rewrite Hs, Hj. unfold processJpegSettingData, enqueue. simpl.
    by rewrite <- app_assoc.
Qed.

Lemma process_frames_queues env p frames :
  malloc_jpeg_job env = true ->
  Forall (λ f, reprocess_type (reproc_config f) = REPROCESS_TYPE_NONE)
    frames ->
  m_inputJpegQ (process_frames env p frames) =
    m_inputJpegQ p ++ zip_with fwk_jpeg_job frames (m_jpegSettingsQ p) ∧
  m_jpegSettingsQ (process_frames env p frames) =
    drop (length frames) (m_jpegSettingsQ p).
Proof.
  intros Hmalloc Htypes. unfold process_frames. revert p.
  induction Htypes as [|f l Hf Hl IH]; intros p.
  - simpl. by rewrite app_nil_r.
  - cbn [fold_left].
    destruct (IH (processFwkData env p f).2) as [Hj Hs].
    rewrite Hj, Hs. unfold processFwkData. rewrite Hf, Hmalloc.
    destruct (m_jpegSettingsQ p) as [|js qs] eqn:Hq; simpl.
    + rewrite drop_nil. by destruct l.
    + unfold enqueue. by rewrite <- app_assoc.
Qed.

(** Framework frames that need no reprocessing are paired with the jpeg
    settings in arrival order: after the settings of a list have been
    queued and the frames of a list passed to [processData], the input
    jpeg queue has grown by one job per frame, the k-th frame with the k-th
    waiting settings, for as long as settings were waiting; the frames
    beyond that were refused and have left nothing. *)
Theorem frames_paired_with_settings_in_order (env : Env)
    (p : QCamera3PostProcessor) (settings : list jpeg_settings_t)
    (frames : list qcamera_fwk_input_pp_data_t) :
  malloc_jpeg_job env = true ->
  Forall (λ f, reprocess_type (reproc_config f) = REPROCESS_TYPE_NONE)
    frames ->
  let p' := process_frames env (queue_settings p settings) frames in
  m_inputJpegQ p' =
    m_inputJpegQ p ++
    zip_with fwk_jpeg_job frames (m_jpegSettingsQ p ++ settings) ∧
  m_jpegSettingsQ p' =
    drop (length frames) (m_jpegSettingsQ p ++ settings).
Proof.
  intros Hmalloc Htypes.
  destruct (queue_settings_queues p settings) as [Hs Hj].
  destruct (process_frames_queues env (queue_settings p settings) frames
              Hmalloc Htypes) as [Hj' Hs'].
  simpl. by rewrite Hj', Hs', Hs, Hj.
Qed.

Lemma frames_paired_with_settings_in_order_witness :
  m_inputJpegQ
    (process_frames ex_env
       (queue_settings ex_pme [ex_settings; ex_settings_plain])
       [ex_fwk; ex_fwk; ex_fwk])
  = [fwk_jpeg_job ex_fwk ex_settings; fwk_jpeg_job ex_fwk ex_settings_plain].
Proof.
  apply (frames_paired_with_settings_in_order ex_env ex_pme
           [ex_settings; ex_settings_plain] [ex_fwk; ex_fwk; ex_fwk]).
  - reflexivity.
  - repeat constructor.
Defined.

(** ** Releasing twice *)

(** The release routines clear the pointers they free, so a second call on
    the same record frees nothing again.  For a jpeg job there is one
    exception, which the first call leaves behind: with both a framework
    source buffer and a source metadata frame, the first call frees the
    buffer and does not touch the metadata frame, and it is the second
    call that hands the metadata frame back and frees it. *)
Theorem release_twice (p : QCamera3PostProcessor)
    (job : qcamera_hal3_jpeg_data_t) (pp_job : qcamera_hal3_pp_data_t)
    (buf : qcamera_hal3_pp_buffer_t) :
  snd (releaseJpegJobData p (fst (releaseJpegJobData p (Some job)))) =
    match fwk_src_buffer job, src_metadata job with
    | Some _, Some m => [EvMetadataBufDone m; EvFreeSuperBuf m]
    | _, _ => []
    end ++ [EvSendCmd CAMERA_CMD_TYPE_DO_NEXT_JOB] ∧
  snd (releasePPJobData (fst (releasePPJobData (Some pp_job)))) =
    [EvSendCmd CAMERA_CMD_TYPE_DO_NEXT_JOB] ∧
  snd (releasePPInputData (fst (releasePPInputData buf))) = [].
Proof.
  split; [|split].
  - unfold releaseJpegJobData.
    destruct job as [? ? ? ? [?|] ? [?|] ? ?]; reflexivity.
  - unfold releasePPJobData.
    destruct pp_job as [[?|] [?|] ? ? [?|]]; reflexivity.
  - unfold releasePPInputData.
    destruct buf as [[?|] ?]; reflexivity.
Qed.

(** ** A session without a destination buffer *)

(** [encodeFWKData] does not look at the status of
    [getFWKJpegEncodeConfig].  For a well-formed job whose settings name
    an output buffer the output memory does not know, a call that needs a
    new session still calls [create_session], with the parameters as the
    [memset] and the four dimension assignments left them: no source
    buffer, no destination buffer, quality 0; and when the encoder accepts
    that session, the job is handed to [start_job] all the same. *)
Theorem encodeFWKData_ignores_config_failure (MM_JPEG_MAX_BUF : nat)
    (env : Env) (pme : QCamera3PostProcessor)
    (job : qcamera_hal3_jpeg_data_t) (f : qcamera_fwk_input_pp_data_t)
    (meta : metadata_buffer_t) (js : jpeg_settings_t) :
  fwk_frame job = Some f -> metadata job = Some meta ->
  jpeg_settings job = Some js -> src_frame job = None ->
  0 < mJpegClientHandle pme -> mJpegSessionId pme <= 0 ->
  getSize (mOutputMem pme) (out_buf_index js) = BAD_INDEX ->
  let r := encodeFWKData MM_JPEG_MAX_BUF env pme (Some job) true in
  ∃ p, head (er_events r) = Some (EvCreateSession p) ∧
       num_src_bufs p = 0 ∧ num_dst_bufs p = 0 ∧ quality p = 0 ∧
       dest_buf p = replicate MM_JPEG_MAX_BUF zero_buf ∧
       (fst (create_session (mJpegHandle env) (mJpegClientHandle pme) p)
          = NO_ERROR ->
        ∃ j ret id, er_events r = [EvCreateSession p; EvStartJob j ret id] ∧
                    er_ret r = ret) ∧
       (fst (create_session (mJpegHandle env) (mJpegClientHandle pme) p)
          ≠ NO_ERROR ->
        er_events r = [EvCreateSession p] ∧
        er_ret r =
          fst (create_session (mJpegHandle env) (mJpegClientHandle pme) p)).
Proof.
  intros Hf Hm Hjs Hsrc Hh Hsid Hbad.
  exists (set_thumb_dim
            (set_main_dim (zero_params MM_JPEG_MAX_BUF)
               (mk_jpeg_dim (input_stream_dim (reproc_config f))
                  (output_stream_dim (reproc_config f)) zero_rect))
            (mk_jpeg_dim (input_stream_dim (reproc_config f))
               (thumbnail_size js) zero_rect)).
  unfold encodeFWKData. rewrite Hf, Hm, Hjs, Hsrc. simpl.
  rewrite bool_decide_eq_false_2 by lia.
  unfold fwk_new_session, destroy_old_session.
  rewrite bool_decide_eq_false_2 by lia.
  unfold getFWKJpegEncodeConfig.
  rewrite bool_decide_eq_true_2 by done.
  destruct (create_session _ _ _) as [ret sid] eqn:Hcreate. simpl.
  case_bool_decide as Hret; simpl.
  - split; [reflexivity|]. repeat (split; [reflexivity|]).
    split; [done|]. by intros _.
  - destruct (start_job _ _) as [ret' id'] eqn:Hstart. simpl.
    split; [reflexivity|]. repeat (split; [reflexivity|]).
    split; [|intros Hne; simpl in Hne; congruence].
    intros _. by eauto.
Qed.

Lemma encodeFWKData_ignores_config_failure_witness :
  ∃ p, head (er_events
               (encodeFWKData 1 ex_env ex_pme_one
                  (Some ex_fwk_job_no_buffer) true))
       = Some (EvCreateSession p) ∧ num_dst_bufs p = 0.
Proof.
  destruct (encodeFWKData_ignores_config_failure 1 ex_env ex_pme_one
              ex_fwk_job_no_buffer ex_fwk ex_metadata ex_settings_no_buffer
              eq_refl eq_refl eq_refl eq_refl ltac:(vm_compute; reflexivity)
              ltac:(vm_compute; discriminate) eq_refl)
    as (p & Hhead & _ & Hdst & _).
  exists p. split; [exact Hhead|exact Hdst].
Defined.

(** ** Reprocessed frames *)

(** [processPPData] takes the oldest job off the ongoing pp queue whether
    or not it succeeds.  It returns [NO_ERROR] exactly when there is such a
    job, the job has a source frame or a framework source frame, it has
    jpeg settings and the jpeg job can be allocated; the jpeg job then
    joins the input jpeg queue with the reprocessed frame and the settings,
    the framework frame and the source metadata of the pp job, and the pp
    job record is freed.  When it fails the input jpeg queue is as it was
    and nothing is freed: the pp job taken off the queue is neither
    released nor put back. *)
Theorem processPPData_outcome (env : Env) (p : QCamera3PostProcessor)
    (frame : option mm_camera_super_buf_t) :
  let r := processPPData env p frame in
  m_ongoingPPQ r.2 = tail (m_ongoingPPQ p) ∧
  (r.1 = NO_ERROR <->
     ∃ job, head (m_ongoingPPQ p) = Some job ∧
            (is_Some (pp_src_frame job) ∨ is_Some (pp_fwk_src_frame job)) ∧
            is_Some (pp_jpeg_settings job) ∧ malloc_jpeg_job env = true) ∧
  (r.1 ≠ NO_ERROR ->
     m_inputJpegQ r.2 = m_inputJpegQ p ∧ log r.2 = log p) ∧
  (∀ job, head (m_ongoingPPQ p) = Some job -> r.1 = NO_ERROR ->
     ∃ j, m_inputJpegQ r.2 = m_inputJpegQ p ++ [j] ∧
          src_frame j = frame ∧
          jpeg_settings j = pp_jpeg_settings job ∧
          fwk_src_buffer j = pp_fwk_src_frame job ∧
          src_metadata j = pp_src_metadata job ∧
          log r.2 =
            log p ++ [EvFreePPJob; EvSendCmd CAMERA_CMD_TYPE_DO_NEXT_JOB]).
Proof.
  unfold processPPData.
  destruct (m_ongoingPPQ p) as [|job q] eqn:Hq; simpl.
  { split; [done|]. split; [|done]. split; [done|]. by intros (? & ? & _). }
  destruct job as [sf ff md js sm]; simpl.
  destruct sf as [sf|], ff as [ff|], js as [js|];
    destruct (malloc_jpeg_job env) eqn:Hm; simpl;
    (split; [done|]); (split; [|split]);
    try (split; [done|]; intros (j & [= <-] & Hsrc & Hjs & Hmem); simpl in *;
         try (by destruct Hjs); try (by destruct Hsrc as [[]|[]]); done);
    try done;
    try (split; [intros _|done]; eexists; split; [done|]; by eauto);
    try (intros j [= <-] _; eexists; by repeat (split; [reflexivity|]));
    try (intros j [= <-] Hbad; by exfalso).
Qed.

(** A framework frame on its way through reprocessing.  The wake that
    finds frame [f] and a reprocess channel that accepts it, followed by
    [processPPData] for the reprocessed frame: with settings [js] at the
    head of the settings queue, the input jpeg queue receives one job,
    holding the reprocessed frame, [f] with its metadata, and [js].  With
    no settings queued the frame is sent to the channel all the same, and
    when the reprocessed frame comes back [processPPData] returns
    [BAD_VALUE]: no jpeg job is made and [f] is not freed. *)
Theorem fwk_reprocess_round_trip (env : Env) (p : QCamera3PostProcessor)
    (f : qcamera_fwk_input_pp_data_t) (q : list qcamera_fwk_input_pp_data_t)
    (frame : option mm_camera_super_buf_t) :
  m_inputFWKPPQ p = f :: q ->
  m_ongoingPPQ p = [] ->
  is_Some (m_pReprocChannel p) ->
  malloc_pp_job env = true ->
  malloc_jpeg_job env = true ->
  doReprocessOffline env f = NO_ERROR ->
  let r := processPPData env (next_fwk_pp_job env p) frame in
  m_ongoingPPQ r.2 = [] ∧
  m_inputFWKPPQ r.2 = q ∧
  (∀ js rest, m_jpegSettingsQ p = js :: rest ->
     r.1 = NO_ERROR ∧
     m_jpegSettingsQ r.2 = rest ∧
     m_inputJpegQ r.2 =
       m_inputJpegQ p ++
       [mk_jpeg_data 0 frame None (metadata_buffer f) None None (Some f)
          None (Some js)]) ∧
  (m_jpegSettingsQ p = [] ->
     r.1 = BAD_VALUE ∧
     m_inputJpegQ r.2 = m_inputJpegQ p ∧
     log r.2 =
       log p ++ [EvOverrideFwkMetadata f;
                 EvDoReprocessOffline (frameNumber f)]).
Proof.
  intros Hq Hog [ch Hch] Hpp Hjpeg Hok.
  unfold next_fwk_pp_job, processPPData.
  rewrite Hq; simpl. rewrite Hpp, Hch, Hog; simpl. rewrite Hok; simpl.
  unfold dequeue_last, enqueue; simpl.
  destruct (m_jpegSettingsQ p) as [|js rest] eqn:Hjs; simpl.
  - split; [done|]. split; [done|]. split; [by intros ? ? [=]|done].
  - rewrite Hjpeg; simpl. split; [done|]. split; [done|].
    split; [|by intros [=]]. intros js' rest' [= <- <-].
    split; [done|]. split; [done|].
    unfold same_super_buf. by case_bool_decide.
Qed.

Lemma fwk_reprocess_round_trip_witness :
  (processPPData ex_env (next_fwk_pp_job ex_env ex_pme_fwk_waiting)
     (Some ex_frame)).1 = BAD_VALUE ∧
  (processPPData ex_env (next_fwk_pp_job ex_env ex_pme_fwk_with_settings)
     (Some ex_frame)).1 = NO_ERROR.
Proof.
  split.
  - apply (fwk_reprocess_round_trip ex_env ex_pme_fwk_waiting ex_fwk []
             (Some ex_frame));
      try reflexivity; by eexists.
  - eapply (fwk_reprocess_round_trip ex_env ex_pme_fwk_with_settings ex_fwk []
              (Some ex_frame));
      try reflexivity; by eexists.
Defined.
